(** * Hot-Plug Heaven: the core broker's ledger, scheduler and agent executor

    A shallow embedding of
      - [src/host/controller/controller_multi.py] (module [Controller]):
        the allocation ledger, [register], [request_alloc], [complete],
        [estimate_used_cores], [_assign_and_record] and one pass of
        [scheduler_loop];
      - [src/vm/agent_instance.py] (module [Agent]): the [status],
        [allocate] and [release] handlers over the agent's [jobs] table;
    followed by the properties of the specification that were checked
    against them.

    Modelling conventions.
      - A Python [dict] is an association list in insertion order
        (module [PyDict]): [d[k] = v] rewrites an existing key in place and
        appends a new one, as CPython does; iteration ([items]) follows that
        order, which the scheduler depends on ([c["idxs"][-1]]).
      - Python [int] is [Z].  Python [float] CPU percentages are exact
        rationals [Q]; [round] is Python 3's round-half-to-even.
      - HTTP calls to agents are functions on an explicit [World]; a call
        that raises (time-out, refused connection, [None] endpoint) is a
        failed reply.  The controller never looks at anything else.
      - The wall clock ([time.time()], [time.strftime]) is an argument
        [now]; the SQLite audit log ([log_db]) is write-only and swallows
        its own errors, so it is left out. *)

From Stdlib Require Import ZArith List String Bool Lia QArith Qround Lqa Sorted.
From Stdlib Require Import Ascii DecimalString DecimalPos DecimalZ Permutation.
Import ListNotations.
Open Scope Z_scope.

Set Implicit Arguments.

(* ================================================================== *)
(** * Part I: the program                                              *)
(* ================================================================== *)

(** Python's [==] on the key types that occur. *)
Class PyEq (K : Type) := { py_eqb : K -> K -> bool }.

Class PyEqLaws (K : Type) `{PyEq K} :=
  { py_eqb_spec : forall x y : K, reflect (x = y) (py_eqb x y) }.
Arguments PyEqLaws K {_}.

#[global] Instance PyEq_Z : PyEq Z := {| py_eqb := Z.eqb |}.
#[global] Instance PyEq_string : PyEq string := {| py_eqb := String.eqb |}.
#[global] Instance PyEq_prod {A B} `{PyEq A} `{PyEq B} : PyEq (A * B) :=
  {| py_eqb := fun x y => py_eqb (fst x) (fst y) && py_eqb (snd x) (snd y) |}.
#[global] Instance PyEq_option {A} `{PyEq A} : PyEq (option A) :=
  {| py_eqb := fun x y =>
       match x, y with
       | Some a, Some b => py_eqb a b
       | None, None => true
       | _, _ => false
       end |}.

(** ** Python dictionaries, in insertion order *)
Module PyDict.
Section Dict.
Context {K V : Type} `{PyEq K}.

Definition dict := list (K * V).

(** [d.get(k)] *)
Fixpoint get (d : dict) (k : K) : option V :=
  match d with
  | [] => None
  | (k', v) :: r => if py_eqb k' k then Some v else get r k
  end.

(** [k in d] *)
Definition mem (d : dict) (k : K) : bool :=
  match get d k with Some _ => true | None => false end.

(** [d[k] = v]: an existing key keeps its place, a new key goes last. *)
Fixpoint set (d : dict) (k : K) (v : V) : dict :=
  match d with
  | [] => [(k, v)]
  | (k', v') :: r =>
      if py_eqb k' k then (k', v) :: r else (k', v') :: set r k v
  end.

(** [d.setdefault(k, v)] (the value it returns is not used). *)
Definition setdefault (d : dict) (k : K) (v : V) : dict :=
  if mem d k then d else d ++ [(k, v)].

(** [d.pop(k, None)], the dictionary that is left. *)
Definition pop (d : dict) (k : K) : dict :=
  filter (fun kv => negb (py_eqb (fst kv) k)) d.

Definition keys (d : dict) : list K := map fst d.

(** Keys of a dictionary are unique. *)
Definition wf (d : dict) : Prop := NoDup (keys d).
End Dict.
Arguments dict : clear implicits.
End PyDict.

(** ** Python list helpers *)

(** [list(range(lo, hi))] *)
Definition py_range (lo hi : Z) : list Z :=
  map (fun i => lo + Z.of_nat i) (seq 0 (Z.to_nat (hi - lo))).

(** [l[:n]], also for a negative [n] (which drops [-n] items from the end). *)
Definition py_slice_to {A} (l : list A) (n : Z) : list A :=
  if 0 <=? n then firstn (Z.to_nat n) l
  else firstn (List.length l - Z.to_nat (- n))%nat l.

(** [len(l)] *)
Definition py_len {A} (l : list A) : Z := Z.of_nat (List.length l).

(** [l.remove(x)]: drops the first item equal to [x]. *)
Fixpoint py_remove {A} `{PyEq A} (x : A) (l : list A) : list A :=
  match l with
  | [] => []
  | y :: r => if py_eqb y x then r else y :: py_remove x r
  end.

(** [x in l] *)
Definition py_in {A} `{PyEq A} (x : A) (l : list A) : bool :=
  existsb (fun y => py_eqb y x) l.

(** [int(round(q))]: Python 3 rounds halves to the even neighbour. *)
Definition py_round (q : Q) : Z :=
  let f := Qfloor q in
  match Qcompare (q - inject_Z f) (1 # 2) with
  | Lt => f
  | Gt => f + 1
  | Eq => if Z.even f then f else f + 1
  end.

(** [str(n)] for an [int]: decimal digits, with a leading [-] when
    negative. *)
Definition py_str (n : Z) : string := NilZero.string_of_int (Z.to_int n).

(** [{fk(k, v): fv(k, v) for k, v in d.items()}]: entries are written in
    iteration order, a repeated key keeps its first place and takes the
    last value. *)
Definition py_dict_comprehension {K V K' V' : Type} `{PyEq K'}
           (fk : K -> V -> K') (fv : K -> V -> V') (d : PyDict.dict K V)
  : PyDict.dict K' V' :=
  fold_left (fun acc kv => PyDict.set acc (fk (fst kv) (snd kv))
                                      (fv (fst kv) (snd kv)))
            d [].

Definition Timestamp := Z.

(** One row of an agent's [/status] reply. *)
Record JobRow := mkJobRow
  { row_job : string;
    row_pid : Z;
    row_cores : list Z;
    row_cpu_percent : Q }.

(* ------------------------------------------------------------------ *)
(** ** The agent executor ([src/vm/agent_instance.py])                  *)
(* ------------------------------------------------------------------ *)
Module Agent.

(** The value stored under a job name: [{"pid": pid, "cores": cores}]. *)
Record JobInfo := mkJobInfo { job_pid : Z; job_cores : list Z }.

(** [/allocate] payload.  [alloc_pid = None] stands for a ["pid"] that
    [int()] rejects (missing or not a number). *)
Record AllocatePayload := mkAllocatePayload
  { alloc_job : string; alloc_pid : option Z; alloc_cores : list Z }.

Record ReleasePayload := mkReleasePayload
  { rel_job : string; rel_keep_cores : list Z }.

(** Replies of [/allocate] and [/release]. *)
Inductive Reply :=
| Ok200 (job : string) (cores : list Z)   (* {"ok": True, job, cores} *)
| BindError500                            (* {"ok": False, error}, 500 *)
| JobNotFound404                          (* {"ok": False, ...}, 404 *)
| Unhandled500.                           (* exception outside the try *)

Definition reply_ok (r : Reply) : bool :=
  match r with Ok200 _ _ => true | _ => false end.

Record StatusReply := mkStatusReply
  { st_vm : string; st_total_cores : Z; st_offset : Z;
    st_jobs : list JobRow }.

(** [set(cores)]: the distinct core numbers. *)
Definition py_set (cores : list Z) : list Z := nodup Z.eq_dec cores.

Section Executor.
(** The operating system the agent runs on: [os.sched_setaffinity]
    either installs the mask or raises ([None]); [psutil] either
    samples a CPU percentage or raises ([None]). *)
Variable OS : Type.
Variable sched_setaffinity : OS -> Z -> list Z -> option OS.
Variable cpu_percent : OS -> Z -> option Q.

Record State := mkState
  { AGENT_NAME : string;
    TOTAL_CORES : Z;
    CORE_OFFSET : Z;
    jobs : PyDict.dict string JobInfo;
    os : OS }.

Definition with_jobs (a : State) (j : PyDict.dict string JobInfo) : State :=
  {| AGENT_NAME := AGENT_NAME a; TOTAL_CORES := TOTAL_CORES a;
     CORE_OFFSET := CORE_OFFSET a; jobs := j; os := os a |}.

Definition with_os (a : State) (o : OS) : State :=
  {| AGENT_NAME := AGENT_NAME a; TOTAL_CORES := TOTAL_CORES a;
     CORE_OFFSET := CORE_OFFSET a; jobs := jobs a; os := o |}.

(** [status()] *)
Definition status (a : State) : StatusReply :=
  let rows :=
    map (fun kv =>
           let '(jname, jinfo) := kv in
           let cpu := match cpu_percent (os a) (job_pid jinfo) with
                      | Some p => p
                      | None => 0%Q
                      end in
           mkJobRow jname (job_pid jinfo) (job_cores jinfo) cpu)
        (jobs a) in
  mkStatusReply (AGENT_NAME a) (TOTAL_CORES a) (CORE_OFFSET a) rows.

(** [allocate()] *)
Definition allocate (a : State) (p : AllocatePayload) : State * Reply :=
  match alloc_pid p with
  | None => (a, Unhandled500)
  | Some pid =>
      match sched_setaffinity (os a) pid (py_set (alloc_cores p)) with
      | Some o' =>
          let a' := with_os a o' in
          (with_jobs a'
             (PyDict.set (jobs a') (alloc_job p)
                (mkJobInfo pid (alloc_cores p))),
           Ok200 (alloc_job p) (alloc_cores p))
      | None => (a, BindError500)
      end
  end.

(** [release()] *)
Definition release (a : State) (p : ReleasePayload) : State * Reply :=
  match PyDict.get (jobs a) (rel_job p) with
  | None => (a, JobNotFound404)
  | Some info =>
      match sched_setaffinity (os a) (job_pid info)
              (py_set (rel_keep_cores p)) with
      | Some o' =>
          let a' := with_os a o' in
          (with_jobs a'
             (PyDict.set (jobs a') (rel_job p)
                (mkJobInfo (job_pid info) (rel_keep_cores p))),
           Ok200 (rel_job p) (rel_keep_cores p))
      | None => (a, BindError500)
      end
  end.
End Executor.
End Agent.

(* ------------------------------------------------------------------ *)
(** ** The controller ([src/host/controller/controller_multi.py])       *)
(* ------------------------------------------------------------------ *)
Module Controller.

(** [(agent_name, job)] *)
Definition Key : Type := string * string.

(** Config / tuning. *)
Definition MIN_CORES_PER_JOB : Z := 1.
Definition RESERVE_BUFFER : Z := 0.
Definition ACTIVITY_CAP : nat := 400.

(** A value of [AGENTS]. *)
Record AgentInfo := mkAgentInfo
  { total_cores : Z;
    endpoint : option string;
    last : Timestamp;
    offset : Z }.

(** An item of [PENDING]. *)
Record PendingRequest := mkPendingRequest
  { vm : string; job : string; pid : Z; need : Z; ts : Timestamp }.

#[global] Instance PyEq_PendingRequest : PyEq PendingRequest :=
  {| py_eqb := fun a b =>
       String.eqb (vm a) (vm b) && String.eqb (job a) (job b)
       && Z.eqb (pid a) (pid b) && Z.eqb (need a) (need b)
       && Z.eqb (ts a) (ts b) |}.

(** What [push_activity] is called with; the formatted text is not
    looked at by any code. *)
Inductive Activity :=
| Registered (agent : string) (offset total : Z)
| Queued (job vm : string) (need : Z)
| Completed (job vm : string) (freed : list Z)
| Dropped (job vm : string)
| Allocated (job vm : string) (pick : list Z) (after_steal : bool)
| Stole (idxs : list Z) (src_job src_agent job vm : string).

(** The runtime data structures. *)
Record State := mkState
  { AGENTS : PyDict.dict string AgentInfo;
    CORE_MAP : PyDict.dict Z (option Key);
    ALLOCATIONS : PyDict.dict Key (list Z);
    JOB_REQUEST : PyDict.dict Key Z;
    PENDING : list PendingRequest;
    ACTIVITY_LOG : list (Timestamp * Activity) }.

Definition empty : State := mkState [] [] [] [] [] [].

Definition with_AGENTS (s : State) x : State :=
  mkState x (CORE_MAP s) (ALLOCATIONS s) (JOB_REQUEST s) (PENDING s)
          (ACTIVITY_LOG s).
Definition with_CORE_MAP (s : State) x : State :=
  mkState (AGENTS s) x (ALLOCATIONS s) (JOB_REQUEST s) (PENDING s)
          (ACTIVITY_LOG s).
Definition with_ALLOCATIONS (s : State) x : State :=
  mkState (AGENTS s) (CORE_MAP s) x (JOB_REQUEST s) (PENDING s)
          (ACTIVITY_LOG s).
Definition with_JOB_REQUEST (s : State) x : State :=
  mkState (AGENTS s) (CORE_MAP s) (ALLOCATIONS s) x (PENDING s)
          (ACTIVITY_LOG s).
Definition with_PENDING (s : State) x : State :=
  mkState (AGENTS s) (CORE_MAP s) (ALLOCATIONS s) (JOB_REQUEST s) x
          (ACTIVITY_LOG s).
Definition with_ACTIVITY_LOG (s : State) x : State :=
  mkState (AGENTS s) (CORE_MAP s) (ALLOCATIONS s) (JOB_REQUEST s)
          (PENDING s) x.

(** [push_activity]: newest first, at most 400 entries. *)
Definition push_activity (now : Timestamp) (a : Activity) (s : State)
  : State :=
  let l := (now, a) :: ACTIVITY_LOG s in
  with_ACTIVITY_LOG s
    (if Nat.ltb ACTIVITY_CAP (List.length l) then removelast l else l).

(** *** [/register] *)

(** The JSON body; absent fields are [None]. *)
Record RegisterData := mkRegisterData
  { vm_name : string;
    reg_endpoint : option string;
    reg_total_cores : option Z;
    reg_core_offset : option Z }.

Definition seed_free (cm : PyDict.dict Z (option Key)) (slots : list Z)
  : PyDict.dict Z (option Key) :=
  fold_left (fun m g => PyDict.setdefault m g None) slots cm.

Definition register (data : RegisterData) (now : Timestamp) (s : State)
  : State :=
  let agent := vm_name data in
  let endpoint := reg_endpoint data in
  let total := match reg_total_cores data with Some t => t | None => 1 end in
  let offset := match reg_core_offset data with Some o => o | None => 0 end in
  let s1 := with_AGENTS s
              (PyDict.set (AGENTS s) agent
                 (mkAgentInfo total endpoint now offset)) in
  let s2 := with_CORE_MAP s1
              (seed_free (CORE_MAP s1) (py_range offset (offset + total))) in
  push_activity now (Registered agent offset total) s2.

(** *** [/request] *)

Record RequestData := mkRequestData
  { req_vm : string; req_job : string; req_pid : Z;
    req_cores_requested : option Z }.

Inductive RequestReply :=
| ReplyQueued            (* {"status": "queued"} *)
| ReplyUnknownAgent.     (* {"status": "error", ...}, 400 *)

Definition request_alloc (data : RequestData) (now : Timestamp) (s : State)
  : State * RequestReply :=
  let need := match req_cores_requested data with
              | Some n => n | None => 1 end in
  let entry := mkPendingRequest (req_vm data) (req_job data) (req_pid data)
                                need now in
  if negb (PyDict.mem (AGENTS s) (req_vm data)) then (s, ReplyUnknownAgent)
  else
    let s1 := with_PENDING s (PENDING s ++ [entry]) in
    let s2 := with_JOB_REQUEST s1
                (PyDict.set (JOB_REQUEST s1) (req_vm data, req_job data)
                   need) in
    (push_activity now (Queued (req_job data) (req_vm data) need) s2,
     ReplyQueued).

(** *** [estimate_used_cores] *)
Definition estimate_used_cores (cpu_percent : Q) (allocated : Z) : Z :=
  let est :=
    Z.max 1 (py_round ((cpu_percent / 100) * inject_Z allocated)%Q) in
  Z.min est allocated.

(** Slots of the core map bound to a key, in the map's order:
    [[g for g,m in CORE_MAP.items() if m==(a_name, job)]]. *)
Definition bound_idxs (cm : PyDict.dict Z (option Key)) (k : Key) : list Z :=
  map fst (filter (fun gm => py_eqb (snd gm) (Some k)) cm).

(** [CORE_MAP.get(g) is None] *)
Definition is_free (cm : PyDict.dict Z (option Key)) (g : Z) : bool :=
  match PyDict.get cm g with
  | Some (Some _) => false
  | _ => true
  end.

(** [[g for g in agent_slots if CORE_MAP.get(g) is None]] *)
Definition free_slots_of (cm : PyDict.dict Z (option Key)) (agent_slots : list Z)
  : list Z :=
  filter (is_free cm) agent_slots.

(** [for c in cores: CORE_MAP[c] = v] *)
Definition mark (cm : PyDict.dict Z (option Key)) (cores : list Z)
           (v : option Key) : PyDict.dict Z (option Key) :=
  fold_left (fun m c => PyDict.set m c v) cores cm.

(** A steal candidate and a planned steal. *)
Record Candidate := mkCandidate
  { c_spare : Z; c_agent : string; c_job : string; c_idxs : list Z }.

Record Stolen := mkStolen
  { src_agent : string; src_job : string; s_idxs : list Z }.

(** Candidates contributed by the jobs one agent reports. *)
Definition job_candidates (cm : PyDict.dict Z (option Key)) (a_name : string)
           (rows : list JobRow) : list Candidate :=
  flat_map
    (fun j =>
       let allocated := py_len (bound_idxs cm (a_name, row_job j)) in
       if allocated <=? MIN_CORES_PER_JOB then []
       else
         let used := estimate_used_cores (row_cpu_percent j) allocated in
         let spare := allocated - used in
         if (1 <=? spare) && (MIN_CORES_PER_JOB <=? allocated - 1)
         then [mkCandidate spare a_name (row_job j)
                           (bound_idxs cm (a_name, row_job j))]
         else [])
    rows.

(** [candidates.sort(key=lambda x: x["spare"], reverse=True)]: stable,
    largest spare first. *)
Fixpoint insert_by_spare (c : Candidate) (l : list Candidate)
  : list Candidate :=
  match l with
  | [] => [c]
  | d :: r =>
      if c_spare d <=? c_spare c then c :: d :: r
      else d :: insert_by_spare c r
  end.

Definition sort_by_spare_desc (l : list Candidate) : list Candidate :=
  fold_right insert_by_spare [] l.

(** The [while need_remaining>0 and candidates] loop.  [c["idxs"][-1]] is
    the last bound slot in core-map order; candidates always carry at
    least two slots, so the default of [last] is never used. *)
Fixpoint take_victims (need_remaining : Z) (candidates : list Candidate)
  : list Stolen * Z :=
  match candidates with
  | [] => ([], need_remaining)
  | c :: rest =>
      if 0 <? need_remaining then
        let chosen := [List.last (c_idxs c) 0] in
        let '(more, n) :=
          take_victims (need_remaining - py_len chosen) rest in
        (mkStolen (c_agent c) (c_job c) chosen :: more, n)
      else ([], need_remaining)
  end.

(** The victim's cores as its agent reports them: the last row for the
    job wins, and no row means [[]]. *)
Definition current_cores (rows : list JobRow) (src_job : string) : list Z :=
  fold_left
    (fun cur jj => if String.eqb (row_job jj) src_job then row_cores jj
                   else cur)
    rows [].

Inductive CompleteReply :=
| CompleteOk (freed : list Z)   (* {"ok": True, "freed": cores} *)
| NotAllocated.                 (* {"ok": False, ...}, 400 *)

(** What [/summary] returns. *)
Record AgentSummary := mkAgentSummary
  { sum_total_cores : Z; sum_offset : Z; sum_endpoint : option string }.

Record Summary := mkSummary
  { sum_agents : PyDict.dict string AgentSummary;
    sum_core_map : PyDict.dict string (option Key);
    sum_allocations : PyDict.dict string (list Z);
    sum_pending : list PendingRequest;
    sum_activity : list (Timestamp * Activity);
    sum_live_jobs : PyDict.dict string (list JobRow) }.

(** [f"{a}|{j}"] *)
Definition alloc_key (a j : string) : string := (a ++ "|" ++ j)%string.

Section Network.
(** Everything outside the controller process. *)
Variable World : Type.
(** [requests.get(endpoint+"/status").json()]; [None] when it raises. *)
Variable http_status : World -> string -> World * option (list JobRow).
(** [requests.post(endpoint+"/allocate", ...)]; [true] when the reply
    has status 200 and ["ok"], [false] otherwise or when it raises. *)
Variable http_allocate :
  World -> string -> string -> Z -> list Z -> World * bool.
(** [requests.post(endpoint+"/release", ...)]; [true] unless it raises
    (the reply itself is not inspected). *)
Variable http_release :
  World -> string -> string -> list Z -> World * bool.

(** [AGENTS[a]["endpoint"] + "/..."] raises on an agent that is not in
    the table and on a [None] endpoint, before anything is sent. *)
Definition endpoint_of (s : State) (a : string) : option string :=
  match PyDict.get (AGENTS s) a with
  | Some info => endpoint info
  | None => None
  end.

Definition call_status (w : World) (ep : option string)
  : World * option (list JobRow) :=
  match ep with
  | Some e => http_status w e
  | None => (w, None)
  end.

Definition call_allocate (w : World) (ep : option string)
           (job : string) (pid : Z) (cores : list Z) : World * bool :=
  match ep with
  | Some e => http_allocate w e job pid cores
  | None => (w, false)
  end.

Definition call_release (w : World) (ep : option string)
           (job : string) (keep : list Z) : World * bool :=
  match ep with
  | Some e => http_release w e job keep
  | None => (w, false)
  end.

(** *** [/complete] *)
Definition complete (vm job : string) (now : Timestamp)
           (sw : State * World) : (State * World) * CompleteReply :=
  let '(s, w) := sw in
  let key := (vm, job) in
  match PyDict.get (ALLOCATIONS s) key with
  | None => ((s, w), NotAllocated)
  | Some cores =>
      let s1 := with_ALLOCATIONS s (PyDict.pop (ALLOCATIONS s) key) in
      let w1 := fst (call_release w (endpoint_of s1 vm) job []) in
      let s2 := with_CORE_MAP s1 (mark (CORE_MAP s1) cores None) in
      let s3 := with_JOB_REQUEST s2 (PyDict.pop (JOB_REQUEST s2) key) in
      ((push_activity now (Completed job vm cores) s3, w1),
       CompleteOk cores)
  end.

(** *** [_assign_and_record] *)
Definition _assign_and_record (agent job : string) (pid : Z)
           (cores : list Z) (sw : State * World) : (State * World) * bool :=
  let '(s, w) := sw in
  let '(w1, ok) := call_allocate w (endpoint_of s agent) job pid cores in
  if ok then
    let key := (agent, job) in
    let s1 := with_CORE_MAP s (mark (CORE_MAP s) cores (Some key)) in
    let old := match PyDict.get (ALLOCATIONS s1) key with
               | Some l => l | None => [] end in
    let s2 := with_ALLOCATIONS s1
                (PyDict.set (ALLOCATIONS s1) key (old ++ cores)) in
    let req := match PyDict.get (JOB_REQUEST s2) key with
               | Some n => n | None => py_len cores end in
    let s3 := with_JOB_REQUEST s2
                (PyDict.set (JOB_REQUEST s2) key req) in
    ((s3, w1), true)
  else ((s, w1), false).

(** *** One scheduling attempt: the body of [for req in list(PENDING)] *)

(** The candidate list, asking every agent of [AGENTS] once. *)
Fixpoint build_candidates (agents : list (string * AgentInfo))
         (cm : PyDict.dict Z (option Key)) (w : World)
  : list Candidate * World :=
  match agents with
  | [] => ([], w)
  | (a_name, info) :: rest =>
      let '(w1, resp) := call_status w (endpoint info) in
      let here := match resp with
                  | Some rows => job_candidates cm a_name rows
                  | None => []
                  end in
      let '(others, w2) := build_candidates rest cm w1 in
      (here ++ others, w2)
  end.

(** One iteration of [for s in stolen_indices]. *)
Definition steal_one (now : Timestamp) (req : PendingRequest)
           (sw : State * World) (st : Stolen) : State * World :=
  let '(s, w) := sw in
  let ep := endpoint_of s (src_agent st) in
  match call_status w ep with
  | (w1, None) => (s, w1)
  | (w1, Some rows) =>
      let current := current_cores rows (src_job st) in
      let new_cores :=
        filter (fun c => negb (py_in c (s_idxs st))) current in
      match call_release w1 ep (src_job st) new_cores with
      | (w2, false) => (s, w2)
      | (w2, true) =>
          let s1 := with_CORE_MAP s (mark (CORE_MAP s) (s_idxs st) None) in
          (push_activity now
             (Stole (s_idxs st) (src_job st) (src_agent st)
                    (job req) (vm req)) s1,
           w2)
      end
  end.

(** The conservative steal, entered when direct admission did not
    happen; [free_slots] is the list computed before it. *)
Definition steal_and_admit (now : Timestamp) (req : PendingRequest)
           (agent_slots free_slots : list Z) (sw : State * World)
  : State * World :=
  let '(s, w) := sw in
  let '(cands, w1) := build_candidates (AGENTS s) (CORE_MAP s) w in
  let candidates := sort_by_spare_desc cands in
  let '(stolen_indices, need_remaining) :=
    take_victims (need req - py_len free_slots) candidates in
  if (need_remaining <=? 0)
     && negb (Nat.eqb (List.length stolen_indices) 0) then
    let '(s2, w2) := fold_left (steal_one now req) stolen_indices (s, w1) in
    let free_slots' := free_slots_of (CORE_MAP s2) agent_slots in
    let pick := py_slice_to free_slots' (need req) in
    if py_len pick =? need req then
      match _assign_and_record (vm req) (job req) (pid req) pick (s2, w2)
      with
      | ((s3, w3), true) =>
          let s4 := push_activity now
                      (Allocated (job req) (vm req) pick true) s3 in
          (with_PENDING s4 (py_remove req (PENDING s4)), w3)
      | (sw3, false) => sw3
      end
    else (s2, w2)
  else (s, w1).

Definition process_request (now : Timestamp) (sw : State * World)
           (req : PendingRequest) : State * World :=
  let '(s, w) := sw in
  match PyDict.get (AGENTS s) (vm req) with
  | None =>
      let s1 := push_activity now (Dropped (job req) (vm req)) s in
      (with_PENDING s1 (py_remove req (PENDING s1)), w)
  | Some info =>
      let agent_slots :=
        py_range (offset info) (offset info + total_cores info) in
      let free_slots := free_slots_of (CORE_MAP s) agent_slots in
      if need req + RESERVE_BUFFER <=? py_len free_slots then
        let pick := py_slice_to free_slots (need req) in
        match _assign_and_record (vm req) (job req) (pid req) pick (s, w)
        with
        | ((s1, w1), true) =>
            let s2 := push_activity now
                        (Allocated (job req) (vm req) pick false) s1 in
            (with_PENDING s2 (py_remove req (PENDING s2)), w1)
        | (sw1, false) =>
            steal_and_admit now req agent_slots free_slots sw1
        end
      else steal_and_admit now req agent_slots free_slots (s, w)
  end.

(** One pass of [scheduler_loop] over the snapshot [list(PENDING)]. *)
Definition scheduler_pass (now : Timestamp) (sw : State * World)
  : State * World :=
  fold_left (process_request now) (PENDING (fst sw)) sw.

(** [scheduler_loop]: [while True] never returns; these are its passes at
    the wake-up times [nows], with nothing else touching the ledger in
    between. *)
Definition scheduler_loop (nows : list Timestamp) (sw : State * World)
  : State * World :=
  fold_left (fun sw' now => scheduler_pass now sw') nows sw.

(** *** [/summary] *)

(** The loop [for a in agents_copy.keys()]: an agent whose status call
    raises is listed with no jobs. *)
Fixpoint live_jobs_of (s : State) (names : list string) (w : World)
         (acc : PyDict.dict string (list JobRow))
  : PyDict.dict string (list JobRow) * World :=
  match names with
  | [] => (acc, w)
  | a :: rest =>
      let '(w1, resp) := call_status w (endpoint_of s a) in
      live_jobs_of s rest w1
        (PyDict.set acc a (match resp with Some rows => rows | None => [] end))
  end.

(** [summary()]: reads the ledger and asks every agent for its jobs; the
    controller state is not written. *)
Definition summary (sw : State * World) : Summary * World :=
  let '(s, w) := sw in
  let agents_copy :=
    py_dict_comprehension
      (fun k _ => k)
      (fun _ v => mkAgentSummary (total_cores v) (offset v) (endpoint v))
      (AGENTS s) in
  let core_map_copy :=
    py_dict_comprehension (fun k _ => py_str k) (fun _ v => v) (CORE_MAP s) in
  let alloc_copy :=
    py_dict_comprehension (fun k _ => alloc_key (fst k) (snd k))
                          (fun _ v => v) (ALLOCATIONS s) in
  let pending_copy := PENDING s in
  let activity_copy := firstn 200 (ACTIVITY_LOG s) in
  let '(live_jobs, w') := live_jobs_of s (PyDict.keys agents_copy) w [] in
  (mkSummary agents_copy core_map_copy alloc_copy pending_copy activity_copy
             live_jobs, w').
End Network.
End Controller.

(* ------------------------------------------------------------------ *)
(** ** The worker's view of the summary ([src/vm/worker.py])            *)
(* ------------------------------------------------------------------ *)
Module Worker.

(** [is_job_allocated_in_summary].  The summary is what
    [controller_summary] returned: [None] stands for the [{}] it returns
    when the request fails. *)
Definition is_job_allocated_in_summary (summary : option Controller.Summary)
           (agent job_name : string) : bool :=
  let key := (agent ++ "|" ++ job_name)%string in
  match summary with
  | Some sm => PyDict.mem (Controller.sum_allocations sm) key
  | None => false
  end.
End Worker.

(* ------------------------------------------------------------------ *)
(** ** The core-level controller
       ([src/host/controller/dynamic_cpu_controller.py])               *)
(* ------------------------------------------------------------------ *)
Module Dynamic.

Definition PROCESSES : list string := ["A"; "B"; "C"]%string.
Definition CPU_THRESHOLD_HIGH : Q := 75.
Definition CPU_THRESHOLD_LOW : Q := 25.

(** The state variables: [core_allocation] (core_id -> owner) and
    [process_cores] (process_name -> [core_ids]). *)
Record State := mkState
  { core_allocation : PyDict.dict Z (option string);
    process_cores : PyDict.dict string (list Z) }.

Definition empty : State := mkState [] [].

(** [reallocate_core(core_id, new_owner)].  [prev_owner] is truthy when it
    is a non-empty string; logging is left out. *)
Definition reallocate_core (core_id : Z) (new_owner : option string)
           (st : State) : State :=
  let prev_owner :=
    match PyDict.get (core_allocation st) core_id with
    | Some o => o
    | None => None
    end in
  let pc1 :=
    match prev_owner with
    | Some p =>
        if negb (String.eqb p "") then
          match PyDict.get (process_cores st) p with
          | Some l =>
              if py_in core_id l
              then PyDict.set (process_cores st) p (py_remove core_id l)
              else process_cores st
          | None => process_cores st
          end
        else process_cores st
    | None => process_cores st
    end in
  match new_owner with
  | None => mkState (PyDict.set (core_allocation st) core_id None) pc1
  | Some p =>
      if py_eqb prev_owner (Some p) then mkState (core_allocation st) pc1
      else
        let ca := PyDict.set (core_allocation st) core_id (Some p) in
        let pc2 := if PyDict.mem pc1 p then pc1 else PyDict.set pc1 p [] in
        let l := match PyDict.get pc2 p with Some l => l | None => [] end in
        let pc3 := if py_in core_id l then pc2
                   else PyDict.set pc2 p (l ++ [core_id]) in
        mkState ca pc3
  end.

(** [[cid for cid, owner in core_allocation.items() if owner is None]] *)
Definition free_cores (st : State) : list Z :=
  map fst
    (filter (fun co => match snd co with None => true | Some _ => false end)
            (core_allocation st)).

(** The loop of [hotplug_logic] over [list(core_allocation.items())];
    [coin n] is the outcome of the [n]-th test [random.random() < 0.3],
    which is made for owned cores only. *)
Fixpoint release_some (items : list (Z * option string)) (coin : nat -> bool)
         (n : nat) (st : State) : State :=
  match items with
  | [] => st
  | (cid, owner) :: rest =>
      match owner with
      | None => release_some rest coin n st
      | Some _ =>
          release_some rest coin (S n)
            (if coin n then reallocate_core cid None st else st)
      end
  end.

(** [hotplug_logic(cpu_usage)]; [target_proc] is what
    [random.choice(PROCESSES)] returns. *)
Definition hotplug_logic (cpu_usage : Q) (target_proc : string)
           (coin : nat -> bool) (st : State) : State :=
  let free := free_cores st in
  if negb (Qle_bool cpu_usage CPU_THRESHOLD_HIGH)
     && negb (Nat.eqb (List.length free) 0)
  then reallocate_core (List.last free 0) (Some target_proc) st
  else if negb (Qle_bool CPU_THRESHOLD_LOW cpu_usage)
       then release_some (core_allocation st) coin 0 st
       else st.

(** The start of [main]: every core of [range(cpu_count)] goes to the
    process that [random.choice(PROCESSES)] picks for it. *)
Definition cpu_count : Z := 4.

Definition init_cores (choose : Z -> string) : State :=
  fold_left (fun st i => reallocate_core i (Some (choose i)) st)
            (py_range 0 cpu_count) empty.
End Dynamic.

(* ------------------------------------------------------------------ *)
(** ** A closed system for the scenarios                                *)
(* ------------------------------------------------------------------ *)
(** Agents of [Agent] behind their endpoints, each on a small operating
    system that stands in for Linux and [psutil] (a test double: a known
    pid accepts any non-empty mask, an unknown pid is refused). *)
Module Cluster.

Record SimOS := mkSimOS
  { affinity : PyDict.dict Z (list Z);     (* pid -> allowed cores *)
    load : PyDict.dict Z Q }.              (* pid -> sampled CPU percent *)

Definition sim_sched_setaffinity (o : SimOS) (pid : Z) (mask : list Z)
  : option SimOS :=
  match PyDict.get (affinity o) pid, mask with
  | Some _, _ :: _ => Some (mkSimOS (PyDict.set (affinity o) pid mask) (load o))
  | _, _ => None
  end.

Definition sim_cpu_percent (o : SimOS) (pid : Z) : option Q :=
  PyDict.get (load o) pid.

Definition Node := Agent.State SimOS.

(** endpoint -> the agent listening there *)
Definition World := PyDict.dict string Node.

Definition http_status (w : World) (ep : string)
  : World * option (list JobRow) :=
  match PyDict.get w ep with
  | Some a => (w, Some (Agent.st_jobs (Agent.status sim_cpu_percent a)))
  | None => (w, None)
  end.

Definition http_allocate (w : World) (ep job : string) (pid : Z)
           (cores : list Z) : World * bool :=
  match PyDict.get w ep with
  | Some a =>
      let '(a', r) :=
        Agent.allocate sim_sched_setaffinity a
          (Agent.mkAllocatePayload job (Some pid) cores) in
      (PyDict.set w ep a', Agent.reply_ok r)
  | None => (w, false)
  end.

Definition http_release (w : World) (ep job : string) (keep : list Z)
  : World * bool :=
  match PyDict.get w ep with
  | Some a =>
      let '(a', _) :=
        Agent.release sim_sched_setaffinity a
          (Agent.mkReleasePayload job keep) in
      (PyDict.set w ep a', true)
  | None => (w, false)
  end.

Definition register := Controller.register.
Definition request_alloc := Controller.request_alloc.
Definition complete := Controller.complete http_release.
Definition process_request :=
  Controller.process_request http_status http_allocate http_release.
Definition scheduler_pass :=
  Controller.scheduler_pass http_status http_allocate http_release.

(** *** Scenario: [vm1] with four cores at offset 0 *)
Definition vm1_endpoint : string := "http://10.0.0.1:6001".

(** pid 101 will run [train] at 50% CPU, pid 102 will run [infer]. *)
Definition vm1_node : Node :=
  Agent.mkState "vm1" 4 0 []
    (mkSimOS [(101, [0; 1; 2; 3]); (102, [0; 1; 2; 3])]
             [(101, 50%Q); (102, 0%Q)]).

Definition world0 : World := [(vm1_endpoint, vm1_node)].

(** What [register_once] of [agent_instance.py] sends. *)
Definition vm1_register : Controller.RegisterData :=
  Controller.mkRegisterData "vm1" (Some vm1_endpoint) (Some 4) (Some 0).

(** What [heartbeat_loop] of [agent_instance.py] sends. *)
Definition vm1_heartbeat : Controller.RegisterData :=
  Controller.mkRegisterData "vm1" None None None.

Definition train_request : Controller.RequestData :=
  Controller.mkRequestData "vm1" "train" 101 (Some 4).

Definition infer_request : Controller.RequestData :=
  Controller.mkRequestData "vm1" "infer" 102 (Some 1).

(** [vm1] registered. *)
Definition registered : Controller.State :=
  register vm1_register 1 Controller.empty.

(** ... and [train] queued for 4 cores. *)
Definition train_queued : Controller.State :=
  fst (request_alloc train_request 2 registered).

(** ... and one scheduling pass later. *)
Definition train_admitted : Controller.State * World :=
  scheduler_pass 3 (train_queued, world0).

(** ... then [infer] queued for 1 core, and one more pass. *)
Definition infer_queued : Controller.State * World :=
  (fst (request_alloc infer_request 4 (fst train_admitted)),
   snd train_admitted).

Definition infer_admitted : Controller.State * World :=
  scheduler_pass 5 infer_queued.

(** *** A network on which every call fails *)
Definition down_status (w : unit) (_ : string)
  : unit * option (list JobRow) := (w, None).
Definition down_allocate (w : unit) (_ _ : string) (_ : Z) (_ : list Z)
  : unit * bool := (w, false).
Definition down_release (w : unit) (_ _ : string) (_ : list Z)
  : unit * bool := (w, false).

(** *** Scenario: [vm1] comes back with two cores while [train] holds four *)
Definition vm1_register_small : Controller.RegisterData :=
  Controller.mkRegisterData "vm1" (Some vm1_endpoint) (Some 2) (Some 0).

Definition shrunk : Controller.State * World :=
  (register vm1_register_small 4 (fst train_admitted), snd train_admitted).

(** *** Scenario: [vm1] first registers cores 2..3, then 0..3 *)
Definition vm1_register_high : Controller.RegisterData :=
  Controller.mkRegisterData "vm1" (Some vm1_endpoint) (Some 2) (Some 2).

Definition widened : Controller.State :=
  register vm1_register 2 (register vm1_register_high 1 Controller.empty).

Definition widened_train_admitted : Controller.State * World :=
  scheduler_pass 4 (fst (request_alloc train_request 3 widened), world0).

Definition widened_infer_queued : Controller.State * World :=
  (fst (request_alloc infer_request 5 (fst widened_train_admitted)),
   snd widened_train_admitted).

Definition widened_infer_admitted : Controller.State * World :=
  scheduler_pass 6 widened_infer_queued.
(** The tables of the core-level controller after the start of [main]
    when every core went to "A". *)
Definition all_to_A : Dynamic.State :=
  Dynamic.init_cores (fun _ => "A"%string).
End Cluster.

(* ------------------------------------------------------------------ *)
(** ** The vocabulary of the specification                              *)
(* ------------------------------------------------------------------ *)
Module Spec.
Import Controller.

(** The size of a job's allocation as the scheduler measures it: the
    number of core-map slots bound to the key. *)
Definition allocated (cm : PyDict.dict Z (option Key)) (k : Key) : Z :=
  py_len (bound_idxs cm k).

(** "[core_map[g]] is [Free] or [(a,j)] with [g] in [Allocation[(a,j)]]". *)
Definition bound_implies_member (s : State) : Prop :=
  forall g k,
    PyDict.get (CORE_MAP s) g = Some (Some k) ->
    exists cores, PyDict.get (ALLOCATIONS s) k = Some cores /\ In g cores.

(** "... and conversely": a member of [Allocation[(a,j)]] is bound to
    [(a,j)]. *)
Definition member_implies_bound (s : State) : Prop :=
  forall k cores g,
    PyDict.get (ALLOCATIONS s) k = Some cores -> In g cores ->
    PyDict.get (CORE_MAP s) g = Some (Some k).

(** "No index is a member of two different Allocation entries". *)
Definition no_shared_index (s : State) : Prop :=
  forall k1 k2 c1 c2 g,
    PyDict.get (ALLOCATIONS s) k1 = Some c1 -> In g c1 ->
    PyDict.get (ALLOCATIONS s) k2 = Some c2 -> In g c2 ->
    k1 = k2.

Definition ledger_consistent (s : State) : Prop :=
  bound_implies_member s /\ member_implies_bound s /\ no_shared_index s.

(** The sum over all jobs [j] of [|Allocation[(a,j)]|]. *)
Definition allocated_total (s : State) (a : string) : Z :=
  fold_right
    (fun kv acc =>
       if String.eqb (fst (fst kv)) a then py_len (snd kv) + acc else acc)
    0 (ALLOCATIONS s).

Definition capacity_ok (s : State) : Prop :=
  forall a info,
    PyDict.get (AGENTS s) a = Some info ->
    allocated_total s a <= total_cores info.

(** What a heartbeat must leave alone. *)
Definition same_capacity (i j : AgentInfo) : Prop :=
  total_cores i = total_cores j /\ offset i = offset j
  /\ endpoint i = endpoint j.


(** Going from core map [cm] to [cm'], key [k] gave up nothing but its
    highest-index slot ... *)
Definition loses_only_highest (cm cm' : PyDict.dict Z (option Key))
           (k : Key) : Prop :=
  forall g,
    In g (bound_idxs cm k) -> ~ In g (bound_idxs cm' k) ->
    forall h, In h (bound_idxs cm k) -> h <= g.

(** ... nothing but the slot that comes last in the core map's order. *)
Definition loses_only_last (cm cm' : PyDict.dict Z (option Key))
           (k : Key) : Prop :=
  forall g,
    In g (bound_idxs cm k) -> ~ In g (bound_idxs cm' k) ->
    g = List.last (bound_idxs cm k) 0.

(** A key may be picked as a steal victim: its allocation exceeds the
    floor, and stays at or above the floor after losing one core. *)
Definition victim_ok (cm : PyDict.dict Z (option Key)) (k : Key) : Prop :=
  MIN_CORES_PER_JOB < allocated cm k
  /\ MIN_CORES_PER_JOB <= allocated cm k - 1.

(** What the scheduler requires of a steal candidate. *)
Definition candidate_ok (cm : PyDict.dict Z (option Key)) (c : Candidate)
  : Prop :=
  victim_ok cm (c_agent c, c_job c)
  /\ 1 <= c_spare c
  /\ c_idxs c = bound_idxs cm (c_agent c, c_job c).

(** Going from [cm] to [cm'], key [k] was not taken below the floor. *)
Definition respects_floor (cm cm' : PyDict.dict Z (option Key))
           (k : Key) : Prop :=
  allocated cm' k < allocated cm k -> MIN_CORES_PER_JOB <= allocated cm' k.

(** Every entry of the allocation table [al] is still in [al'], perhaps
    with cores added at its end. *)
Definition never_shrinks (al al' : PyDict.dict Key (list Z)) : Prop :=
  forall k cores,
    PyDict.get al k = Some cores ->
    exists more, PyDict.get al' k = Some (cores ++ more).

(** Going from [cm] to [cm'], a bound slot stays bound to its key unless
    it is the last slot (in core-map order) of a key that may be a
    victim. *)
Definition keeps_or_takes_last (cm cm' : PyDict.dict Z (option Key))
  : Prop :=
  forall g k,
    PyDict.get cm g = Some (Some k) ->
    PyDict.get cm' g = Some (Some k)
    \/ (g = List.last (bound_idxs cm k) 0 /\ victim_ok cm k).

(** The core map lists its slots in ascending order. *)
Definition ascending (cm : PyDict.dict Z (option Key)) : Prop :=
  StronglySorted Z.lt (PyDict.keys cm).


(** The slots that the core map binds to any job of agent [a]; their
    number is the sum over all jobs [j] of the slots bound to [(a, j)]. *)
Definition bound_to_agent (cm : PyDict.dict Z (option Key)) (a : string)
  : list Z :=
  map fst
    (filter (fun gm => match snd gm with
                       | Some k => String.eqb (fst k) a
                       | None => false
                       end) cm).

(** Going from [s] to [s'], no registered agent changed its core range. *)
Definition keeps_ranges (s s' : State) : Prop :=
  forall a info,
    PyDict.get (AGENTS s) a = Some info ->
    exists info',
      PyDict.get (AGENTS s') a = Some info'
      /\ total_cores info' = total_cores info
      /\ offset info' = offset info.

(** Every bound slot lies in the registered range of its agent. *)
Definition bound_in_range (s : State) : Prop :=
  forall g k,
    PyDict.get (CORE_MAP s) g = Some (Some k) ->
    exists info,
      PyDict.get (AGENTS s) (fst k) = Some info
      /\ offset info <= g < offset info + total_cores info.

(** The name has no ['|'] in it. *)
Fixpoint bar_free (a : string) : bool :=
  match a with
  | EmptyString => true
  | String c r => negb (Ascii.eqb c "|") && bar_free r
  end.

(** [l] is [l'] with some items taken out, the others in their order. *)
Inductive subsequence {A : Type} : list A -> list A -> Prop :=
| subseq_nil : subsequence [] []
| subseq_drop x l l' : subsequence l l' -> subsequence l (x :: l')
| subseq_keep x l l' : subsequence l l' -> subsequence (x :: l) (x :: l').

(** Every pending request names a registered agent. *)
Definition pending_registered (s : State) : Prop :=
  forall r, In r (PENDING s) -> PyDict.mem (AGENTS s) (vm r) = true.

(** Going from [cm] to [cm'], every slot kept its state or became free. *)
Definition only_frees (cm cm' : PyDict.dict Z (option Key)) : Prop :=
  forall g, PyDict.get cm' g = PyDict.get cm g
            \/ PyDict.get cm' g = Some None.

(** Of [dynamic_cpu_controller.py]: the lists of [process_cores] have no
    repeated core, every listed core is owned by the process that lists
    it, and no list is kept under the empty name. *)
Definition members_owned (st : Dynamic.State) : Prop :=
  PyDict.get (Dynamic.process_cores st) ""%string = None
  /\ forall p l,
      PyDict.get (Dynamic.process_cores st) p = Some l ->
      NoDup l
      /\ forall c, In c l ->
                   PyDict.get (Dynamic.core_allocation st) c = Some (Some p).

(** ... and every owned core is in the list of its owner. *)
Definition owners_listed (st : Dynamic.State) : Prop :=
  forall c p,
    PyDict.get (Dynamic.core_allocation st) c = Some (Some p) ->
    exists l, PyDict.get (Dynamic.process_cores st) p = Some l /\ In c l.

(** The two tables of [dynamic_cpu_controller.py] agree, and
    [core_allocation] has one entry for a core. *)
Definition tables_consistent (st : Dynamic.State) : Prop :=
  PyDict.wf (Dynamic.core_allocation st)
  /\ members_owned st /\ owners_listed st.

(** Going from [st] to [st'], every core kept its owner or became free. *)
Definition cores_only_freed (st st' : Dynamic.State) : Prop :=
  forall c, PyDict.get (Dynamic.core_allocation st') c
            = PyDict.get (Dynamic.core_allocation st) c
            \/ PyDict.get (Dynamic.core_allocation st') c = Some None.

Section Reachability.
Variable World : Type.
Variable http_status : World -> string -> World * option (list JobRow).
Variable http_allocate :
  World -> string -> string -> Z -> list Z -> World * bool.
Variable http_release :
  World -> string -> string -> list Z -> World * bool.

(** The controller's operations, each run under [LOCK]; the world may
    also move on by itself. *)
Inductive step : State * World -> State * World -> Prop :=
| step_register data now s w :
    step (s, w) (register data now s, w)
| step_request data now s w :
    step (s, w) (fst (request_alloc data now s), w)
| step_complete vm job now sw :
    step sw (fst (complete http_release vm job now sw))
| step_pass now sw :
    step sw (scheduler_pass http_status http_allocate http_release now sw)
| step_world s w w' :
    step (s, w) (s, w').

Inductive reachable : State * World -> Prop :=
| reach_init w : reachable (empty, w)
| reach_step sw sw' : reachable sw -> step sw sw' -> reachable sw'.

(** Reachable while every agent keeps registering the same core range. *)
Inductive steadily_reachable : State * World -> Prop :=
| steady_init w : steadily_reachable (empty, w)
| steady_step sw sw' :
    steadily_reachable sw -> step sw sw' ->
    keeps_ranges (fst sw) (fst sw') ->
    steadily_reachable sw'.
End Reachability.
End Spec.

(* ================================================================== *)
(** * Part II: properties                                              *)
(* ================================================================== *)

(** ** Equality tests decide equality *)

#[global] Instance PyEqLaws_Z : PyEqLaws Z.
Proof. constructor. exact Z.eqb_spec. Qed.

#[global] Instance PyEqLaws_string : PyEqLaws string.
Proof. constructor. exact String.eqb_spec. Qed.

#[global] Instance PyEqLaws_prod {A B} `{PyEqLaws A} `{PyEqLaws B}
  : PyEqLaws (A * B).
Proof.
  constructor. intros [a b] [a' b']. cbn.
  destruct (py_eqb_spec a a'), (py_eqb_spec b b'); cbn; constructor;
    congruence.
Qed.

#[global] Instance PyEqLaws_option {A} `{PyEqLaws A} : PyEqLaws (option A).
Proof.
  constructor. intros [a|] [b|]; cbn; try (constructor; congruence).
  destruct (py_eqb_spec a b); constructor; congruence.
Qed.

Lemma py_eqb_refl {K} `{PyEqLaws K} (k : K) : py_eqb k k = true.
Proof. destruct (py_eqb_spec k k); congruence. Qed.

Lemma py_eqb_neq {K} `{PyEqLaws K} (k k' : K) : k <> k' -> py_eqb k k' = false.
Proof. intros N. destruct (py_eqb_spec k k'); congruence. Qed.

Lemma py_eqb_eq {K} `{PyEqLaws K} (k k' : K) : py_eqb k k' = true -> k = k'.
Proof. destruct (py_eqb_spec k k'); congruence. Qed.

Ltac py_eq_cases k k' :=
  let E := fresh "E" in
  destruct (py_eqb_spec k k') as [E | E]; [try subst | ].

(** ** Dictionaries *)
Section DictFacts.
Context {K V : Type} `{PyEqLaws K}.
Implicit Types (d : PyDict.dict K V) (k : K) (v : V).

Lemma get_set_same d k v : PyDict.get (PyDict.set d k v) k = Some v.
Proof.
  induction d as [| [k' v'] r IH]; cbn.
  - now rewrite py_eqb_refl.
  - py_eq_cases k' k; cbn.
    + now rewrite py_eqb_refl.
    + now rewrite (py_eqb_neq E).
Qed.

Lemma get_set_other d k k' v :
  k <> k' -> PyDict.get (PyDict.set d k v) k' = PyDict.get d k'.
Proof.
  intros N. induction d as [| [k0 v0] r IH]; cbn.
  - now rewrite (py_eqb_neq N).
  - py_eq_cases k0 k; cbn.
    + now rewrite (py_eqb_neq N).
    + now rewrite IH.
Qed.

Lemma get_set d k k' v :
  PyDict.get (PyDict.set d k v) k'
  = if py_eqb k k' then Some v else PyDict.get d k'.
Proof.
  py_eq_cases k k'; [apply get_set_same | now apply get_set_other].
Qed.

Lemma get_pop_same d k : PyDict.get (PyDict.pop d k) k = None.
Proof.
  unfold PyDict.pop. induction d as [| [k' v'] r IH]; cbn; [easy |].
  py_eq_cases k' k; cbn; [easy | now rewrite (py_eqb_neq E)].
Qed.

Lemma get_pop_other d k k' :
  k <> k' -> PyDict.get (PyDict.pop d k) k' = PyDict.get d k'.
Proof.
  intros N. unfold PyDict.pop.
  induction d as [| [k0 v0] r IH]; cbn; [easy |].
  py_eq_cases k0 k; cbn.
  - now rewrite (py_eqb_neq N).
  - now rewrite IH.
Qed.

Lemma mem_pop_same d k : PyDict.mem (PyDict.pop d k) k = false.
Proof. unfold PyDict.mem. now rewrite get_pop_same. Qed.

Lemma get_Some_In d k v : PyDict.get d k = Some v -> In (k, v) d.
Proof.
  induction d as [| [k' v'] r IH]; cbn; [easy |].
  py_eq_cases k' k.
  - intros [= ->]. now left.
  - intros G. right. now apply IH.
Qed.

Lemma get_None_notin d k : PyDict.get d k = None -> ~ In k (PyDict.keys d).
Proof.
  induction d as [| [k' v'] r IH]; cbn; [tauto |].
  py_eq_cases k' k; [easy |].
  intros G [E' | I]; [congruence | now apply IH].
Qed.

Lemma notin_get_None d k : ~ In k (PyDict.keys d) -> PyDict.get d k = None.
Proof.
  induction d as [| [k' v'] r IH]; cbn; [easy |].
  intros N. py_eq_cases k' k; [tauto |]. apply IH. tauto.
Qed.

Lemma wf_In_get d k v : PyDict.wf d -> In (k, v) d -> PyDict.get d k = Some v.
Proof.
  unfold PyDict.wf. induction d as [| [k' v'] r IH]; cbn; [easy |].
  intros W [[= -> ->] | I].
  - now rewrite py_eqb_refl.
  - inversion W as [| ? ? N W']; subst.
    py_eq_cases k' k.
    + exfalso. apply N. change k with (fst (k, v)). now apply in_map.
    + now apply IH.
Qed.

Lemma keys_set d k v :
  PyDict.keys (PyDict.set d k v)
  = if PyDict.mem d k then PyDict.keys d else PyDict.keys d ++ [k].
Proof.
  unfold PyDict.mem, PyDict.keys in *.
  induction d as [| [k' v'] r IH]; cbn; [easy |].
  py_eq_cases k' k; cbn; [easy |].
  rewrite IH. now destruct (PyDict.get r k).
Qed.

Lemma wf_snoc d k v :
  PyDict.wf d -> PyDict.get d k = None -> PyDict.wf (d ++ [(k, v)]).
Proof.
  unfold PyDict.wf, PyDict.keys. intros W G. rewrite map_app. cbn.
  apply NoDup_app; [assumption | constructor; [easy | constructor] |].
  intros x I [<- | []]. now apply (get_None_notin _ _ G).
Qed.

Lemma wf_set d k v : PyDict.wf d -> PyDict.wf (PyDict.set d k v).
Proof.
  intros W. unfold PyDict.wf. rewrite keys_set. unfold PyDict.mem.
  destruct (PyDict.get d k) eqn:G; [assumption |].
  pose proof (@wf_snoc d k v W G) as W'.
  unfold PyDict.wf, PyDict.keys in *. now rewrite map_app in W'.
Qed.

Lemma wf_setdefault d k v : PyDict.wf d -> PyDict.wf (PyDict.setdefault d k v).
Proof.
  intros W. unfold PyDict.setdefault, PyDict.mem.
  destruct (PyDict.get d k) eqn:G; [assumption | now apply wf_snoc].
Qed.
End DictFacts.

(** ** Marking slots of the core map *)
Section MarkFacts.
Import Controller.
Implicit Types (cm : PyDict.dict Z (option Key)) (v : option Key).

Lemma get_mark cm cores v g :
  PyDict.get (mark cm cores v) g
  = if existsb (Z.eqb g) cores then Some v else PyDict.get cm g.
Proof.
  unfold mark. revert cm.
  induction cores as [| c r IH]; intros cm; cbn; [easy |].
  rewrite IH, get_set. cbn.
  rewrite (Z.eqb_sym g c).
  destruct (existsb (Z.eqb g) r), (c =? g); reflexivity.
Qed.

Lemma existsb_eqb_In g (l : list Z) : existsb (Z.eqb g) l = true <-> In g l.
Proof.
  rewrite existsb_exists. split.
  - intros (x & I & E). apply Z.eqb_eq in E. now subst.
  - intros I. exists g. split; [assumption | apply Z.eqb_refl].
Qed.

Lemma get_mark_in cm cores v g :
  In g cores -> PyDict.get (mark cm cores v) g = Some v.
Proof.
  intros I. rewrite get_mark.
  apply existsb_eqb_In in I. now rewrite I.
Qed.

Lemma get_mark_notin cm cores v g :
  ~ In g cores -> PyDict.get (mark cm cores v) g = PyDict.get cm g.
Proof.
  intros N. rewrite get_mark.
  destruct (existsb (Z.eqb g) cores) eqn:E; [| reflexivity].
  apply existsb_eqb_In in E. contradiction.
Qed.

Lemma wf_mark cm cores v : PyDict.wf cm -> PyDict.wf (mark cm cores v).
Proof.
  unfold mark. revert cm.
  induction cores as [| c r IH]; intros cm W; cbn; [assumption |].
  apply IH. now apply wf_set.
Qed.
End MarkFacts.

Arguments PyDict.get : simpl never.
Arguments PyDict.set : simpl never.
Arguments PyDict.pop : simpl never.
Arguments PyDict.mem : simpl never.
Arguments PyDict.setdefault : simpl never.
Arguments Controller.mark : simpl never.
Arguments Controller.bound_idxs : simpl never.

(** ** The agent executor *)


(** ** The controller: registration *)

(** C3.  A registration call that carries only the agent name, which is
    what [heartbeat_loop] sends, does not keep the agent's capacity: the
    handler falls back to its defaults and records one core at offset 0
    with no endpoint, whatever was registered before. *)
Theorem heartbeat_overwrites_capacity :
  (forall a now s,
      PyDict.get
        (Controller.AGENTS
           (Controller.register (Controller.mkRegisterData a None None None)
                                now s)) a
      = Some (Controller.mkAgentInfo 1 None now 0))
  /\ PyDict.get (Controller.AGENTS Cluster.registered) "vm1"%string
     = Some (Controller.mkAgentInfo 4 (Some Cluster.vm1_endpoint) 1 0)
  /\ PyDict.get
       (Controller.AGENTS
          (Controller.register Cluster.vm1_heartbeat 11 Cluster.registered))
       "vm1"%string
     = Some (Controller.mkAgentInfo 1 None 11 0)
  /\ ~ Spec.same_capacity
         (Controller.mkAgentInfo 4 (Some Cluster.vm1_endpoint) 1 0)
         (Controller.mkAgentInfo 1 None 11 0).
Proof.
  split; [| split; [| split]].
  - intros a now s. unfold Controller.register. cbn. apply get_set_same.
  - reflexivity.
  - reflexivity.
  - unfold Spec.same_capacity. cbn. intros [E _]. discriminate E.
Qed.

(** ** The controller: enqueue and complete *)

(** C8.  [request_alloc] for an agent that is not in the agent table
    answers with the unknown-agent error and returns the controller state
    untouched: nothing is queued and no table changes.  For a registered
    agent it answers "queued", appends exactly one pending request (agent,
    job, pid, need, time stamp) at the end of the queue and records [need]
    as the requested core count of (agent, job); agents, core map and
    allocations stay as they were. *)
Theorem request_alloc_unknown_agent_rejected :
  forall (data : Controller.RequestData) (now : Timestamp)
         (s : Controller.State),
    let s' := fst (Controller.request_alloc data now s) in
    let r := snd (Controller.request_alloc data now s) in
    let need := match Controller.req_cores_requested data with
                | Some n => n | None => 1 end in
    let key := (Controller.req_vm data, Controller.req_job data) in
    if PyDict.mem (Controller.AGENTS s) (Controller.req_vm data) then
      r = Controller.ReplyQueued
      /\ Controller.PENDING s'
         = Controller.PENDING s
           ++ [Controller.mkPendingRequest (Controller.req_vm data)
                 (Controller.req_job data) (Controller.req_pid data) need now]
      /\ PyDict.get (Controller.JOB_REQUEST s') key = Some need
      /\ (forall k, k <> key ->
                    PyDict.get (Controller.JOB_REQUEST s') k
                    = PyDict.get (Controller.JOB_REQUEST s) k)
      /\ Controller.AGENTS s' = Controller.AGENTS s
      /\ Controller.CORE_MAP s' = Controller.CORE_MAP s
      /\ Controller.ALLOCATIONS s' = Controller.ALLOCATIONS s
    else
      r = Controller.ReplyUnknownAgent /\ s' = s.
Proof.
  intros data now s. unfold Controller.request_alloc.
  destruct (PyDict.mem (Controller.AGENTS s) (Controller.req_vm data)); cbn.
  - split; [reflexivity |]. split; [reflexivity |]. split.
    + apply get_set_same.
    + split; [| now repeat split].
      intros k N. apply get_set_other. congruence.
  - now split.
Qed.

(** C4.  [complete] on a key that has an allocation answers with the
    freed cores, leaves every one of them free in the core map (and the
    other slots as they were), and removes the key from the allocation
    table and from the requested-count table; calling [complete] again
    with the same key answers "not allocated" and returns the controller
    state and the world exactly as the first call left them. *)
Theorem complete_twice :
  forall (World : Type)
         (http_release : World -> string -> string -> list Z -> World * bool)
         (vm job : string) (now now' : Timestamp)
         (s : Controller.State) (w : World) (cores : list Z),
    PyDict.get (Controller.ALLOCATIONS s) (vm, job) = Some cores ->
    let first := Controller.complete http_release vm job now (s, w) in
    let s1 := fst (fst first) in
    snd first = Controller.CompleteOk cores
    /\ (forall c, In c cores ->
                  PyDict.get (Controller.CORE_MAP s1) c = Some None)
    /\ (forall g, ~ In g cores ->
                  PyDict.get (Controller.CORE_MAP s1) g
                  = PyDict.get (Controller.CORE_MAP s) g)
    /\ PyDict.mem (Controller.ALLOCATIONS s1) (vm, job) = false
    /\ PyDict.mem (Controller.JOB_REQUEST s1) (vm, job) = false
    /\ Controller.complete http_release vm job now' (fst first)
       = (fst first, Controller.NotAllocated).
Proof.
  intros World rel vm job now now' s w cores G first s1.
  subst s1 first. unfold Controller.complete at 1 2 3 4 5. rewrite G. cbn.
  split; [reflexivity |].
  split; [intros c I; now apply get_mark_in |].
  split; [intros g N; now apply get_mark_notin |].
  split; [apply mem_pop_same |].
  split; [apply mem_pop_same |].
  unfold Controller.complete. rewrite G. cbn.
  now rewrite get_pop_same.
Qed.

Lemma complete_twice_witness :
  PyDict.get (Controller.ALLOCATIONS (fst Cluster.train_admitted))
             ("vm1"%string, "train"%string) = Some [0; 1; 2; 3]
  /\ Controller.complete Cluster.http_release "vm1" "train" 8
       (fst (Controller.complete Cluster.http_release "vm1" "train" 7
               Cluster.train_admitted))
     = (fst (Controller.complete Cluster.http_release "vm1" "train" 7
               Cluster.train_admitted),
        Controller.NotAllocated).
Proof.
  split; [reflexivity |].
  apply (@complete_twice Cluster.World Cluster.http_release "vm1" "train" 7 8
           (fst Cluster.train_admitted) (snd Cluster.train_admitted)
           [0; 1; 2; 3]).
  reflexivity.
Defined.

(** C10.  When the key has an allocation, the controller state that
    [complete] leaves and its answer do not depend on the world or on how
    the release call to the agent turns out (delivered, failed,
    unreachable, agent unknown): the answer is success with the freed
    cores, the allocation is gone and its cores are free. *)
Theorem complete_ignores_release_outcome :
  forall (World1 World2 : Type)
         (release1 : World1 -> string -> string -> list Z -> World1 * bool)
         (release2 : World2 -> string -> string -> list Z -> World2 * bool)
         (vm job : string) (now : Timestamp) (s : Controller.State)
         (w1 : World1) (w2 : World2) (cores : list Z),
    PyDict.get (Controller.ALLOCATIONS s) (vm, job) = Some cores ->
    let r1 := Controller.complete release1 vm job now (s, w1) in
    let r2 := Controller.complete release2 vm job now (s, w2) in
    fst (fst r1) = fst (fst r2)
    /\ snd r1 = Controller.CompleteOk cores
    /\ snd r2 = Controller.CompleteOk cores
    /\ PyDict.get (Controller.ALLOCATIONS (fst (fst r1))) (vm, job) = None
    /\ (forall c, In c cores ->
                  PyDict.get (Controller.CORE_MAP (fst (fst r1))) c
                  = Some None).
Proof.
  intros W1 W2 rel1 rel2 vm job now s w1 w2 cores G r1 r2.
  subst r1 r2. unfold Controller.complete. rewrite G. cbn.
  split; [reflexivity |]. split; [reflexivity |]. split; [reflexivity |].
  split; [apply get_pop_same |].
  intros c I. now apply get_mark_in.
Qed.

Lemma complete_ignores_release_outcome_witness :
  PyDict.get (Controller.ALLOCATIONS (fst Cluster.train_admitted))
             ("vm1"%string, "train"%string) = Some [0; 1; 2; 3]
  /\ fst (fst (Controller.complete Cluster.http_release "vm1" "train" 7
                 Cluster.train_admitted))
     = fst (fst (Controller.complete
                   (fun (w : unit) (_ _ : string) (_ : list Z) => (w, false))
                   "vm1" "train" 7 (fst Cluster.train_admitted, tt))).
Proof.
  split; [reflexivity |].
  apply (@complete_ignores_release_outcome Cluster.World unit
           Cluster.http_release
           (fun (w : unit) (_ _ : string) (_ : list Z) => (w, false))
           "vm1" "train" 7 (fst Cluster.train_admitted)
           (snd Cluster.train_admitted) tt [0; 1; 2; 3]).
  reflexivity.
Defined.

(** ** The used-core estimator *)





(** ** Ranges, slices and sorted lists *)

Lemma py_range_sorted (lo hi : Z) : StronglySorted Z.lt (py_range lo hi).
Proof.
  unfold py_range. generalize (Z.to_nat (hi - lo)) as n. intros n.
  assert (G : forall start, StronglySorted Z.lt
                (map (fun i => lo + Z.of_nat i) (seq start n))).
  { induction n as [| n IH]; intros start; cbn; constructor.
    - apply IH.
    - apply Forall_forall. intros x I. apply in_map_iff in I.
      destruct I as (i & <- & I). apply in_seq in I. lia. }
  apply G.
Qed.

Lemma In_py_range (lo hi g : Z) : In g (py_range lo hi) <-> lo <= g < hi.
Proof.
  unfold py_range. rewrite in_map_iff. split.
  - intros (i & <- & I). apply in_seq in I. lia.
  - intros R. exists (Z.to_nat (g - lo)). split; [lia |].
    apply in_seq. lia.
Qed.






(** ** The scheduler: direct admission *)

Section DirectAdmission.
Import Controller.
Variable World : Type.
Variable http_status : World -> string -> World * option (list JobRow).
Variable http_allocate :
  World -> string -> string -> Z -> list Z -> World * bool.
Variable http_release :
  World -> string -> string -> list Z -> World * bool.

Local Abbreviation process_request :=
  (process_request http_status http_allocate http_release).


End DirectAdmission.


(** ** The scheduler: stealing *)

Section BoundSlots.
Import Controller.
Implicit Types (cm : PyDict.dict Z (option Key)) (k : Key) (g : Z).

Lemma get_bound_In cm k g :
  PyDict.get cm g = Some (Some k) -> In g (bound_idxs cm k).
Proof.
  intros G. unfold bound_idxs. apply in_map_iff.
  exists (g, Some k). split; [reflexivity |].
  apply filter_In. split; [now apply get_Some_In |].
  apply py_eqb_refl.
Qed.

Lemma In_bound_get cm k g :
  PyDict.wf cm -> In g (bound_idxs cm k) -> PyDict.get cm g = Some (Some k).
Proof.
  intros W I. unfold bound_idxs in I. apply in_map_iff in I.
  destruct I as ([g' m] & E & I). cbn in E. subst g'.
  apply filter_In in I. destruct I as [I B]. cbn [snd] in B.
  apply py_eqb_eq in B. subst m. now apply wf_In_get.
Qed.

Lemma NoDup_map_fst_filter {A B} (f : A * B -> bool) (l : list (A * B)) :
  NoDup (map fst l) -> NoDup (map fst (filter f l)).
Proof.
  induction l as [| x l IH]; cbn; intros N; [constructor |].
  inversion N as [| ? ? X N']; subst.
  destruct (f x); cbn; [| now apply IH].
  constructor; [| now apply IH].
  intros I. apply X. apply in_map_iff in I.
  destruct I as (y & E & I). apply filter_In in I.
  rewrite <- E. apply in_map. tauto.
Qed.

Lemma bound_idxs_NoDup cm k : PyDict.wf cm -> NoDup (bound_idxs cm k).
Proof. intros W. now apply NoDup_map_fst_filter. Qed.

Lemma sorted_map_fst_filter {B} (f : Z * B -> bool) (l : list (Z * B)) :
  StronglySorted Z.lt (map fst l) ->
  StronglySorted Z.lt (map fst (filter f l)).
Proof.
  induction l as [| x l IH]; cbn; intros S; [constructor |].
  inversion S as [| ? ? S' F]; subst.
  destruct (f x); cbn; [| now apply IH].
  constructor; [now apply IH |].
  rewrite Forall_forall in *. intros y I. apply F.
  apply in_map_iff in I. destruct I as (z & E & I).
  apply filter_In in I. rewrite <- E. apply in_map. tauto.
Qed.

Lemma last_In {A} (l : list A) (d : A) : l <> [] -> In (List.last l d) l.
Proof.
  induction l as [| a [| b r] IH]; intros N; [congruence | now left |].
  right. apply IH. discriminate.
Qed.

Lemma sorted_le_last (l : list Z) (d x : Z) :
  StronglySorted Z.lt l -> In x l -> x <= List.last l d.
Proof.
  intros S. revert x.
  induction S as [| a l S IH F]; intros x I; [destruct I |].
  destruct l as [| b r].
  - destruct I as [<- | []]. cbn. lia.
  - change (List.last (a :: b :: r) d) with (List.last (b :: r) d).
    destruct I as [<- | I]; [| now apply IH].
    rewrite Forall_forall in F.
    assert (a < b) by (apply F; now left).
    assert (b <= List.last (b :: r) d) by (apply IH; now left).
    lia.
Qed.

(** With the core map in ascending order, the last bound slot of a key
    is its highest. *)
Lemma ascending_last_highest cm k g :
  Spec.ascending cm -> In g (bound_idxs cm k) ->
  g <= List.last (bound_idxs cm k) 0.
Proof.
  intros A I. apply sorted_le_last; [| assumption].
  now apply sorted_map_fst_filter.
Qed.

Lemma ascending_wf cm : Spec.ascending cm -> PyDict.wf cm.
Proof.
  unfold Spec.ascending, PyDict.wf. generalize (PyDict.keys cm).
  induction 1 as [| a l S IH F]; constructor; [| assumption].
  rewrite Forall_forall in F. intros I. specialize (F _ I). lia.
Qed.

(** Binding free slots takes no slot away from anybody. *)
Lemma mark_free_keeps_bound cm pick v g k :
  (forall c, In c pick -> is_free cm c = true) ->
  PyDict.get cm g = Some (Some k) ->
  PyDict.get (mark cm pick v) g = Some (Some k).
Proof.
  intros F G. rewrite get_mark_notin; [assumption |].
  intros I. specialize (F _ I). unfold is_free in F. now rewrite G in F.
Qed.

Lemma In_firstn_In {A} (l : list A) (n : nat) (x : A) :
  In x (firstn n l) -> In x l.
Proof.
  intros I. rewrite <- (firstn_skipn n l). apply in_or_app. now left.
Qed.

Lemma In_py_slice_to {A} (l : list A) (n : Z) (x : A) :
  In x (py_slice_to l n) -> In x l.
Proof.
  unfold py_slice_to. destruct (0 <=? n); intros I;
    eapply In_firstn_In; eassumption.
Qed.

Lemma slice_of_free_is_free cm slots n c :
  In c (py_slice_to (free_slots_of cm slots) n) -> is_free cm c = true.
Proof.
  intros I. apply In_py_slice_to in I. now apply filter_In in I.
Qed.
End BoundSlots.

Section Candidates.
Import Controller.
Variable World : Type.
Variable http_status : World -> string -> World * option (list JobRow).
Implicit Types (cm : PyDict.dict Z (option Key)) (c : Candidate).

Lemma job_candidates_ok cm a rows c :
  In c (job_candidates cm a rows) ->
  c_agent c = a /\ Spec.candidate_ok cm c.
Proof.
  unfold job_candidates. intros I. apply in_flat_map in I.
  destruct I as (j & _ & I).
  destruct (py_len (bound_idxs cm (a, row_job j)) <=? MIN_CORES_PER_JOB)
    eqn:A; [destruct I |].
  destruct ((1 <=? _) && (MIN_CORES_PER_JOB <=? _)) eqn:B; [| destruct I].
  destruct I as [<- | []]. cbn.
  apply andb_true_iff in B. destruct B as [B1 B2].
  unfold Spec.candidate_ok, Spec.victim_ok, Spec.allocated. cbn.
  repeat split; lia.
Qed.

Lemma build_candidates_ok agents cm w c :
  In c (fst (build_candidates http_status agents cm w)) ->
  Spec.candidate_ok cm c.
Proof.
  revert w. induction agents as [| [a info] rest IH]; intros w; cbn;
    [intros [] |].
  destruct (call_status http_status w (endpoint info)) as [w1 resp].
  destruct (build_candidates http_status rest cm w1) as [others w2] eqn:B.
  cbn. intros I. apply in_app_or in I. destruct I as [I | I].
  - destruct resp as [rows |]; [| destruct I].
    now apply job_candidates_ok in I.
  - apply (IH w1). now rewrite B.
Qed.

Lemma In_insert_by_spare c d l :
  In c (insert_by_spare d l) -> c = d \/ In c l.
Proof.
  induction l as [| e r IH]; cbn.
  - intros [<- | []]. now left.
  - destruct (c_spare e <=? c_spare d); cbn.
    + intros [<- | I]; [now left | now right].
    + intros [<- | I]; [right; now left |].
      destruct (IH I); [now left | right; now right].
Qed.

Lemma In_sort_by_spare_desc c l : In c (sort_by_spare_desc l) -> In c l.
Proof.
  unfold sort_by_spare_desc. induction l as [| d r IH]; cbn; [easy |].
  intros I. apply In_insert_by_spare in I.
  destruct I as [-> | I]; [now left | right; now apply IH].
Qed.

(** Every planned steal takes the last slot of one candidate. *)
Lemma take_victims_from_candidates n cands st :
  In st (fst (take_victims n cands)) ->
  exists c, In c cands
            /\ src_agent st = c_agent c /\ src_job st = c_job c
            /\ s_idxs st = [List.last (c_idxs c) 0].
Proof.
  revert n. induction cands as [| c rest IH]; intros n; cbn; [intros [] |].
  destruct (0 <? n); [| intros []].
  destruct (take_victims _ rest) as [more n'] eqn:T.
  cbn. intros [<- | I].
  - exists c. cbn. split; [now left | now repeat split].
  - destruct (IH _ ltac:(rewrite T; exact I)) as (c' & J & P).
    exists c'. split; [now right | assumption].
Qed.

(** A candidate's list of slots is never empty, so [idxs[-1]] exists. *)
Lemma candidate_idxs_nonempty cm c :
  Spec.candidate_ok cm c -> c_idxs c <> [].
Proof.
  intros ((A & _) & _ & E) N. rewrite E in N.
  unfold Spec.allocated, py_len, MIN_CORES_PER_JOB in A.
  rewrite N in A. cbn in A. lia.
Qed.
End Candidates.

Section Stealing.
Import Controller.
Variable World : Type.
Variable http_status : World -> string -> World * option (list JobRow).
Variable http_allocate :
  World -> string -> string -> Z -> list Z -> World * bool.
Variable http_release :
  World -> string -> string -> list Z -> World * bool.

Local Abbreviation assign := (_assign_and_record http_allocate).
Local Abbreviation steal_one := (steal_one http_status http_release).
Local Abbreviation steal_and_admit :=
  (steal_and_admit http_status http_allocate http_release).
Local Abbreviation process_request :=
  (process_request http_status http_allocate http_release).
Local Abbreviation scheduler_pass :=
  (scheduler_pass http_status http_allocate http_release).

Lemma never_shrinks_refl al : Spec.never_shrinks al al.
Proof. intros k cores G. exists []. now rewrite app_nil_r. Qed.

Lemma never_shrinks_trans al1 al2 al3 :
  Spec.never_shrinks al1 al2 -> Spec.never_shrinks al2 al3 ->
  Spec.never_shrinks al1 al3.
Proof.
  intros A B k cores G. destruct (A _ _ G) as (m1 & G1).
  destruct (B _ _ G1) as (m2 & G2). exists (m1 ++ m2).
  now rewrite app_assoc.
Qed.

Lemma never_shrinks_extend al k cores :
  Spec.never_shrinks al
    (PyDict.set al k
       (match PyDict.get al k with Some l => l | None => [] end ++ cores)).
Proof.
  intros k' l G. rewrite get_set.
  destruct (py_eqb_spec k k') as [<- | N].
  - rewrite G. now exists cores.
  - exists []. now rewrite app_nil_r.
Qed.

(** [_assign_and_record] either changes nothing in the controller or
    binds the cores and extends the allocation. *)
Lemma assign_and_record_cases agent job pid cores s w :
  let r := assign agent job pid cores (s, w) in
  (snd r = false /\ fst (fst r) = s)
  \/ (snd r = true
      /\ CORE_MAP (fst (fst r)) = mark (CORE_MAP s) cores (Some (agent, job))
      /\ ALLOCATIONS (fst (fst r))
         = PyDict.set (ALLOCATIONS s) (agent, job)
             (match PyDict.get (ALLOCATIONS s) (agent, job) with
              | Some l => l | None => [] end ++ cores)
      /\ AGENTS (fst (fst r)) = AGENTS s).
Proof.
  unfold _assign_and_record.
  destruct (call_allocate http_allocate w (endpoint_of s agent) job pid cores)
    as [w1 [|]]; cbn; [right | left]; now repeat split.
Qed.

(** One steal frees the chosen slots or leaves the core map alone; it
    never touches agents or allocations. *)
Lemma steal_one_effect now req s w st :
  let s' := fst (steal_one now req (s, w) st) in
  AGENTS s' = AGENTS s /\ ALLOCATIONS s' = ALLOCATIONS s
  /\ (CORE_MAP s' = CORE_MAP s
      \/ CORE_MAP s' = mark (CORE_MAP s) (s_idxs st) None).
Proof.
  unfold Controller.steal_one.
  destruct (call_status http_status w (endpoint_of s (src_agent st)))
    as [w1 [rows |]]; cbn; [| now repeat split; left].
  destruct (call_release http_release w1 _ _ _) as [w2 [|]]; cbn.
  - repeat split. now right.
  - repeat split. now left.
Qed.

Lemma steal_fold_effect now req stolen s w :
  let s' := fst (fold_left (steal_one now req) stolen (s, w)) in
  AGENTS s' = AGENTS s /\ ALLOCATIONS s' = ALLOCATIONS s
  /\ (PyDict.wf (CORE_MAP s) -> PyDict.wf (CORE_MAP s'))
  /\ (forall g, (forall st, In st stolen -> ~ In g (s_idxs st)) ->
                PyDict.get (CORE_MAP s') g = PyDict.get (CORE_MAP s) g).
Proof.
  revert s w. induction stolen as [| st rest IH]; intros s w;
    cbn [fold_left].
  - now repeat split.
  - destruct (steal_one now req (s, w) st) as [s1 w1] eqn:E.
    pose proof (steal_one_effect now req s w st) as (A1 & L1 & C1).
    rewrite E in A1, L1, C1. cbn in A1, L1, C1.
    pose proof (IH s1 w1) as IH1. cbv zeta in IH1.
    destruct IH1 as (A & L & W & G). cbv zeta.
    split; [congruence |]. split; [congruence |]. split.
    + intros W0. apply W.
      destruct C1 as [-> | ->]; [assumption | now apply wf_mark].
    + intros g N. rewrite G by (intros st' I; apply N; now right).
      destruct C1 as [-> | ->]; [reflexivity |].
      apply get_mark_notin. apply N. now left.
Qed.

Lemma keeps_refl cm : Spec.keeps_or_takes_last cm cm.
Proof. intros g k G. now left. Qed.

(** Freeing the planned slots takes from each key at most the last of
    its slots, and only from keys that qualify as victims. *)
Lemma planned_steals_take_last now req s w w1 cands n stolen n' s2 w2 :
  PyDict.wf (CORE_MAP s) ->
  build_candidates http_status (AGENTS s) (CORE_MAP s) w = (cands, w1) ->
  take_victims n (sort_by_spare_desc cands) = (stolen, n') ->
  fold_left (steal_one now req) stolen (s, w1) = (s2, w2) ->
  Spec.keeps_or_takes_last (CORE_MAP s) (CORE_MAP s2).
Proof.
  intros W B T F g k G.
  pose proof (steal_fold_effect now req stolen s w1) as E.
  rewrite F in E. cbn in E. destruct E as (_ & _ & _ & E).
  destruct (in_dec Z.eq_dec g (flat_map s_idxs stolen)) as [I | N].
  - right. apply in_flat_map in I. destruct I as (st & I & J).
    assert (I' : In st (fst (take_victims n (sort_by_spare_desc cands))))
      by now rewrite T.
    apply take_victims_from_candidates in I'.
    destruct I' as (c & Ic & Ea & Ej & Ei).
    apply In_sort_by_spare_desc in Ic.
    assert (C : Spec.candidate_ok (CORE_MAP s) c).
    { apply (build_candidates_ok http_status (AGENTS s) (CORE_MAP s) w).
      now rewrite B. }
    pose proof (candidate_idxs_nonempty C) as NE.
    destruct C as (V & _ & Ec).
    rewrite Ei in J. destruct J as [<- | []].
    assert (K : (c_agent c, c_job c) = k).
    { pose proof (last_In 0 NE) as L. rewrite Ec in L.
      apply In_bound_get in L; [congruence | exact W]. }
    rewrite <- K, <- Ec. now split.
  - left. rewrite E; [assumption |].
    intros st I J. apply N. apply in_flat_map. now exists st.
Qed.

(** The footprint of the steal phase of one attempt. *)
Lemma steal_and_admit_footprint now req agent_slots free_slots s w :
  PyDict.wf (CORE_MAP s) ->
  let s' := fst (steal_and_admit now req agent_slots free_slots (s, w)) in
  PyDict.wf (CORE_MAP s')
  /\ Spec.never_shrinks (ALLOCATIONS s) (ALLOCATIONS s')
  /\ Spec.keeps_or_takes_last (CORE_MAP s) (CORE_MAP s').
Proof.
  intros W. unfold Controller.steal_and_admit.
  destruct (build_candidates http_status (AGENTS s) (CORE_MAP s) w)
    as [cands w1] eqn:B.
  destruct (take_victims _ (sort_by_spare_desc cands))
    as [stolen n'] eqn:T.
  destruct ((n' <=? 0) && _); cbn [fst];
    [| split; [assumption | split;
         [apply never_shrinks_refl | apply keeps_refl]]].
  destruct (fold_left (steal_one now req) stolen (s, w1)) as [s2 w2] eqn:F.
  assert (K2 : Spec.keeps_or_takes_last (CORE_MAP s) (CORE_MAP s2))
    by (eapply planned_steals_take_last; eassumption).
  pose proof (steal_fold_effect now req stolen s w1) as E.
  rewrite F in E. cbn in E. destruct E as (_ & L2 & W2 & _).
  specialize (W2 W).
  assert (Base : PyDict.wf (CORE_MAP s2)
                 /\ Spec.never_shrinks (ALLOCATIONS s) (ALLOCATIONS s2)
                 /\ Spec.keeps_or_takes_last (CORE_MAP s) (CORE_MAP s2)).
  { split; [assumption |]. split; [| assumption].
    rewrite L2. apply never_shrinks_refl. }
  set (pick := py_slice_to (free_slots_of (CORE_MAP s2) agent_slots)
                           (need req)).
  destruct (py_len pick =? need req); [| exact Base].
  pose proof (assign_and_record_cases (vm req) (job req) (pid req) pick
                s2 w2) as C.
  destruct (assign (vm req) (job req) (pid req) pick (s2, w2))
    as [[s3 w3] [|]]; cbn in C; cbn [fst].
  - destruct C as [[C _] | (_ & Cm & Al & _)]; [discriminate C |].
    cbn. rewrite Cm, Al. split; [now apply wf_mark |]. split.
    + rewrite L2. apply never_shrinks_extend.
    + intros g k G. destruct (K2 g k G) as [G2 | R]; [left | now right].
      apply mark_free_keeps_bound; [| assumption].
      intros c I. now apply slice_of_free_is_free in I.
  - destruct C as [[_ ->] | [C _]]; [exact Base | discriminate C].
Qed.

(** The footprint of one scheduling attempt. *)
Lemma process_request_footprint now req s w :
  PyDict.wf (CORE_MAP s) ->
  let s' := fst (process_request now (s, w) req) in
  PyDict.wf (CORE_MAP s')
  /\ Spec.never_shrinks (ALLOCATIONS s) (ALLOCATIONS s')
  /\ Spec.keeps_or_takes_last (CORE_MAP s) (CORE_MAP s').
Proof.
  intros W. unfold Controller.process_request.
  destruct (PyDict.get (AGENTS s) (vm req)) as [info |]; cbn [fst];
    [| cbn; split; [assumption | split;
         [apply never_shrinks_refl | apply keeps_refl]]].
  set (agent_slots := py_range _ _).
  set (free_slots := free_slots_of (CORE_MAP s) agent_slots).
  destruct (need req + RESERVE_BUFFER <=? py_len free_slots);
    [| now apply steal_and_admit_footprint].
  set (pick := py_slice_to free_slots (need req)).
  pose proof (assign_and_record_cases (vm req) (job req) (pid req) pick
                s w) as C.
  destruct (assign (vm req) (job req) (pid req) pick (s, w))
    as [[s1 w1] [|]]; cbn in C; cbn [fst].
  - destruct C as [[C _] | (_ & Cm & Al & _)]; [discriminate C |].
    cbn. rewrite Cm, Al. split; [now apply wf_mark |]. split.
    + apply never_shrinks_extend.
    + intros g k G. left. apply mark_free_keeps_bound; [| assumption].
      intros c I. now apply slice_of_free_is_free in I.
  - destruct C as [[_ ->] | [C _]]; [| discriminate C].
    now apply steal_and_admit_footprint.
Qed.
End Stealing.

Section Floor.
Import Controller.
Implicit Types (cm : PyDict.dict Z (option Key)) (k : Key).

Lemma length_remove_NoDup (x : Z) (l : list Z) :
  NoDup l -> (List.length l <= S (List.length (remove Z.eq_dec x l)))%nat.
Proof.
  induction 1 as [| a l N D IH]; cbn; [lia |].
  destruct (Z.eq_dec x a) as [-> | Ne]; cbn; [| lia].
  rewrite notin_remove by assumption. lia.
Qed.

Lemma NoDup_remove_elt (x : Z) (l : list Z) :
  NoDup l -> NoDup (remove Z.eq_dec x l).
Proof.
  induction 1 as [| a l N D IH]; cbn; [constructor |].
  destruct (Z.eq_dec x a); [assumption |].
  constructor; [| assumption].
  intros I. apply in_remove in I. tauto.
Qed.

(** From the footprint of an attempt to what a key can lose. *)
Lemma footprint_counts cm cm' k :
  PyDict.wf cm -> Spec.keeps_or_takes_last cm cm' ->
  Spec.loses_only_last cm cm' k
  /\ Spec.allocated cm k - 1 <= Spec.allocated cm' k
  /\ (Spec.allocated cm' k < Spec.allocated cm k -> Spec.victim_ok cm k).
Proof.
  intros W K.
  pose proof (@bound_idxs_NoDup cm k W) as ND.
  assert (Kin : forall g, In g (bound_idxs cm k) ->
                          In g (bound_idxs cm' k)
                          \/ (g = List.last (bound_idxs cm k) 0
                              /\ Spec.victim_ok cm k)).
  { intros g I. apply In_bound_get in I; [| exact W].
    destruct (K g k I) as [G | R]; [left; now apply get_bound_In | now right]. }
  split; [| split].
  - intros g I N. destruct (Kin g I) as [J | [E _]]; [contradiction | exact E].
  - unfold Spec.allocated, py_len.
    pose proof (length_remove_NoDup (List.last (bound_idxs cm k) 0) ND)
      as L1.
    assert (L2 : (List.length (remove Z.eq_dec
                                      (List.last (bound_idxs cm k) 0%Z)
                                      (bound_idxs cm k))
                  <= List.length (bound_idxs cm' k))%nat).
    { apply NoDup_incl_length; [now apply NoDup_remove_elt |].
      intros g I. apply in_remove in I. destruct I as [I Ne].
      destruct (Kin g I) as [J | [E _]]; [exact J | contradiction]. }
    lia.
  - intros Lt.
    destruct (Forall_Exists_dec (fun g => In g (bound_idxs cm' k))
                (fun g => in_dec Z.eq_dec g (bound_idxs cm' k))
                (bound_idxs cm k)) as [A | E].
    + exfalso. rewrite Forall_forall in A.
      pose proof (NoDup_incl_length ND A).
      unfold Spec.allocated, py_len in Lt. lia.
    + apply Exists_exists in E. destruct E as (g & I & N).
      destruct (Kin g I) as [J | [_ V]]; [contradiction | exact V].
Qed.

Lemma footprint_floor cm cm' k :
  PyDict.wf cm -> Spec.keeps_or_takes_last cm cm' ->
  Z.min (Spec.allocated cm k) MIN_CORES_PER_JOB <= Spec.allocated cm' k.
Proof.
  intros W K. destruct (footprint_counts k W K) as (_ & A & V).
  destruct (Z.lt_ge_cases (Spec.allocated cm' k) (Spec.allocated cm k))
    as [Lt | Ge]; [| lia].
  destruct (V Lt) as [_ B]. lia.
Qed.
End Floor.

Section StealingFloor.
Import Controller.
Variable World : Type.
Variable http_status : World -> string -> World * option (list JobRow).
Variable http_allocate :
  World -> string -> string -> Z -> list Z -> World * bool.
Variable http_release :
  World -> string -> string -> list Z -> World * bool.

Local Abbreviation process_request :=
  (process_request http_status http_allocate http_release).
Local Abbreviation scheduler_pass :=
  (scheduler_pass http_status http_allocate http_release).

(** Any run of attempts keeps the core map well formed, never shortens
    an allocation entry and never takes a key below the floor. *)
Lemma attempts_floor now reqs s w :
  PyDict.wf (CORE_MAP s) ->
  let s' := fst (fold_left (process_request now) reqs (s, w)) in
  PyDict.wf (CORE_MAP s')
  /\ Spec.never_shrinks (ALLOCATIONS s) (ALLOCATIONS s')
  /\ forall k, Z.min (Spec.allocated (CORE_MAP s) k) MIN_CORES_PER_JOB
               <= Spec.allocated (CORE_MAP s') k.
Proof.
  revert s w. induction reqs as [| req rest IH]; intros s w W;
    cbn [fold_left]; cbv zeta.
  - split; [assumption |]. split; [apply never_shrinks_refl |].
    intros k. cbn. lia.
  - destruct (process_request now (s, w) req) as [s1 w1] eqn:E.
    pose proof (@process_request_footprint World http_status http_allocate
                  http_release now req s w W) as F.
    rewrite E in F. cbn in F. destruct F as (W1 & N1 & K1).
    pose proof (IH s1 w1 W1) as IH1. cbv zeta in IH1.
    destruct IH1 as (W2 & N2 & F2).
    split; [assumption |].
    split; [now apply never_shrinks_trans with (ALLOCATIONS s1) |].
    intros k. pose proof (footprint_floor k W K1). specialize (F2 k). lia.
Qed.

(** C5 (as the code has it).  With a well-formed core map:
    - every steal candidate has an allocation above [MIN_CORES_PER_JOB]
      that stays at or above it after losing one core, and spare >= 1;
    - in one scheduling attempt a key can lose only the slot that comes
      last among its bound slots in core-map order, hence at most one
      core, and only if it qualifies as a victim; when the core map is
      in ascending order that slot is the key's highest-index slot;
    - a whole scheduling pass never takes a key's allocation (bound-slot
      count) below [MIN_CORES_PER_JOB], and never shortens an entry of
      the allocation table. *)
Theorem stealing_respects_floor :
  forall (now : Timestamp) (s : State) (w : World),
    PyDict.wf (CORE_MAP s) ->
    (forall c,
        In c (fst (build_candidates http_status (AGENTS s) (CORE_MAP s) w)) ->
        Spec.candidate_ok (CORE_MAP s) c)
    /\ (forall req k,
           let cm' := CORE_MAP (fst (process_request now (s, w) req)) in
           Spec.loses_only_last (CORE_MAP s) cm' k
           /\ Spec.allocated (CORE_MAP s) k - 1 <= Spec.allocated cm' k
           /\ (Spec.allocated cm' k < Spec.allocated (CORE_MAP s) k ->
               Spec.victim_ok (CORE_MAP s) k)
           /\ (Spec.ascending (CORE_MAP s) ->
               Spec.loses_only_highest (CORE_MAP s) cm' k))
    /\ (forall k,
           Spec.respects_floor (CORE_MAP s)
             (CORE_MAP (fst (scheduler_pass now (s, w)))) k)
    /\ Spec.never_shrinks (ALLOCATIONS s)
         (ALLOCATIONS (fst (scheduler_pass now (s, w)))).
Proof.
  intros now s w W. split; [| split; [| split]].
  - intros c I. eapply build_candidates_ok; eassumption.
  - intros req k cm'.
    pose proof (@process_request_footprint World http_status http_allocate
                  http_release now req s w W) as (_ & _ & K).
    fold cm' in K.
    destruct (footprint_counts k W K) as (L & A & V).
    split; [assumption |]. split; [assumption |]. split; [assumption |].
    intros Asc g I N h J. rewrite (L g I N).
    now apply ascending_last_highest.
  - intros k Lt. unfold Controller.scheduler_pass in *. cbn [fst] in *.
    pose proof (@attempts_floor now (PENDING s) s w W) as (_ & _ & F).
    specialize (F k). lia.
  - unfold Controller.scheduler_pass. cbn [fst].
    now pose proof (@attempts_floor now (PENDING s) s w W) as (_ & N & _).
Qed.

(** The floor also holds across any number of consecutive passes. *)
Lemma scheduler_loop_floor nows s w :
  PyDict.wf (CORE_MAP s) ->
  let s' := fst (scheduler_loop http_status http_allocate http_release
                   nows (s, w)) in
  PyDict.wf (CORE_MAP s')
  /\ forall k, Z.min (Spec.allocated (CORE_MAP s) k) MIN_CORES_PER_JOB
               <= Spec.allocated (CORE_MAP s') k.
Proof.
  unfold scheduler_loop. revert s w.
  induction nows as [| now rest IH]; intros s w W; cbn [fold_left]; cbv zeta.
  - split; [assumption | intros k; cbn; lia].
  - destruct (scheduler_pass now (s, w)) as [s1 w1] eqn:E.
    pose proof (@attempts_floor now (PENDING s) s w W) as (W1 & _ & F1).
    unfold Controller.scheduler_pass in E. cbn [fst] in E.
    rewrite E in W1, F1. cbn [fst] in W1, F1.
    pose proof (IH s1 w1 W1) as IH1. cbv zeta in IH1.
    destruct IH1 as (W2 & F2).
    split; [assumption |].
    intros k. specialize (F1 k). specialize (F2 k). lia.
Qed.
End StealingFloor.

Lemma infer_queued_wf :
  PyDict.wf (Controller.CORE_MAP (fst Cluster.infer_queued)).
Proof.
  unfold PyDict.wf. change (NoDup [0; 1; 2; 3]).
  repeat (constructor; [cbn; intuition discriminate |]). constructor.
Defined.

(** On the sample cluster: [train] holds four cores at 50% CPU, [infer]
    asks for one; the pass takes one core from [train], which keeps three. *)
Lemma stealing_respects_floor_witness :
  PyDict.wf (Controller.CORE_MAP (fst Cluster.infer_queued))
  /\ Spec.respects_floor
       (Controller.CORE_MAP (fst Cluster.infer_queued))
       (Controller.CORE_MAP (fst Cluster.infer_admitted))
       ("vm1"%string, "train"%string)
  /\ Spec.allocated (Controller.CORE_MAP (fst Cluster.infer_queued))
       ("vm1"%string, "train"%string) = 4
  /\ Spec.allocated (Controller.CORE_MAP (fst Cluster.infer_admitted))
       ("vm1"%string, "train"%string) = 3.
Proof.
  split; [exact infer_queued_wf |].
  split; [| split; reflexivity].
  exact (proj1 (proj2 (proj2
           (@stealing_respects_floor Cluster.World Cluster.http_status
              Cluster.http_allocate Cluster.http_release 5
              (fst Cluster.infer_queued) (snd Cluster.infer_queued)
              infer_queued_wf)))
           ("vm1"%string, "train"%string)).
Defined.

(** ** Reachable states *)

Section Reachable.
Import Controller.
Variable World : Type.
Variable http_status : World -> string -> World * option (list JobRow).
Variable http_allocate :
  World -> string -> string -> Z -> list Z -> World * bool.
Variable http_release :
  World -> string -> string -> list Z -> World * bool.

Lemma seed_free_wf (cm : PyDict.dict Z (option Key)) (slots : list Z) :
  PyDict.wf cm -> PyDict.wf (seed_free cm slots).
Proof.
  unfold seed_free. revert cm.
  induction slots as [| g r IH]; intros cm W; cbn; [assumption |].
  apply IH. now apply wf_setdefault.
Qed.

(** The core map of every reachable state has unique keys. *)
Lemma reachable_core_map_wf sw :
  Spec.reachable http_status http_allocate http_release sw ->
  PyDict.wf (CORE_MAP (fst sw)).
Proof.
  induction 1 as [w | sw sw' R IH St]; [constructor |].
  destruct St as [data now s w | data now s w | vm job now [s w] | now [s w]
                 | s w w']; cbn [fst] in *.
  - unfold register. cbn. now apply seed_free_wf.
  - unfold request_alloc.
    destruct (negb (PyDict.mem (AGENTS s) (req_vm data))); cbn; assumption.
  - unfold complete.
    destruct (PyDict.get (ALLOCATIONS s) (vm, job)); cbn; [| assumption].
    now apply wf_mark.
  - unfold scheduler_pass. cbn [fst].
    now pose proof (@attempts_floor World http_status http_allocate
                      http_release now (PENDING s) s w IH) as (W & _).
  - assumption.
Qed.
End Reachable.

(** ** The half of the ledger invariant that does hold *)

Section LedgerForward.
Import Controller.
Variable World : Type.
Variable http_status : World -> string -> World * option (list JobRow).
Variable http_allocate :
  World -> string -> string -> Z -> list Z -> World * bool.
Variable http_release :
  World -> string -> string -> list Z -> World * bool.

Lemma get_setdefault (cm : PyDict.dict Z (option Key)) (g g' : Z) v :
  PyDict.get (PyDict.setdefault cm g v) g'
  = match PyDict.get cm g' with
    | Some x => Some x
    | None => if g =? g' then Some v else None
    end.
Proof.
  unfold PyDict.setdefault, PyDict.mem.
  destruct (PyDict.get cm g) eqn:G.
  - destruct (PyDict.get cm g') eqn:G'; [reflexivity |].
    destruct (Z.eqb_spec g g'); [congruence | reflexivity].
  - induction cm as [| [a x] r IH].
    + reflexivity.
    + unfold PyDict.get in *. cbn in *. fold (@PyDict.get Z (option Key) _) in *.
      destruct (a =? g') eqn:A; [reflexivity |].
      destruct (a =? g) eqn:B; [discriminate G |].
      now apply IH.
Qed.

Lemma seed_free_bound_back (cm : PyDict.dict Z (option Key)) slots g k :
  PyDict.get (seed_free cm slots) g = Some (Some k) ->
  PyDict.get cm g = Some (Some k).
Proof.
  unfold seed_free. revert cm.
  induction slots as [| a r IH]; intros cm; cbn; [easy |].
  intros G. apply IH in G. rewrite get_setdefault in G.
  destruct (PyDict.get cm g); [assumption |].
  destruct (a =? g); discriminate G.
Qed.

Lemma mark_none_bound_back (cm : PyDict.dict Z (option Key)) cores g k :
  PyDict.get (mark cm cores None) g = Some (Some k) ->
  PyDict.get cm g = Some (Some k).
Proof.
  rewrite get_mark. destruct (existsb (Z.eqb g) cores); [discriminate | easy].
Qed.

Lemma steal_fold_bound_back now req stolen s w g k :
  PyDict.get
    (CORE_MAP (fst (fold_left (steal_one http_status http_release now req)
                      stolen (s, w)))) g = Some (Some k) ->
  PyDict.get (CORE_MAP s) g = Some (Some k).
Proof.
  revert s w. induction stolen as [| st rest IH]; intros s w;
    cbn [fold_left]; [easy |].
  destruct (steal_one http_status http_release now req (s, w) st)
    as [s1 w1] eqn:E.
  intros G. apply IH in G.
  pose proof (@steal_one_effect World http_status http_release now req s w st)
    as (_ & _ & C).
  rewrite E in C. cbn in C. destruct C as [C | C]; rewrite C in G;
    [assumption | now apply mark_none_bound_back in G].
Qed.

(** Binding cores and extending the allocation keeps "bound implies
    member". *)
Lemma bind_keeps_forward (s s' : State) key cores :
  Spec.bound_implies_member s ->
  CORE_MAP s' = mark (CORE_MAP s) cores (Some key) ->
  ALLOCATIONS s'
  = PyDict.set (ALLOCATIONS s) key
      (match PyDict.get (ALLOCATIONS s) key with
       | Some l => l | None => [] end ++ cores) ->
  Spec.bound_implies_member s'.
Proof.
  intros Inv Cm Al g k G. rewrite Cm, get_mark in G. rewrite Al, get_set.
  destruct (py_eqb_spec key k) as [<- | N].
  - eexists. split; [reflexivity |]. apply in_or_app.
    destruct (existsb (Z.eqb g) cores) eqn:E.
    + right. now apply existsb_eqb_In.
    + left. destruct (Inv _ _ G) as (l & -> & I). exact I.
  - destruct (existsb (Z.eqb g) cores); [congruence |].
    exact (Inv _ _ G).
Qed.

Lemma same_tables_forward (s s' : State) :
  Spec.bound_implies_member s ->
  (forall g k, PyDict.get (CORE_MAP s') g = Some (Some k) ->
               PyDict.get (CORE_MAP s) g = Some (Some k)) ->
  ALLOCATIONS s' = ALLOCATIONS s ->
  Spec.bound_implies_member s'.
Proof.
  intros Inv B Al g k G. rewrite Al. apply Inv. now apply B.
Qed.

Lemma steal_and_admit_forward now req agent_slots free_slots s w :
  Spec.bound_implies_member s ->
  Spec.bound_implies_member
    (fst (steal_and_admit http_status http_allocate http_release now req
            agent_slots free_slots (s, w))).
Proof.
  intros Inv. unfold steal_and_admit.
  destruct (build_candidates http_status (AGENTS s) (CORE_MAP s) w)
    as [cands w1].
  destruct (take_victims _ (sort_by_spare_desc cands)) as [stolen n'].
  destruct ((n' <=? 0) && _); cbn [fst]; [| assumption].
  destruct (fold_left (steal_one http_status http_release now req) stolen
              (s, w1)) as [s2 w2] eqn:F.
  assert (Inv2 : Spec.bound_implies_member s2).
  { apply same_tables_forward with s; [assumption | |].
    - intros g k G.
      apply (@steal_fold_bound_back now req stolen s w1). now rewrite F.
    - pose proof (@steal_fold_effect World http_status http_release now req
                    stolen s w1) as (_ & L & _).
      now rewrite F in L. }
  set (pick := py_slice_to _ _).
  destruct (py_len pick =? need req); [| exact Inv2].
  pose proof (@assign_and_record_cases World http_allocate (vm req) (job req)
                (pid req) pick s2 w2) as C.
  destruct (_assign_and_record http_allocate (vm req) (job req) (pid req)
              pick (s2, w2)) as [[s3 w3] [|]]; cbn in C; cbn [fst].
  - destruct C as [[C _] | (_ & Cm & Al & _)]; [discriminate C |].
    eapply bind_keeps_forward with (s := s2); cbn; eassumption.
  - destruct C as [[_ ->] | [C _]]; [exact Inv2 | discriminate C].
Qed.

Lemma process_request_forward now req s w :
  Spec.bound_implies_member s ->
  Spec.bound_implies_member
    (fst (process_request http_status http_allocate http_release now
            (s, w) req)).
Proof.
  intros Inv. unfold process_request.
  destruct (PyDict.get (AGENTS s) (vm req)) as [info |]; cbn [fst];
    [| exact Inv].
  set (agent_slots := py_range _ _).
  set (free_slots := free_slots_of (CORE_MAP s) agent_slots).
  destruct (need req + RESERVE_BUFFER <=? py_len free_slots);
    [| now apply steal_and_admit_forward].
  set (pick := py_slice_to free_slots (need req)).
  pose proof (@assign_and_record_cases World http_allocate (vm req) (job req)
                (pid req) pick s w) as C.
  destruct (_assign_and_record http_allocate (vm req) (job req) (pid req)
              pick (s, w)) as [[s1 w1] [|]]; cbn in C; cbn [fst].
  - destruct C as [[C _] | (_ & Cm & Al & _)]; [discriminate C |].
    eapply bind_keeps_forward with (s := s); cbn; eassumption.
  - destruct C as [[_ ->] | [C _]]; [| discriminate C].
    now apply steal_and_admit_forward.
Qed.

Lemma complete_forward vm job now s w :
  Spec.bound_implies_member s ->
  Spec.bound_implies_member
    (fst (fst (complete http_release vm job now (s, w)))).
Proof.
  intros Inv. unfold complete.
  destruct (PyDict.get (ALLOCATIONS s) (vm, job)) as [cores |] eqn:A;
    cbn; [| exact Inv].
  intros g k G. cbn in *. rewrite get_mark in G.
  destruct (existsb (Z.eqb g) cores) eqn:E; [discriminate G |].
  destruct (Inv _ _ G) as (l & Gl & I).
  destruct (py_eqb_spec (vm, job) k) as [<- | N].
  - exfalso. rewrite A in Gl. injection Gl as <-.
    apply existsb_eqb_In in I. congruence.
  - exists l. split; [| exact I]. now rewrite get_pop_other.
Qed.

Lemma attempts_forward now reqs s w :
  Spec.bound_implies_member s ->
  Spec.bound_implies_member
    (fst (fold_left
            (process_request http_status http_allocate http_release now)
            reqs (s, w))).
Proof.
  revert s w. induction reqs as [| req rest IHr]; intros s w Inv;
    cbn [fold_left]; [assumption |].
  destruct (process_request http_status http_allocate http_release now
              (s, w) req) as [s1 w1] eqn:E.
  apply IHr.
  pose proof (@process_request_forward now req s w Inv) as P.
  now rewrite E in P.
Qed.

(** In every reachable state a slot bound to (a, j) is a member of
    [ALLOCATIONS[(a, j)]]. *)
Lemma reachable_bound_implies_member sw :
  Spec.reachable http_status http_allocate http_release sw ->
  Spec.bound_implies_member (fst sw).
Proof.
  induction 1 as [w | sw sw' R IH St].
  - intros g k G. discriminate G.
  - destruct St as [data now s w | data now s w | vm job now [s w]
                   | now [s w] | s w w']; cbn [fst] in *.
    + apply same_tables_forward with s; [assumption | | reflexivity].
      intros g k G. unfold register in G. cbn in G.
      now apply seed_free_bound_back in G.
    + unfold request_alloc.
      destruct (negb (PyDict.mem (AGENTS s) (req_vm data))); cbn;
        [assumption |].
      apply same_tables_forward with s; [assumption | easy | reflexivity].
    + now apply complete_forward.
    + unfold scheduler_pass. cbn [fst]. now apply attempts_forward.
    + assumption.
Qed.
End LedgerForward.

(** ** Capacity *)

Section Capacity.
Import Controller.
Variable World : Type.
Variable http_status : World -> string -> World * option (list JobRow).
Variable http_allocate :
  World -> string -> string -> Z -> list Z -> World * bool.
Variable http_release :
  World -> string -> string -> list Z -> World * bool.

Local Abbreviation steal_and_admit :=
  (steal_and_admit http_status http_allocate http_release).
Local Abbreviation process_request :=
  (process_request http_status http_allocate http_release).

(** A slot bound after binding [pick] was bound before or is in [pick]. *)
Lemma mark_bound_back (cm : PyDict.dict Z (option Key)) pick key g k :
  PyDict.get (mark cm pick (Some key)) g = Some (Some k) ->
  PyDict.get cm g = Some (Some k) \/ (k = key /\ In g pick).
Proof.
  rewrite get_mark. destruct (existsb (Z.eqb g) pick) eqn:E.
  - intros [= <-]. right. split; [reflexivity | now apply existsb_eqb_In].
  - now left.
Qed.

Lemma In_slice_of_free_slots (cm : PyDict.dict Z (option Key)) slots n g :
  In g (py_slice_to (free_slots_of cm slots) n) -> In g slots.
Proof.
  intros I. apply In_py_slice_to in I. now apply filter_In in I.
Qed.

Lemma steal_and_admit_binds now req agent_slots free_slots s w :
  let s' := fst (steal_and_admit now req agent_slots free_slots (s, w)) in
  AGENTS s' = AGENTS s
  /\ forall g k,
      PyDict.get (CORE_MAP s') g = Some (Some k) ->
      PyDict.get (CORE_MAP s) g = Some (Some k)
      \/ (k = (vm req, job req) /\ In g agent_slots).
Proof.
  unfold Controller.steal_and_admit.
  destruct (build_candidates http_status (AGENTS s) (CORE_MAP s) w)
    as [cands w1].
  destruct (take_victims _ (sort_by_spare_desc cands)) as [stolen n'].
  destruct ((n' <=? 0) && _); cbn [fst]; [| split; [reflexivity | now left]].
  destruct (fold_left (Controller.steal_one http_status http_release now req)
              stolen (s, w1)) as [s2 w2] eqn:F.
  pose proof (@steal_fold_effect World http_status http_release now req
                stolen s w1) as (A2 & _).
  rewrite F in A2. cbn [fst] in A2.
  assert (B2 : forall g k,
             PyDict.get (CORE_MAP s2) g = Some (Some k) ->
             PyDict.get (CORE_MAP s) g = Some (Some k)).
  { intros g k G.
    apply (@steal_fold_bound_back World http_status http_release now req
             stolen s w1). now rewrite F. }
  set (pick := py_slice_to _ _).
  destruct (py_len pick =? need req);
    [| split; [exact A2 | intros g k G; left; now apply B2]].
  pose proof (@assign_and_record_cases World http_allocate (vm req) (job req)
                (pid req) pick s2 w2) as C.
  destruct (_assign_and_record http_allocate (vm req) (job req) (pid req)
              pick (s2, w2)) as [[s3 w3] [|]]; cbn in C; cbn [fst].
  - destruct C as [[C _] | (_ & Cm & _ & Ag)]; [discriminate C |].
    cbn. split; [congruence |].
    intros g k G. rewrite Cm in G. apply mark_bound_back in G.
    destruct G as [G | [-> I]]; [left; now apply B2 | right].
    split; [reflexivity | now apply In_slice_of_free_slots in I].
  - destruct C as [[_ ->] | [C _]]; [| discriminate C].
    split; [exact A2 | intros g k G; left; now apply B2].
Qed.

(** One attempt leaves the agent table alone and binds only slots of the
    requesting agent's registered range. *)
Lemma process_request_binds now req s w :
  let s' := fst (process_request now (s, w) req) in
  AGENTS s' = AGENTS s
  /\ forall g k,
      PyDict.get (CORE_MAP s') g = Some (Some k) ->
      PyDict.get (CORE_MAP s) g = Some (Some k)
      \/ exists info,
          PyDict.get (AGENTS s) (fst k) = Some info
          /\ offset info <= g < offset info + total_cores info.
Proof.
  unfold Controller.process_request.
  destruct (PyDict.get (AGENTS s) (vm req)) as [info |] eqn:A; cbn [fst];
    [| cbn; split; [reflexivity | now left]].
  set (agent_slots := py_range _ _).
  set (free_slots := free_slots_of (CORE_MAP s) agent_slots).
  assert (R : forall g k,
             k = (vm req, job req) /\ In g agent_slots ->
             exists info0,
               PyDict.get (AGENTS s) (fst k) = Some info0
               /\ offset info0 <= g < offset info0 + total_cores info0).
  { intros g k [-> I]. exists info. split; [exact A |].
    now apply In_py_range in I. }
  assert (S : forall w0,
             let s' := fst (steal_and_admit now req agent_slots free_slots
                              (s, w0)) in
             AGENTS s' = AGENTS s
             /\ forall g k,
                 PyDict.get (CORE_MAP s') g = Some (Some k) ->
                 PyDict.get (CORE_MAP s) g = Some (Some k)
                 \/ exists info0,
                     PyDict.get (AGENTS s) (fst k) = Some info0
                     /\ offset info0 <= g < offset info0 + total_cores info0).
  { intros w0.
    destruct (steal_and_admit_binds now req agent_slots free_slots s w0)
      as [Ag B].
    split; [exact Ag |]. intros g k G.
    destruct (B g k G) as [L | Rg]; [now left | right; now apply R]. }
  destruct (need req + RESERVE_BUFFER <=? py_len free_slots); [| apply S].
  set (pick := py_slice_to free_slots (need req)).
  pose proof (@assign_and_record_cases World http_allocate (vm req) (job req)
                (pid req) pick s w) as C.
  destruct (_assign_and_record http_allocate (vm req) (job req) (pid req)
              pick (s, w)) as [[s1 w1] [|]]; cbn in C; cbn [fst].
  - destruct C as [[C _] | (_ & Cm & _ & Ag)]; [discriminate C |].
    cbn. split; [exact Ag |].
    intros g k G. rewrite Cm in G. apply mark_bound_back in G.
    destruct G as [G | [E I]]; [now left | right].
    apply R. split; [exact E | now apply In_slice_of_free_slots in I].
  - destruct C as [[_ ->] | [C _]]; [apply S | discriminate C].
Qed.

Lemma attempts_bind now reqs s w :
  let s' := fst (fold_left (process_request now) reqs (s, w)) in
  AGENTS s' = AGENTS s
  /\ forall g k,
      PyDict.get (CORE_MAP s') g = Some (Some k) ->
      PyDict.get (CORE_MAP s) g = Some (Some k)
      \/ exists info,
          PyDict.get (AGENTS s) (fst k) = Some info
          /\ offset info <= g < offset info + total_cores info.
Proof.
  revert s w. induction reqs as [| req rest IH]; intros s w;
    cbn [fold_left]; cbv zeta.
  - split; [reflexivity | now left].
  - destruct (process_request now (s, w) req) as [s1 w1] eqn:E.
    pose proof (process_request_binds now req s w) as P.
    rewrite E in P. cbn [fst] in P. destruct P as [A1 B1].
    pose proof (IH s1 w1) as IH1. cbv zeta in IH1. destruct IH1 as [A2 B2].
    split; [congruence |].
    intros g k G. destruct (B2 g k G) as [G1 | R].
    + now apply B1.
    + right. now rewrite <- A1.
Qed.

(** Any step binds only slots of the registered range of their agent. *)
Lemma step_binds sw sw' g k :
  Spec.step http_status http_allocate http_release sw sw' ->
  PyDict.get (CORE_MAP (fst sw')) g = Some (Some k) ->
  PyDict.get (CORE_MAP (fst sw)) g = Some (Some k)
  \/ exists info,
      PyDict.get (AGENTS (fst sw)) (fst k) = Some info
      /\ offset info <= g < offset info + total_cores info.
Proof.
  intros St.
  destruct St as [data now s w | data now s w | vm job now [s w] | now [s w]
                 | s w w']; cbn [fst].
  - unfold register. cbn. intros G. left.
    now apply seed_free_bound_back in G.
  - unfold request_alloc.
    destruct (negb (PyDict.mem (AGENTS s) (req_vm data))); cbn; now left.
  - unfold complete.
    destruct (PyDict.get (ALLOCATIONS s) (vm, job)); cbn; [| now left].
    intros G. left. now apply mark_none_bound_back in G.
  - unfold scheduler_pass. cbn [fst].
    now apply (attempts_bind now (PENDING s) s w).
  - now left.
Qed.

Lemma steadily_reachable_reachable sw :
  Spec.steadily_reachable http_status http_allocate http_release sw ->
  Spec.reachable http_status http_allocate http_release sw.
Proof.
  induction 1 as [w | sw sw' _ IH St _]; [constructor |].
  now apply Spec.reach_step with sw.
Qed.

Lemma steadily_reachable_in_range sw :
  Spec.steadily_reachable http_status http_allocate http_release sw ->
  Spec.bound_in_range (fst sw).
Proof.
  induction 1 as [w | sw sw' _ IH St K].
  - intros g k G. discriminate G.
  - intros g k G.
    assert (I : exists info,
               PyDict.get (AGENTS (fst sw)) (fst k) = Some info
               /\ offset info <= g < offset info + total_cores info).
    { destruct (@step_binds sw sw' g k St G) as [G0 | I]; [now apply IH | exact I]. }
    destruct I as (info & A & R). destruct (K _ _ A) as (info' & A' & T & O).
    exists info'. split; [exact A' | lia].
Qed.

Lemma length_py_range (lo hi : Z) :
  py_len (py_range lo hi) = Z.max 0 (hi - lo).
Proof.
  unfold py_len, py_range. rewrite length_map, length_seq. lia.
Qed.

Lemma bound_to_agent_get (cm : PyDict.dict Z (option Key)) a g :
  PyDict.wf cm -> In g (Spec.bound_to_agent cm a) ->
  exists j, PyDict.get cm g = Some (Some (a, j)).
Proof.
  intros W I. unfold Spec.bound_to_agent in I. apply in_map_iff in I.
  destruct I as ([g' m] & E & I). cbn in E. subst g'.
  apply filter_In in I. destruct I as [I B]. cbn [snd] in B.
  destruct m as [[a' j] |]; [| discriminate B].
  cbn in B. apply String.eqb_eq in B. subst a'.
  exists j. now apply wf_In_get.
Qed.

(** C2 (as the code has it).  In every state reached while each agent
    keeps registering the same core range, the slots that the core map
    binds to the jobs of a registered agent number at most its
    [total_cores] (a negative [total_cores] counting as none). *)
Theorem bound_slots_within_capacity :
  forall (sw : State * World) (a : string) (info : AgentInfo),
    Spec.steadily_reachable http_status http_allocate http_release sw ->
    PyDict.get (AGENTS (fst sw)) a = Some info ->
    py_len (Spec.bound_to_agent (CORE_MAP (fst sw)) a)
    <= Z.max 0 (total_cores info).
Proof.
  intros sw a info R A.
  pose proof (reachable_core_map_wf (steadily_reachable_reachable R)) as W.
  pose proof (steadily_reachable_in_range R) as B.
  replace (total_cores info)
    with (offset info + total_cores info - offset info) by lia.
  rewrite <- length_py_range. unfold py_len. apply inj_le.
  apply NoDup_incl_length.
  - now apply NoDup_map_fst_filter.
  - intros g I. destruct (@bound_to_agent_get (CORE_MAP (fst sw)) a g W I) as (j & G).
    destruct (B _ _ G) as (info' & A' & Rg). cbn [fst] in A'.
    rewrite A in A'. injection A' as <-. now apply In_py_range.
Qed.
End Capacity.

(** The states of the sample scenarios are reachable. *)
Lemma same_agents_keeps_ranges (s s' : Controller.State) :
  Controller.AGENTS s' = Controller.AGENTS s -> Spec.keeps_ranges s s'.
Proof. intros E a info G. exists info. rewrite E. now repeat split. Qed.

Lemma train_admitted_steadily_reachable :
  Spec.steadily_reachable Cluster.http_status Cluster.http_allocate
    Cluster.http_release Cluster.train_admitted.
Proof.
  eapply Spec.steady_step;
    [| apply Spec.step_pass | now apply same_agents_keeps_ranges].
  eapply Spec.steady_step;
    [| apply (Spec.step_request Cluster.http_status Cluster.http_allocate
                Cluster.http_release Cluster.train_request 2
                Cluster.registered Cluster.world0)
     | now apply same_agents_keeps_ranges].
  eapply Spec.steady_step;
    [| apply (Spec.step_register Cluster.http_status Cluster.http_allocate
                Cluster.http_release Cluster.vm1_register 1
                Controller.empty Cluster.world0)
     | intros a info G; discriminate G].
  apply Spec.steady_init.
Qed.

Lemma infer_admitted_steadily_reachable :
  Spec.steadily_reachable Cluster.http_status Cluster.http_allocate
    Cluster.http_release Cluster.infer_admitted.
Proof.
  eapply Spec.steady_step;
    [| apply Spec.step_pass | now apply same_agents_keeps_ranges].
  eapply Spec.steady_step;
    [| apply (Spec.step_request Cluster.http_status Cluster.http_allocate
                Cluster.http_release Cluster.infer_request 4
                (fst Cluster.train_admitted) (snd Cluster.train_admitted))
     | now apply same_agents_keeps_ranges].
  change (fst Cluster.train_admitted, snd Cluster.train_admitted)
    with (Controller.scheduler_pass Cluster.http_status Cluster.http_allocate
            Cluster.http_release 3 (Cluster.train_queued, Cluster.world0)).
  exact train_admitted_steadily_reachable.
Qed.

Lemma infer_admitted_reachable :
  Spec.reachable Cluster.http_status Cluster.http_allocate Cluster.http_release
    Cluster.infer_admitted.
Proof.
  apply steadily_reachable_reachable.
  exact infer_admitted_steadily_reachable.
Qed.

(** On the sample cluster after the steal: [vm1] has four cores and four
    of its slots are bound. *)
Lemma bound_slots_within_capacity_witness :
  Spec.steadily_reachable Cluster.http_status Cluster.http_allocate
    Cluster.http_release Cluster.infer_admitted
  /\ PyDict.get (Controller.AGENTS (fst Cluster.infer_admitted)) "vm1"%string
     = Some (Controller.mkAgentInfo 4 (Some Cluster.vm1_endpoint) 1 0)
  /\ py_len (Spec.bound_to_agent
               (Controller.CORE_MAP (fst Cluster.infer_admitted)) "vm1")
     <= Z.max 0 4.
Proof.
  split; [exact infer_admitted_steadily_reachable |].
  split; [reflexivity |].
  apply (@bound_slots_within_capacity Cluster.World Cluster.http_status
           Cluster.http_allocate Cluster.http_release Cluster.infer_admitted
           "vm1"%string
           (Controller.mkAgentInfo 4 (Some Cluster.vm1_endpoint) 1 0)
           infer_admitted_steadily_reachable).
  reflexivity.
Defined.

(** C2 as stated fails: [vm1] registers four cores, [train] is admitted
    on all four, and [vm1] registers again with two cores.  Registration
    refreshes [total_cores] and leaves the live allocation alone, so the
    allocation of [train] has 4 cores while [vm1] has 2. *)
Lemma reregistration_below_allocation :
  Spec.reachable Cluster.http_status Cluster.http_allocate Cluster.http_release
    Cluster.shrunk
  /\ Spec.allocated_total (fst Cluster.shrunk) "vm1" = 4
  /\ PyDict.get (Controller.AGENTS (fst Cluster.shrunk)) "vm1"%string
     = Some (Controller.mkAgentInfo 2 (Some Cluster.vm1_endpoint) 4 0)
  /\ ~ Spec.capacity_ok (fst Cluster.shrunk).
Proof.
  assert (A : PyDict.get (Controller.AGENTS (fst Cluster.shrunk)) "vm1"%string
              = Some (Controller.mkAgentInfo 2 (Some Cluster.vm1_endpoint) 4 0))
    by reflexivity.
  split; [| split; [reflexivity | split; [exact A |]]].
  - eapply Spec.reach_step;
      [| apply (Spec.step_register Cluster.http_status Cluster.http_allocate
                  Cluster.http_release Cluster.vm1_register_small 4
                  (fst Cluster.train_admitted) (snd Cluster.train_admitted))].
    change (fst Cluster.train_admitted, snd Cluster.train_admitted)
      with (Controller.scheduler_pass Cluster.http_status
              Cluster.http_allocate Cluster.http_release 3
              (Cluster.train_queued, Cluster.world0)).
    apply steadily_reachable_reachable.
    exact train_admitted_steadily_reachable.
  - intros H. specialize (H _ _ A). vm_compute in H. now apply H.
Qed.

(** ** The ledger after a steal *)

(** C1 fails on the code.  In the reachable state where [train] held
    cores 0..3 of [vm1] and one core was stolen for [infer], the allocation
    table still lists core 3 under [train]: core 3 is a member of two
    allocation entries and is bound, in the core map, to [infer] only.
    (Every bound slot is still a member of its key's entry; it is the
    converse that the steal breaks.) *)
Theorem steal_leaves_stale_allocation :
  let s := fst Cluster.infer_admitted in
  Spec.reachable Cluster.http_status Cluster.http_allocate Cluster.http_release
    Cluster.infer_admitted
  /\ Spec.bound_implies_member s
  /\ PyDict.get (Controller.ALLOCATIONS s) ("vm1"%string, "train"%string)
     = Some [0; 1; 2; 3]
  /\ PyDict.get (Controller.ALLOCATIONS s) ("vm1"%string, "infer"%string)
     = Some [3]
  /\ PyDict.get (Controller.CORE_MAP s) 3
     = Some (Some ("vm1"%string, "infer"%string))
  /\ ~ Spec.member_implies_bound s
  /\ ~ Spec.no_shared_index s
  /\ ~ Spec.ledger_consistent s.
Proof.
  cbv zeta.
  assert (T : PyDict.get (Controller.ALLOCATIONS (fst Cluster.infer_admitted))
                ("vm1"%string, "train"%string) = Some [0; 1; 2; 3])
    by reflexivity.
  assert (I : PyDict.get (Controller.ALLOCATIONS (fst Cluster.infer_admitted))
                ("vm1"%string, "infer"%string) = Some [3])
    by reflexivity.
  assert (NS : ~ Spec.no_shared_index (fst Cluster.infer_admitted)).
  { intros H.
    specialize (H _ _ _ _ 3 T ltac:(cbn; tauto) I ltac:(cbn; tauto)).
    discriminate H. }
  split; [exact infer_admitted_reachable |].
  split; [exact (reachable_bound_implies_member infer_admitted_reachable) |].
  split; [exact T |]. split; [exact I |]. split; [reflexivity |].
  split; [| split; [exact NS |]].
  - intros H. specialize (H _ _ 3 T ltac:(cbn; tauto)). discriminate H.
  - intros (_ & _ & H). now apply NS.
Qed.

(** In that state the entries of [vm1] in the allocation table add up to
    5 cores, while [vm1] has 4: the stale entry is counted as well. *)
Lemma steal_exceeds_capacity :
  let s := fst Cluster.infer_admitted in
  Spec.reachable Cluster.http_status Cluster.http_allocate Cluster.http_release
    Cluster.infer_admitted
  /\ Spec.allocated_total s "vm1" = 5
  /\ PyDict.get (Controller.AGENTS s) "vm1"%string
     = Some (Controller.mkAgentInfo 4 (Some Cluster.vm1_endpoint) 1 0)
  /\ ~ Spec.capacity_ok s.
Proof.
  cbv zeta.
  assert (A : PyDict.get (Controller.AGENTS (fst Cluster.infer_admitted))
                "vm1"%string
              = Some (Controller.mkAgentInfo 4 (Some Cluster.vm1_endpoint) 1 0))
    by reflexivity.
  split; [exact infer_admitted_reachable |].
  split; [reflexivity |]. split; [exact A |].
  intros H. specialize (H _ _ A). vm_compute in H. now apply H.
Qed.

Lemma widened_infer_queued_reachable :
  Spec.reachable Cluster.http_status Cluster.http_allocate Cluster.http_release
    Cluster.widened_infer_queued.
Proof.
  eapply Spec.reach_step;
    [| apply (Spec.step_request Cluster.http_status Cluster.http_allocate
                Cluster.http_release Cluster.infer_request 5
                (fst Cluster.widened_train_admitted)
                (snd Cluster.widened_train_admitted))].
  change (fst Cluster.widened_train_admitted,
          snd Cluster.widened_train_admitted)
    with (Controller.scheduler_pass Cluster.http_status Cluster.http_allocate
            Cluster.http_release 4
            (fst (Controller.request_alloc Cluster.train_request 3
                    Cluster.widened), Cluster.world0)).
  eapply Spec.reach_step; [| apply Spec.step_pass].
  eapply Spec.reach_step;
    [| apply (Spec.step_request Cluster.http_status Cluster.http_allocate
                Cluster.http_release Cluster.train_request 3
                Cluster.widened Cluster.world0)].
  eapply Spec.reach_step;
    [| apply (Spec.step_register Cluster.http_status Cluster.http_allocate
                Cluster.http_release Cluster.vm1_register 2
                (Controller.register Cluster.vm1_register_high 1
                   Controller.empty) Cluster.world0)].
  eapply Spec.reach_step;
    [| apply (Spec.step_register Cluster.http_status Cluster.http_allocate
                Cluster.http_release Cluster.vm1_register_high 1
                Controller.empty Cluster.world0)].
  apply Spec.reach_init.
Qed.

(** C5 as stated fails: after [vm1] registered cores 2..3 and then 0..3,
    the core map lists its slots as 2, 3, 0, 1; [train] holds all four and
    the steal for [infer] takes slot 1, although [train] also holds the
    higher slots 2 and 3. *)
Lemma steal_not_highest_index :
  Spec.reachable Cluster.http_status Cluster.http_allocate Cluster.http_release
    Cluster.widened_infer_queued
  /\ Controller.bound_idxs (Controller.CORE_MAP (fst Cluster.widened_infer_queued))
    ("vm1"%string, "train"%string) = [2; 3; 0; 1]
  /\ Controller.bound_idxs
       (Controller.CORE_MAP
          (fst (Cluster.process_request 6 Cluster.widened_infer_queued
                  (Controller.mkPendingRequest "vm1" "infer" 102 1 5))))
       ("vm1"%string, "train"%string) = [2; 3; 0]
  /\ ~ Spec.loses_only_highest
         (Controller.CORE_MAP (fst Cluster.widened_infer_queued))
         (Controller.CORE_MAP
            (fst (Cluster.process_request 6 Cluster.widened_infer_queued
                    (Controller.mkPendingRequest "vm1" "infer" 102 1 5))))
         ("vm1"%string, "train"%string).
Proof.
  split; [exact widened_infer_queued_reachable |].
  split; [reflexivity |]. split; [reflexivity |].
  intros H. specialize (H 1).
  assert (L : 3 <= 1); [| lia].
  apply H.
  - vm_compute. tauto.
  - vm_compute. intuition discriminate.
  - vm_compute. tauto.
Qed.

(* ================================================================== *)
(** * Part III: further properties of the code                         *)
(* ================================================================== *)

(** ** The agent executor: release, status, and what is never dropped *)

Lemma keys_set_mem {K V} `{PyEqLaws K} (d : PyDict.dict K V) k v :
  PyDict.mem d k = true -> PyDict.keys (PyDict.set d k v) = PyDict.keys d.
Proof. intros M. rewrite keys_set. now rewrite M. Qed.

Lemma filter_key_notin {K V} `{PyEqLaws K} (d : PyDict.dict K V) k :
  ~ In k (PyDict.keys d) ->
  filter (fun kv => py_eqb (fst kv) k) d = [].
Proof.
  induction d as [| [k0 v0] r IH]; cbn; [easy |].
  intros N. destruct (py_eqb_spec k0 k) as [-> | Ne]; [tauto |].
  apply IH. tauto.
Qed.

(** In a dictionary with unique keys, a key that was just written has
    exactly one entry. *)
Lemma filter_key_set {K V} `{PyEqLaws K} (d : PyDict.dict K V) k v :
  PyDict.wf d ->
  filter (fun kv => py_eqb (fst kv) k) (PyDict.set d k v) = [(k, v)].
Proof.
  unfold PyDict.wf, PyDict.keys, PyDict.set.
  induction d as [| [k0 v0] r IH]; cbn; intros W.
  - now rewrite py_eqb_refl.
  - inversion W as [| ? ? N W']; subst.
    destruct (py_eqb_spec k0 k) as [-> | Ne]; cbn.
    + rewrite py_eqb_refl. f_equal. now apply filter_key_notin.
    + rewrite (py_eqb_neq Ne). now apply IH.
Qed.

(** X1.  [release] answers 404 for a job that is not tracked and changes
    nothing; for a tracked job it asks the operating system to restrict
    the recorded pid to [set(keep_cores)] and then either records
    [keep_cores] under the job (same pid, same set of tracked jobs, every
    other job untouched) or, when the call is refused, answers 500 and
    changes nothing. *)
Theorem release_all_or_nothing :
  forall (OS : Type) (sched_setaffinity : OS -> Z -> list Z -> option OS)
         (a : Agent.State OS) (p : Agent.ReleasePayload),
    let a' := fst (Agent.release sched_setaffinity a p) in
    let r := snd (Agent.release sched_setaffinity a p) in
    (PyDict.get (Agent.jobs a) (Agent.rel_job p) = None
     /\ r = Agent.JobNotFound404 /\ a' = a)
    \/ (exists info o',
           PyDict.get (Agent.jobs a) (Agent.rel_job p) = Some info
           /\ sched_setaffinity (Agent.os a) (Agent.job_pid info)
                (Agent.py_set (Agent.rel_keep_cores p)) = Some o'
           /\ r = Agent.Ok200 (Agent.rel_job p) (Agent.rel_keep_cores p)
           /\ Agent.os a' = o'
           /\ PyDict.get (Agent.jobs a') (Agent.rel_job p)
              = Some (Agent.mkJobInfo (Agent.job_pid info)
                                      (Agent.rel_keep_cores p))
           /\ (forall j, j <> Agent.rel_job p ->
                         PyDict.get (Agent.jobs a') j
                         = PyDict.get (Agent.jobs a) j)
           /\ PyDict.keys (Agent.jobs a') = PyDict.keys (Agent.jobs a))
    \/ (exists info,
           PyDict.get (Agent.jobs a) (Agent.rel_job p) = Some info
           /\ sched_setaffinity (Agent.os a) (Agent.job_pid info)
                (Agent.py_set (Agent.rel_keep_cores p)) = None
           /\ r = Agent.BindError500 /\ a' = a).
Proof.
  intros OS setaff a p. unfold Agent.release.
  destruct (PyDict.get (Agent.jobs a) (Agent.rel_job p)) as [info |] eqn:G;
    cbn; [| left; now repeat split].
  destruct (setaff (Agent.os a) (Agent.job_pid info)
              (Agent.py_set (Agent.rel_keep_cores p))) as [o' |] eqn:S; cbn.
  - right. left. exists info, o'.
    split; [reflexivity |]. split; [exact S |].
    split; [reflexivity |]. split; [reflexivity |].
    split; [apply get_set_same |].
    split; [intros j N; apply get_set_other; congruence |].
    apply keys_set_mem. unfold PyDict.mem. now rewrite G.
  - right. right. exists info. now rewrite S.
Qed.

(** X2.  No operation of the agent forgets a job: after [allocate] or
    [release], whatever the outcome, every job that was tracked is still
    tracked (a release with an empty keep-list included). *)
Theorem agent_never_drops_a_job :
  forall (OS : Type) (sched_setaffinity : OS -> Z -> list Z -> option OS)
         (a : Agent.State OS) (pa : Agent.AllocatePayload)
         (pr : Agent.ReleasePayload) (j : string),
    PyDict.mem (Agent.jobs a) j = true ->
    PyDict.mem (Agent.jobs (fst (Agent.allocate sched_setaffinity a pa))) j
    = true
    /\ PyDict.mem (Agent.jobs (fst (Agent.release sched_setaffinity a pr))) j
       = true.
Proof.
  intros OS setaff a pa pr j M.
  assert (S : forall k v, PyDict.mem (PyDict.set (Agent.jobs a) k v) j = true).
  { intros k v. unfold PyDict.mem in *. rewrite get_set.
    destruct (py_eqb k j); [reflexivity | exact M]. }
  split.
  - unfold Agent.allocate. destruct (Agent.alloc_pid pa); [| exact M].
    destruct (setaff _ _ _); cbn; [apply S | exact M].
  - unfold Agent.release.
    destruct (PyDict.get (Agent.jobs a) (Agent.rel_job pr)); [| exact M].
    destruct (setaff _ _ _); cbn; [apply S | exact M].
Qed.

(** X3.  After a successful [allocate(job, pid, cores)] on an agent whose
    job table has unique keys, [status] reports exactly one row for the
    job: the pid and cores just recorded, with the CPU percentage that
    [psutil] samples for that pid, or 0 when sampling fails. *)
Theorem status_after_allocate :
  forall (OS : Type) (sched_setaffinity : OS -> Z -> list Z -> option OS)
         (cpu_percent : OS -> Z -> option Q)
         (a : Agent.State OS) (job : string) (pid : Z) (cores : list Z)
         (o' : OS),
    PyDict.wf (Agent.jobs a) ->
    sched_setaffinity (Agent.os a) pid (Agent.py_set cores) = Some o' ->
    let a' := fst (Agent.allocate sched_setaffinity a
                     (Agent.mkAllocatePayload job (Some pid) cores)) in
    filter (fun r => String.eqb (row_job r) job)
           (Agent.st_jobs (Agent.status cpu_percent a'))
    = [mkJobRow job pid cores
                (match cpu_percent o' pid with Some c => c | None => 0%Q end)].
Proof.
  intros OS setaff cpu a job pid cores o' W S a'. subst a'.
  unfold Agent.allocate.
  cbn [Agent.alloc_pid Agent.alloc_cores Agent.alloc_job]. rewrite S.
  unfold Agent.status. cbn.
  pose proof (filter_key_set job (Agent.mkJobInfo pid cores) W) as F.
  revert F. generalize (PyDict.set (Agent.jobs a) job (Agent.mkJobInfo pid cores)).
  intros d. induction d as [| [k v] r IH]; cbn; [discriminate |].
  destruct (String.eqb k job) eqn:E; cbn.
  - intros [= -> -> F]. f_equal.
    clear IH E. induction r as [| [k' v'] r IH]; cbn in *; [reflexivity |].
    destruct (String.eqb k' job); [discriminate F | now apply IH].
  - intros F. now apply IH.
Qed.

Lemma status_after_allocate_witness :
  PyDict.wf (Agent.jobs Cluster.vm1_node)
  /\ filter (fun r => String.eqb (row_job r) "train")
       (Agent.st_jobs
          (Agent.status Cluster.sim_cpu_percent
             (fst (Agent.allocate Cluster.sim_sched_setaffinity
                     Cluster.vm1_node
                     (Agent.mkAllocatePayload "train" (Some 101)
                                              [0; 1; 2; 3])))))
     = [mkJobRow "train" 101 [0; 1; 2; 3] 50%Q].
Proof.
  assert (W : PyDict.wf (Agent.jobs Cluster.vm1_node)) by constructor.
  split; [exact W |].
  exact (@status_after_allocate Cluster.SimOS Cluster.sim_sched_setaffinity
           Cluster.sim_cpu_percent Cluster.vm1_node "train" 101 [0; 1; 2; 3]
           (Cluster.mkSimOS [(101, [0; 1; 2; 3]); (102, [0; 1; 2; 3])]
                            [(101, 50%Q); (102, 0%Q)])
           W eq_refl).
Defined.

(** X4.  A job that [allocate] has just recorded is known to [release]:
    the answer is never 404, the operating system is asked about the pid
    given to [allocate], and on success the job is recorded with that pid
    and the kept cores; on refusal the agent stays as [allocate] left it. *)
Theorem release_after_allocate :
  forall (OS : Type) (sched_setaffinity : OS -> Z -> list Z -> option OS)
         (a : Agent.State OS) (job : string) (pid : Z)
         (cores keep : list Z) (o1 : OS),
    sched_setaffinity (Agent.os a) pid (Agent.py_set cores) = Some o1 ->
    let a1 := fst (Agent.allocate sched_setaffinity a
                     (Agent.mkAllocatePayload job (Some pid) cores)) in
    let res := Agent.release sched_setaffinity a1
                 (Agent.mkReleasePayload job keep) in
    snd res <> Agent.JobNotFound404
    /\ match sched_setaffinity o1 pid (Agent.py_set keep) with
       | Some o2 =>
           snd res = Agent.Ok200 job keep
           /\ Agent.os (fst res) = o2
           /\ PyDict.get (Agent.jobs (fst res)) job
              = Some (Agent.mkJobInfo pid keep)
       | None => snd res = Agent.BindError500 /\ fst res = a1
       end.
Proof.
  intros OS setaff a job pid cores keep o1 S a1 res. subst res a1.
  unfold Agent.allocate.
  cbn [Agent.alloc_pid Agent.alloc_cores Agent.alloc_job]. rewrite S.
  unfold Agent.release.
  cbn [fst snd Agent.rel_job Agent.rel_keep_cores Agent.jobs Agent.os
       Agent.with_jobs Agent.with_os Agent.job_pid].
  rewrite get_set_same. cbn [Agent.job_pid].
  destruct (setaff o1 pid (Agent.py_set keep)) as [o2 |];
    cbn [fst snd Agent.jobs Agent.os Agent.with_jobs Agent.with_os].
  - split; [discriminate |]. split; [reflexivity |].
    split; [reflexivity |]. apply get_set_same.
  - split; [discriminate |]. now split.
Qed.

Lemma release_after_allocate_witness :
  Cluster.sim_sched_setaffinity (Agent.os Cluster.vm1_node) 101
    (Agent.py_set [0; 1; 2; 3])
  = Some (Cluster.mkSimOS [(101, [0; 1; 2; 3]); (102, [0; 1; 2; 3])]
                          [(101, 50%Q); (102, 0%Q)])
  /\ snd (Agent.release Cluster.sim_sched_setaffinity
            (fst (Agent.allocate Cluster.sim_sched_setaffinity
                    Cluster.vm1_node
                    (Agent.mkAllocatePayload "train" (Some 101)
                                             [0; 1; 2; 3])))
            (Agent.mkReleasePayload "train" [0; 1; 2]))
     <> Agent.JobNotFound404.
Proof.
  split; [reflexivity |].
  exact (proj1 (@release_after_allocate Cluster.SimOS
                  Cluster.sim_sched_setaffinity Cluster.vm1_node "train" 101
                  [0; 1; 2; 3] [0; 1; 2]
                  (Cluster.mkSimOS [(101, [0; 1; 2; 3]); (102, [0; 1; 2; 3])]
                                   [(101, 50%Q); (102, 0%Q)])
                  eq_refl)).
Defined.

Lemma agent_never_drops_a_job_witness :
  PyDict.mem
    (Agent.jobs
       (fst (Agent.release Cluster.sim_sched_setaffinity
               (Agent.mkState "vm1" 4 0
                  [("train"%string, Agent.mkJobInfo 101 [0; 1; 2; 3])]
                  (Agent.os Cluster.vm1_node))
               (Agent.mkReleasePayload "train" []))))
    "train"%string = true.
Proof.
  apply (@agent_never_drops_a_job Cluster.SimOS Cluster.sim_sched_setaffinity
           (Agent.mkState "vm1" 4 0
              [("train"%string, Agent.mkJobInfo 101 [0; 1; 2; 3])]
              (Agent.os Cluster.vm1_node))
           (Agent.mkAllocatePayload "train" None [])
           (Agent.mkReleasePayload "train" []) "train"%string).
  reflexivity.
Defined.

(** ** The controller: registration and the activity log *)

Lemma get_seed_free (cm : PyDict.dict Z (option Controller.Key)) slots g :
  PyDict.get (Controller.seed_free cm slots) g
  = match PyDict.get cm g with
    | Some x => Some x
    | None => if existsb (Z.eqb g) slots then Some None else None
    end.
Proof.
  unfold Controller.seed_free. revert cm.
  induction slots as [| a r IH]; intros cm; cbn.
  - now destruct (PyDict.get cm g).
  - rewrite IH, get_setdefault. rewrite (Z.eqb_sym g a).
    destruct (PyDict.get cm g); [reflexivity |].
    destruct (a =? g); cbn; [| reflexivity].
    now destruct (existsb (Z.eqb g) r).
Qed.

Lemma seed_free_present (cm : PyDict.dict Z (option Controller.Key)) slots :
  (forall g, In g slots -> PyDict.mem cm g = true) ->
  Controller.seed_free cm slots = cm.
Proof.
  unfold Controller.seed_free.
  induction slots as [| a r IH]; intros M; cbn; [reflexivity |].
  replace (PyDict.setdefault cm a None) with cm.
  - apply IH. intros g I. apply M. now right.
  - unfold PyDict.setdefault. now rewrite (M a) by now left.
Qed.

Lemma set_set {K V} `{PyEqLaws K} (d : PyDict.dict K V) k v v' :
  PyDict.set (PyDict.set d k v) k v' = PyDict.set d k v'.
Proof.
  unfold PyDict.set. induction d as [| [k0 v0] r IH]; cbn.
  - now rewrite py_eqb_refl.
  - destruct (py_eqb k0 k) eqn:E; cbn; rewrite E; [reflexivity |].
    now rewrite IH.
Qed.

(** X5.  [register] seeds the agent's range without disturbing anything:
    afterwards every index of [[offset, offset+total)] is a key of the
    core map; a slot that was already in the map keeps its state, bound
    or free; a slot that was not is free if it is in the range and still
    absent otherwise; allocations, requested counts and the pending queue
    are untouched, and so is every other agent's entry. *)
Theorem register_seeds_range :
  forall (data : Controller.RegisterData) (now : Timestamp)
         (s : Controller.State),
    let s' := Controller.register data now s in
    let total := match Controller.reg_total_cores data with
                 | Some t => t | None => 1 end in
    let offset := match Controller.reg_core_offset data with
                  | Some o => o | None => 0 end in
    (forall g, offset <= g < offset + total ->
               PyDict.mem (Controller.CORE_MAP s') g = true)
    /\ (forall g v, PyDict.get (Controller.CORE_MAP s) g = Some v ->
                    PyDict.get (Controller.CORE_MAP s') g = Some v)
    /\ (forall g, PyDict.get (Controller.CORE_MAP s) g = None ->
                  PyDict.get (Controller.CORE_MAP s') g
                  = if (offset <=? g) && (g <? offset + total)
                    then Some None else None)
    /\ Controller.ALLOCATIONS s' = Controller.ALLOCATIONS s
    /\ Controller.JOB_REQUEST s' = Controller.JOB_REQUEST s
    /\ Controller.PENDING s' = Controller.PENDING s
    /\ (forall a, a <> Controller.vm_name data ->
                  PyDict.get (Controller.AGENTS s') a
                  = PyDict.get (Controller.AGENTS s) a).
Proof.
  intros data now s s' total offset. subst s'.
  unfold Controller.register. cbn. fold total. fold offset.
  assert (R : forall g,
             existsb (Z.eqb g) (py_range offset (offset + total))
             = (offset <=? g) && (g <? offset + total)).
  { intros g. apply eq_true_iff_eq.
    rewrite existsb_eqb_In, In_py_range, andb_true_iff. lia. }
  split; [| split; [| split]].
  - intros g Rg. unfold PyDict.mem. rewrite get_seed_free, R.
    destruct (PyDict.get (Controller.CORE_MAP s) g); [reflexivity |].
    replace ((offset <=? g) && (g <? offset + total)) with true;
      [reflexivity |].
    symmetry. apply andb_true_iff. lia.
  - intros g v G. now rewrite get_seed_free, G.
  - intros g G. now rewrite get_seed_free, G, R.
  - repeat (split; [reflexivity |]).
    intros a N. apply get_set_other. congruence.
Qed.

(** X6.  Registering the same data again changes nothing but the
    last-seen time and the activity log: the core map, the allocations,
    the requested counts and the pending queue are those of the first
    registration, and the agent table is what a single registration at
    the later time gives. *)
Theorem register_twice :
  forall (data : Controller.RegisterData) (now now' : Timestamp)
         (s : Controller.State),
    let once := Controller.register data now s in
    let twice := Controller.register data now' once in
    Controller.CORE_MAP twice = Controller.CORE_MAP once
    /\ Controller.AGENTS twice
       = Controller.AGENTS (Controller.register data now' s)
    /\ Controller.ALLOCATIONS twice = Controller.ALLOCATIONS s
    /\ Controller.JOB_REQUEST twice = Controller.JOB_REQUEST s
    /\ Controller.PENDING twice = Controller.PENDING s.
Proof.
  intros data now now' s once twice. subst twice once.
  unfold Controller.register. cbn.
  split; [| split; [apply set_set | now repeat split]].
  apply seed_free_present. intros g I. unfold PyDict.mem.
  rewrite get_seed_free. apply existsb_eqb_In in I. rewrite I.
  now destruct (PyDict.get (Controller.CORE_MAP s) g).
Qed.

(** ** The steal plan: candidates, their order, and the victims taken *)






Section SortFacts.
Import Controller.

Lemma insert_by_spare_perm c l : Permutation (c :: l) (insert_by_spare c l).
Proof.
  induction l as [| d r IH]; cbn; [apply Permutation_refl |].
  destruct (c_spare d <=? c_spare c); [apply Permutation_refl |].
  eapply Permutation_trans; [apply perm_swap |]. now apply perm_skip.
Qed.

Lemma insert_by_spare_sorted c l :
  StronglySorted (fun x y => c_spare y <= c_spare x) l ->
  StronglySorted (fun x y => c_spare y <= c_spare x) (insert_by_spare c l).
Proof.
  induction 1 as [| d r S IH F]; cbn.
  - constructor; [constructor | constructor].
  - destruct (c_spare d <=? c_spare c) eqn:E.
    + apply Z.leb_le in E. constructor; [now constructor |].
      constructor; [assumption |].
      rewrite Forall_forall in *. intros y I. specialize (F y I). lia.
    + apply Z.leb_gt in E. constructor; [assumption |].
      rewrite Forall_forall in *. intros y I.
      apply In_insert_by_spare in I. destruct I as [-> | I]; [lia | now apply F].
Qed.

(** Among candidates of one spare value, insertion puts the new one first
    and leaves the others in their order. *)
Lemma insert_by_spare_stable c l v :
  StronglySorted (fun x y => c_spare y <= c_spare x) l ->
  filter (fun x => c_spare x =? v) (insert_by_spare c l)
  = filter (fun x => c_spare x =? v) (c :: l).
Proof.
  induction 1 as [| d r S IH F]; [reflexivity |].
  cbn [insert_by_spare].
  destruct (c_spare d <=? c_spare c) eqn:E; [reflexivity |].
  apply Z.leb_gt in E. cbn [filter] in *. rewrite IH.
  destruct (c_spare c =? v) eqn:C, (c_spare d =? v) eqn:D; try reflexivity.
  apply Z.eqb_eq in C, D. lia.
Qed.



(** X8.  The candidate sort: the result has the same candidates, spare
    never increases along it, and candidates of equal spare stay in the
    order in which they were found. *)
Theorem sort_by_spare_desc_stable :
  forall l : list Candidate,
    Permutation l (sort_by_spare_desc l)
    /\ StronglySorted (fun x y => c_spare y <= c_spare x)
         (sort_by_spare_desc l)
    /\ forall v, filter (fun x => c_spare x =? v) (sort_by_spare_desc l)
                 = filter (fun x => c_spare x =? v) l.
Proof.
  unfold sort_by_spare_desc.
  induction l as [| c r (P & S & F)]; cbn [fold_right].
  - split; [constructor | split; [constructor | reflexivity]].
  - split; [| split].
    + eapply Permutation_trans; [| apply insert_by_spare_perm].
      now apply perm_skip.
    + now apply insert_by_spare_sorted.
    + intros v. rewrite insert_by_spare_stable by assumption.
      cbn [filter]. now rewrite F.
Qed.

(** X9.  The victims: when [n] cores are missing, the first
    [min(max(n,0), number of candidates)] candidates of the list are taken,
    in order, one core each (the last of the candidate's slots), and the
    number still missing goes down by one per victim. *)
Theorem take_victims_prefix :
  forall (n : Z) (cands : list Candidate),
    let k := Nat.min (Z.to_nat (Z.max 0 n)) (List.length cands) in
    fst (take_victims n cands)
    = map (fun c => mkStolen (c_agent c) (c_job c) [List.last (c_idxs c) 0])
          (firstn k cands)
    /\ snd (take_victims n cands) = n - Z.of_nat k.
Proof.
  intros n cands. revert n.
  induction cands as [| c rest IH]; intros n; cbn [take_victims].
  - rewrite Nat.min_0_r. cbn. split; [reflexivity | lia].
  - destruct (0 <? n) eqn:E.
    + apply Z.ltb_lt in E.
      change (py_len [List.last (c_idxs c) 0]) with 1.
      specialize (IH (n - 1)). cbv zeta in IH.
      destruct (take_victims (n - 1) rest) as [more n'].
      cbn [fst snd] in *. destruct IH as [IH1 IH2].
      replace (Z.to_nat (Z.max 0 n)) with (S (Z.to_nat (Z.max 0 (n - 1))))
        by lia.
      cbn [List.length Nat.min firstn map]. rewrite IH1. split; [reflexivity |].
      rewrite IH2. lia.
    + apply Z.ltb_ge in E.
      replace (Z.to_nat (Z.max 0 n)) with 0%nat by lia.
      cbn. split; [reflexivity | lia].
Qed.
End SortFacts.

(** ** The scheduler: what an attempt leaves alone *)

Section SubsequenceFacts.
Context {A : Type}.

Lemma subsequence_refl (l : list A) : Spec.subsequence l l.
Proof. induction l; constructor; assumption. Qed.

Lemma subsequence_trans (l1 l2 l3 : list A) :
  Spec.subsequence l1 l2 -> Spec.subsequence l2 l3 -> Spec.subsequence l1 l3.
Proof.
  intros S12 S23. revert l1 S12.
  induction S23 as [| x l2 l3 S IH | x l2 l3 S IH]; intros l1 S12.
  - assumption.
  - constructor. now apply IH.
  - inversion S12; subst; constructor; now apply IH.
Qed.

Lemma subsequence_In (l l' : list A) x :
  Spec.subsequence l l' -> In x l -> In x l'.
Proof.
  induction 1 as [| y l l' S IH | y l l' S IH]; cbn; [easy | tauto |].
  intros [-> | I]; [now left | right; now apply IH].
Qed.

Lemma subsequence_length (l l' : list A) :
  Spec.subsequence l l' -> (List.length l <= List.length l')%nat.
Proof. induction 1; cbn; lia. Qed.

Lemma py_remove_subsequence `{PyEq A} (x : A) (l : list A) :
  Spec.subsequence (py_remove x l) l.
Proof.
  induction l as [| y r IH]; cbn; [constructor |].
  destruct (py_eqb y x); [constructor; apply subsequence_refl |].
  now constructor.
Qed.
End SubsequenceFacts.

Section AttemptFrames.
Import Controller.
Variable World : Type.
Variable http_status : World -> string -> World * option (list JobRow).
Variable http_allocate :
  World -> string -> string -> Z -> list Z -> World * bool.
Variable http_release :
  World -> string -> string -> list Z -> World * bool.

Local Abbreviation assign := (_assign_and_record http_allocate).
Local Abbreviation steal_one := (steal_one http_status http_release).
Local Abbreviation steal_and_admit :=
  (steal_and_admit http_status http_allocate http_release).
Local Abbreviation process_request :=
  (process_request http_status http_allocate http_release).
Local Abbreviation scheduler_pass :=
  (scheduler_pass http_status http_allocate http_release).

Lemma length_removelast_le {B} (l : list B) :
  List.length (removelast l) = pred (List.length l).
Proof.
  induction l as [| a [| b r] IH]; [reflexivity | reflexivity |].
  change (removelast (a :: b :: r)) with (a :: removelast (b :: r)).
  cbn [List.length]. rewrite IH. reflexivity.
Qed.

Lemma push_activity_bounded now a s :
  (List.length (ACTIVITY_LOG s) <= ACTIVITY_CAP)%nat ->
  (List.length (ACTIVITY_LOG (push_activity now a s)) <= ACTIVITY_CAP)%nat.
Proof.
  intros B. unfold push_activity. cbn [ACTIVITY_LOG with_ACTIVITY_LOG].
  destruct (Nat.ltb ACTIVITY_CAP (List.length ((now, a) :: ACTIVITY_LOG s)))
    eqn:E.
  - rewrite length_removelast_le. cbn [List.length]. lia.
  - apply Nat.ltb_ge in E. exact E.
Qed.

Lemma only_frees_refl cm : Spec.only_frees cm cm.
Proof. intros g. now left. Qed.

Lemma only_frees_trans cm1 cm2 cm3 :
  Spec.only_frees cm1 cm2 -> Spec.only_frees cm2 cm3 ->
  Spec.only_frees cm1 cm3.
Proof.
  intros A B g. destruct (B g) as [E | E]; [| now right].
  rewrite E. apply A.
Qed.

Lemma only_frees_mark_none cm idxs : Spec.only_frees cm (mark cm idxs None).
Proof.
  intros g. rewrite get_mark.
  destruct (existsb (Z.eqb g) idxs); [now right | now left].
Qed.

(** What [_assign_and_record] never touches, and when it fails. *)
Lemma assign_and_record_frame agent job pid cores s w :
  let r := assign agent job pid cores (s, w) in
  PENDING (fst (fst r)) = PENDING s
  /\ ACTIVITY_LOG (fst (fst r)) = ACTIVITY_LOG s
  /\ snd r
     = snd (call_allocate http_allocate w (endpoint_of s agent) job pid cores)
  /\ (snd r = false -> fst (fst r) = s).
Proof.
  unfold _assign_and_record.
  destruct (call_allocate http_allocate w (endpoint_of s agent) job pid cores)
    as [w1 [|]]; cbn; now repeat split.
Qed.

Lemma steal_one_frame now req s w st :
  let s' := fst (steal_one now req (s, w) st) in
  PENDING s' = PENDING s /\ JOB_REQUEST s' = JOB_REQUEST s
  /\ Spec.only_frees (CORE_MAP s) (CORE_MAP s')
  /\ ((List.length (ACTIVITY_LOG s) <= ACTIVITY_CAP)%nat ->
      (List.length (ACTIVITY_LOG s') <= ACTIVITY_CAP)%nat).
Proof.
  unfold Controller.steal_one.
  destruct (call_status http_status w (endpoint_of s (src_agent st)))
    as [w1 [rows |]]; cbn [fst];
    [| split; [| split; [| split]]; auto using only_frees_refl].
  destruct (call_release http_release w1 _ _ _) as [w2 [|]]; cbn [fst];
    [| split; [| split; [| split]]; auto using only_frees_refl].
  split; [reflexivity |]. split; [reflexivity |]. split.
  - cbn. apply only_frees_mark_none.
  - intros B. now apply push_activity_bounded.
Qed.

Lemma steal_fold_frame now req stolen s w :
  let s' := fst (fold_left (steal_one now req) stolen (s, w)) in
  PENDING s' = PENDING s /\ JOB_REQUEST s' = JOB_REQUEST s
  /\ Spec.only_frees (CORE_MAP s) (CORE_MAP s')
  /\ ((List.length (ACTIVITY_LOG s) <= ACTIVITY_CAP)%nat ->
      (List.length (ACTIVITY_LOG s') <= ACTIVITY_CAP)%nat).
Proof.
  revert s w. induction stolen as [| st rest IH]; intros s w;
    cbn [fold_left]; cbv zeta.
  - split; [| split; [| split]]; auto using only_frees_refl.
  - destruct (steal_one now req (s, w) st) as [s1 w1] eqn:E.
    pose proof (steal_one_frame now req s w st) as F1.
    rewrite E in F1. cbn [fst] in F1. destruct F1 as (P1 & J1 & O1 & B1).
    pose proof (IH s1 w1) as F2. cbv zeta in F2.
    destruct F2 as (P2 & J2 & O2 & B2).
    split; [congruence |]. split; [congruence |]. split.
    + now apply only_frees_trans with (CORE_MAP s1).
    + auto.
Qed.

(** The footprint of the steal phase on the queue, the log and, when no
    bind call can succeed, on the whole ledger. *)
Lemma steal_and_admit_frame now req agent_slots free_slots s w :
  let s' := fst (steal_and_admit now req agent_slots free_slots (s, w)) in
  (PENDING s' = PENDING s \/ PENDING s' = py_remove req (PENDING s))
  /\ ((List.length (ACTIVITY_LOG s) <= ACTIVITY_CAP)%nat ->
      (List.length (ACTIVITY_LOG s') <= ACTIVITY_CAP)%nat)
  /\ ((forall w0 cores,
          snd (call_allocate http_allocate w0 (endpoint_of s (vm req))
                 (job req) (pid req) cores) = false) ->
      AGENTS s' = AGENTS s /\ ALLOCATIONS s' = ALLOCATIONS s
      /\ JOB_REQUEST s' = JOB_REQUEST s /\ PENDING s' = PENDING s
      /\ Spec.only_frees (CORE_MAP s) (CORE_MAP s')).
Proof.
  unfold Controller.steal_and_admit.
  destruct (build_candidates http_status (AGENTS s) (CORE_MAP s) w)
    as [cands w1].
  destruct (take_victims _ (sort_by_spare_desc cands)) as [stolen n'].
  destruct ((n' <=? 0) && _); cbn [fst];
    [| split; [now left | split; [auto |]];
       intros _; repeat split; apply only_frees_refl].
  destruct (fold_left (steal_one now req) stolen (s, w1)) as [s2 w2] eqn:F.
  pose proof (steal_fold_frame now req stolen s w1) as F2.
  rewrite F in F2. cbn [fst] in F2. destruct F2 as (P2 & J2 & O2 & B2).
  pose proof (@steal_fold_effect World http_status http_release now req
                stolen s w1) as (A2 & L2 & _).
  rewrite F in A2, L2. cbn [fst] in A2, L2.
  assert (Base :
            (PENDING s2 = PENDING s \/ PENDING s2 = py_remove req (PENDING s))
            /\ ((List.length (ACTIVITY_LOG s) <= ACTIVITY_CAP)%nat ->
                (List.length (ACTIVITY_LOG s2) <= ACTIVITY_CAP)%nat)
            /\ ((forall w0 cores,
                    snd (call_allocate http_allocate w0
                           (endpoint_of s (vm req)) (job req) (pid req) cores)
                    = false) ->
                AGENTS s2 = AGENTS s /\ ALLOCATIONS s2 = ALLOCATIONS s
                /\ JOB_REQUEST s2 = JOB_REQUEST s /\ PENDING s2 = PENDING s
                /\ Spec.only_frees (CORE_MAP s) (CORE_MAP s2))).
  { split; [now left |]. split; [exact B2 |]. intros _. now repeat split. }
  set (pick := py_slice_to _ _).
  destruct (py_len pick =? need req); [| exact Base].
  pose proof (assign_and_record_frame (vm req) (job req) (pid req) pick
                s2 w2) as C.
  destruct (assign (vm req) (job req) (pid req) pick (s2, w2))
    as [[s3 w3] b]. cbn [fst snd] in C. destruct C as (P3 & G3 & R3 & N3).
  destruct b; cbn [fst]; [| rewrite (N3 eq_refl); exact Base].
  split; [| split].
  - right. cbn. now rewrite P3, P2.
  - intros B. apply push_activity_bounded. rewrite G3. now apply B2.
  - intros H. exfalso.
    assert (E : endpoint_of s2 (vm req) = endpoint_of s (vm req))
      by (unfold endpoint_of; now rewrite A2).
    rewrite E, H in R3. discriminate R3.
Qed.

Lemma process_request_frame now req s w info :
  PyDict.get (AGENTS s) (vm req) = Some info ->
  let s' := fst (process_request now (s, w) req) in
  (PENDING s' = PENDING s \/ PENDING s' = py_remove req (PENDING s))
  /\ ((List.length (ACTIVITY_LOG s) <= ACTIVITY_CAP)%nat ->
      (List.length (ACTIVITY_LOG s') <= ACTIVITY_CAP)%nat)
  /\ ((forall w0 cores,
          snd (call_allocate http_allocate w0 (endpoint info)
                 (job req) (pid req) cores) = false) ->
      AGENTS s' = AGENTS s /\ ALLOCATIONS s' = ALLOCATIONS s
      /\ JOB_REQUEST s' = JOB_REQUEST s /\ PENDING s' = PENDING s
      /\ Spec.only_frees (CORE_MAP s) (CORE_MAP s')).
Proof.
  intros A. unfold Controller.process_request. rewrite A.
  assert (E : endpoint_of s (vm req) = endpoint info)
    by (unfold endpoint_of; now rewrite A).
  rewrite <- E.
  set (agent_slots := py_range _ _).
  set (free_slots := free_slots_of (CORE_MAP s) agent_slots).
  destruct (need req + RESERVE_BUFFER <=? py_len free_slots);
    [| apply steal_and_admit_frame].
  set (pick := py_slice_to free_slots (need req)).
  pose proof (assign_and_record_frame (vm req) (job req) (pid req) pick
                s w) as C.
  destruct (assign (vm req) (job req) (pid req) pick (s, w))
    as [[s1 w1] b]. cbn [fst snd] in C. destruct C as (P1 & G1 & R1 & N1).
  destruct b; [| rewrite (N1 eq_refl); apply steal_and_admit_frame].
  cbn [fst]. split; [| split].
  - right. cbn. now rewrite P1.
  - intros B. apply push_activity_bounded. now rewrite G1.
  - intros H. exfalso. rewrite H in R1. discriminate R1.
Qed.

(** An attempt for an unknown agent only drops the request. *)
Lemma process_request_unknown now req s w :
  PyDict.get (AGENTS s) (vm req) = None ->
  let s' := fst (process_request now (s, w) req) in
  PENDING s' = py_remove req (PENDING s)
  /\ ((List.length (ACTIVITY_LOG s) <= ACTIVITY_CAP)%nat ->
      (List.length (ACTIVITY_LOG s') <= ACTIVITY_CAP)%nat).
Proof.
  intros A. unfold Controller.process_request. rewrite A. cbn [fst].
  split; [reflexivity |]. intros B. now apply push_activity_bounded.
Qed.

Lemma process_request_queue_log now req s w :
  let s' := fst (process_request now (s, w) req) in
  Spec.subsequence (PENDING s') (PENDING s)
  /\ ((List.length (ACTIVITY_LOG s) <= ACTIVITY_CAP)%nat ->
      (List.length (ACTIVITY_LOG s') <= ACTIVITY_CAP)%nat).
Proof.
  destruct (PyDict.get (AGENTS s) (vm req)) as [info |] eqn:A.
  - destruct (@process_request_frame now req s w info A) as ([P | P] & B & _);
      cbv zeta; rewrite P;
      (split; [apply subsequence_refl || apply py_remove_subsequence
              | exact B]).
  - destruct (@process_request_unknown now req s w A) as (P & B).
    cbv zeta. rewrite P. split; [apply py_remove_subsequence | exact B].
Qed.

Lemma attempts_queue_log now reqs s w :
  let s' := fst (fold_left (process_request now) reqs (s, w)) in
  Spec.subsequence (PENDING s') (PENDING s)
  /\ ((List.length (ACTIVITY_LOG s) <= ACTIVITY_CAP)%nat ->
      (List.length (ACTIVITY_LOG s') <= ACTIVITY_CAP)%nat).
Proof.
  revert s w. induction reqs as [| req rest IH]; intros s w;
    cbn [fold_left]; cbv zeta.
  - split; [apply subsequence_refl | auto].
  - destruct (process_request now (s, w) req) as [s1 w1] eqn:E.
    pose proof (process_request_queue_log now req s w) as F1.
    rewrite E in F1. cbn [fst] in F1. destruct F1 as (S1 & B1).
    pose proof (IH s1 w1) as F2. cbv zeta in F2. destruct F2 as (S2 & B2).
    split; [now apply subsequence_trans with (PENDING s1) | auto].
Qed.
End AttemptFrames.

Section PassProperties.
Import Controller.
Variable World : Type.
Variable http_status : World -> string -> World * option (list JobRow).
Variable http_allocate :
  World -> string -> string -> Z -> list Z -> World * bool.
Variable http_release :
  World -> string -> string -> list Z -> World * bool.

Local Abbreviation process_request :=
  (process_request http_status http_allocate http_release).
Local Abbreviation scheduler_pass :=
  (scheduler_pass http_status http_allocate http_release).

(** X10.  A scheduling pass never adds a request to the pending queue and
    never reorders it: the queue after the pass is the queue before it
    with some requests taken out. *)
Theorem pass_keeps_queue_order :
  forall (now : Timestamp) (s : State) (w : World),
    Spec.subsequence (PENDING (fst (scheduler_pass now (s, w)))) (PENDING s).
Proof.
  intros now s w. unfold Controller.scheduler_pass. cbn [fst].
  apply (attempts_queue_log http_status http_allocate http_release
           now (PENDING s) s w).
Qed.

Lemma step_keeps_agents sw sw' a :
  Spec.step http_status http_allocate http_release sw sw' ->
  PyDict.mem (AGENTS (fst sw)) a = true ->
  PyDict.mem (AGENTS (fst sw')) a = true.
Proof.
  intros St.
  destruct St as [data now s w | data now s w | vm job now [s w] | now [s w]
                 | s w w']; cbn [fst].
  - unfold register. cbn. unfold PyDict.mem. rewrite get_set.
    now destruct (py_eqb (vm_name data) a).
  - unfold request_alloc.
    now destruct (negb (PyDict.mem (AGENTS s) (req_vm data))).
  - unfold complete. now destruct (PyDict.get (ALLOCATIONS s) (vm, job)).
  - unfold Controller.scheduler_pass. cbn [fst].
    destruct (@attempts_bind World http_status http_allocate http_release
                now (PENDING s) s w) as [E _].
    now rewrite E.
  - easy.
Qed.

(** X11.  Agents are never unregistered, and in every reachable state
    every pending request names a registered agent: the branch of the
    scheduler that drops a request for an unknown agent is never taken. *)
Theorem pending_requests_registered :
  forall sw : State * World,
    Spec.reachable http_status http_allocate http_release sw ->
    Spec.pending_registered (fst sw)
    /\ forall sw' a,
        Spec.step http_status http_allocate http_release sw sw' ->
        PyDict.mem (AGENTS (fst sw)) a = true ->
        PyDict.mem (AGENTS (fst sw')) a = true.
Proof.
  intros sw R. split; [| intros sw' a St; now apply step_keeps_agents].
  induction R as [w | sw sw' R IH St]; [intros r [] |].
  pose proof (fun a => @step_keeps_agents sw sw' a St) as K.
  destruct St as [data now s w | data now s w | vm job now [s w] | now [s w]
                 | s w w']; cbn [fst] in *.
  - intros r I. apply K. apply IH. exact I.
  - unfold request_alloc in *.
    destruct (PyDict.mem (AGENTS s) (req_vm data)) eqn:M; cbn in *;
      [| exact IH].
    intros r I. apply in_app_or in I. destruct I as [I | [<- | []]].
    + now apply IH.
    + exact M.
  - intros r I. apply K. apply IH.
    unfold complete in I.
    now destruct (PyDict.get (ALLOCATIONS s) (vm, job)).
  - intros r I. apply K. apply IH.
    unfold Controller.scheduler_pass in I. cbn [fst] in I.
    eapply subsequence_In; [| exact I].
    apply (attempts_queue_log http_status http_allocate http_release
             now (PENDING s) s w).
  - exact IH.
Qed.

(** X12.  In every reachable state the activity log holds at most 400
    entries. *)
Theorem activity_log_bounded :
  forall sw : State * World,
    Spec.reachable http_status http_allocate http_release sw ->
    (List.length (ACTIVITY_LOG (fst sw)) <= 400)%nat.
Proof.
  intros sw R. change 400%nat with ACTIVITY_CAP.
  induction R as [w | sw sw' R IH St]; [cbn; lia |].
  destruct St as [data now s w | data now s w | vm job now [s w] | now [s w]
                 | s w w']; cbn [fst] in *.
  - unfold register. now apply push_activity_bounded.
  - unfold request_alloc.
    destruct (negb (PyDict.mem (AGENTS s) (req_vm data))); cbn [fst];
      [exact IH | now apply push_activity_bounded].
  - unfold complete.
    destruct (PyDict.get (ALLOCATIONS s) (vm, job)); cbn [fst];
      [now apply push_activity_bounded | exact IH].
  - unfold Controller.scheduler_pass. cbn [fst].
    now apply (attempts_queue_log http_status http_allocate http_release
                 now (PENDING s) s w).
  - exact IH.
Qed.

Lemma attempts_with_failing_binds now reqs s w :
  (forall w0 e j p c, snd (http_allocate w0 e j p c) = false) ->
  (forall r, In r reqs -> PyDict.mem (AGENTS s) (vm r) = true) ->
  let s' := fst (fold_left (process_request now) reqs (s, w)) in
  AGENTS s' = AGENTS s /\ ALLOCATIONS s' = ALLOCATIONS s
  /\ JOB_REQUEST s' = JOB_REQUEST s /\ PENDING s' = PENDING s
  /\ Spec.only_frees (CORE_MAP s) (CORE_MAP s').
Proof.
  intros H. revert s w. induction reqs as [| req rest IH]; intros s w M;
    cbn [fold_left]; cbv zeta.
  - repeat split. apply only_frees_refl.
  - destruct (process_request now (s, w) req) as [s1 w1] eqn:E.
    assert (A : exists info, PyDict.get (AGENTS s) (vm req) = Some info).
    { specialize (M req (or_introl eq_refl)). unfold PyDict.mem in M.
      destruct (PyDict.get (AGENTS s) (vm req)) as [info |];
        [now exists info | discriminate M]. }
    destruct A as (info & A).
    pose proof (@process_request_frame World http_status http_allocate
                  http_release now req s w info A) as (_ & _ & F).
    rewrite E in F. cbn [fst] in F.
    destruct F as (A1 & L1 & J1 & P1 & O1).
    { intros w0 cores. unfold call_allocate.
      destruct (endpoint info); [apply H | reflexivity]. }
    pose proof (IH s1 w1) as IH1. cbv zeta in IH1.
    destruct IH1 as (A2 & L2 & J2 & P2 & O2).
    { intros r I. rewrite A1. apply M. now right. }
    split; [congruence |]. split; [congruence |]. split; [congruence |].
    split; [congruence |]. now apply only_frees_trans with (CORE_MAP s1).
Qed.

(** X13.  When no bind call succeeds, a scheduling pass over requests of
    registered agents dequeues nothing and grants nothing: agents,
    allocations, requested counts and the pending queue are unchanged, and
    every slot of the core map is as before or has become free (cores
    taken from victims are not given back). *)
Theorem pass_with_failing_binds :
  forall (now : Timestamp) (s : State) (w : World),
    (forall w0 e j p c, snd (http_allocate w0 e j p c) = false) ->
    Spec.pending_registered s ->
    let s' := fst (scheduler_pass now (s, w)) in
    AGENTS s' = AGENTS s /\ ALLOCATIONS s' = ALLOCATIONS s
    /\ JOB_REQUEST s' = JOB_REQUEST s /\ PENDING s' = PENDING s
    /\ Spec.only_frees (CORE_MAP s) (CORE_MAP s').
Proof.
  intros now s w H M. unfold Controller.scheduler_pass. cbn [fst].
  now apply attempts_with_failing_binds.
Qed.

(** X14.  A request for a registered agent whose recorded endpoint is
    [None] cannot be admitted: whatever the agents answer, the attempt
    leaves it in the queue and leaves agents, allocations and requested
    counts as they were; slots of the core map can only become free. *)
Theorem no_endpoint_no_admission :
  forall (now : Timestamp) (s : State) (w : World) (req : PendingRequest)
         (info : AgentInfo),
    PyDict.get (AGENTS s) (vm req) = Some info ->
    endpoint info = None ->
    let s' := fst (process_request now (s, w) req) in
    AGENTS s' = AGENTS s /\ ALLOCATIONS s' = ALLOCATIONS s
    /\ JOB_REQUEST s' = JOB_REQUEST s /\ PENDING s' = PENDING s
    /\ Spec.only_frees (CORE_MAP s) (CORE_MAP s').
Proof.
  intros now s w req info A E.
  pose proof (@process_request_frame World http_status http_allocate
                http_release now req s w info A) as (_ & _ & F).
  apply F. intros w0 cores. now rewrite E.
Qed.

End PassProperties.

Lemma pending_requests_registered_witness :
  Spec.reachable Cluster.http_status Cluster.http_allocate Cluster.http_release
    Cluster.widened_infer_queued
  /\ Spec.pending_registered (fst Cluster.widened_infer_queued).
Proof.
  split; [exact widened_infer_queued_reachable |].
  exact (proj1 (@pending_requests_registered Cluster.World
                  Cluster.http_status Cluster.http_allocate
                  Cluster.http_release Cluster.widened_infer_queued
                  widened_infer_queued_reachable)).
Defined.

Lemma activity_log_bounded_witness :
  Spec.reachable Cluster.http_status Cluster.http_allocate Cluster.http_release
    Cluster.infer_admitted
  /\ (List.length (Controller.ACTIVITY_LOG (fst Cluster.infer_admitted))
      <= 400)%nat.
Proof.
  split; [exact infer_admitted_reachable |].
  exact (@activity_log_bounded Cluster.World Cluster.http_status
           Cluster.http_allocate Cluster.http_release Cluster.infer_admitted
           infer_admitted_reachable).
Defined.

(** With the network down, the pass leaves [train] in the queue. *)
Lemma pass_with_failing_binds_witness :
  Spec.pending_registered Cluster.train_queued
  /\ Controller.PENDING
       (fst (Controller.scheduler_pass Cluster.down_status
               Cluster.down_allocate Cluster.down_release 3
               (Cluster.train_queued, tt)))
     = Controller.PENDING Cluster.train_queued.
Proof.
  assert (M : Spec.pending_registered Cluster.train_queued).
  { intros r [<- | []]. reflexivity. }
  split; [exact M |].
  exact (proj1 (proj2 (proj2 (proj2
           (@pass_with_failing_binds unit Cluster.down_status
              Cluster.down_allocate Cluster.down_release 3
              Cluster.train_queued tt
              (fun _ _ _ _ _ => eq_refl) M))))).
Defined.

(** After a name-only registration of [vm1], [train] cannot be admitted. *)
Lemma no_endpoint_no_admission_witness :
  PyDict.get
    (Controller.AGENTS
       (Controller.register Cluster.vm1_heartbeat 3 Cluster.train_queued))
    "vm1"%string
  = Some (Controller.mkAgentInfo 1 None 3 0)
  /\ Controller.PENDING
       (fst (Cluster.process_request 4
               (Controller.register Cluster.vm1_heartbeat 3
                  Cluster.train_queued, Cluster.world0)
               (Controller.mkPendingRequest "vm1" "train" 101 4 2)))
     = Controller.PENDING
         (Controller.register Cluster.vm1_heartbeat 3 Cluster.train_queued).
Proof.
  split; [reflexivity |].
  exact (proj1 (proj2 (proj2 (proj2
           (@no_endpoint_no_admission Cluster.World Cluster.http_status
              Cluster.http_allocate Cluster.http_release 4
              (Controller.register Cluster.vm1_heartbeat 3
                 Cluster.train_queued)
              Cluster.world0
              (Controller.mkPendingRequest "vm1" "train" 101 4 2)
              (Controller.mkAgentInfo 1 None 3 0) eq_refl eq_refl))))).
Defined.


(** ** The summary and the worker's admission check *)

Section ComprehensionFacts.
Context {K V K' V' : Type} `{PyEqLaws K} `{PyEqLaws K'}.
Variable fk : K -> V -> K'.
Variable fv : K -> V -> V'.

Lemma mem_set_iff (d : PyDict.dict K' V') k v k' :
  PyDict.mem (PyDict.set d k v) k' = true
  <-> k = k' \/ PyDict.mem d k' = true.
Proof.
  unfold PyDict.mem. rewrite get_set.
  destruct (py_eqb_spec k k') as [E | N]; [tauto |].
  split; [tauto | intros [E | M]; [contradiction | exact M]].
Qed.

Lemma mem_fold_set (d : PyDict.dict K V) (acc : PyDict.dict K' V') k' :
  PyDict.mem
    (fold_left (fun a kv => PyDict.set a (fk (fst kv) (snd kv))
                                       (fv (fst kv) (snd kv))) d acc) k'
  = true
  <-> PyDict.mem acc k' = true
      \/ exists kv, In kv d /\ fk (fst kv) (snd kv) = k'.
Proof.
  revert acc. induction d as [| kv r IH]; intros acc; cbn [fold_left].
  - split; [tauto | intros [M | (kv & [] & _)]; exact M].
  - rewrite IH, mem_set_iff. split.
    + intros [[E | M] | (kv' & I & E)].
      * right. exists kv. split; [now left | exact E].
      * now left.
      * right. exists kv'. split; [now right | exact E].
    + intros [M | (kv' & [<- | I] & E)].
      * left. now right.
      * left. now left.
      * right. now exists kv'.
Qed.

(** A key of the comprehension comes from an entry of the dictionary. *)
Lemma mem_comprehension (d : PyDict.dict K V) k' :
  PyDict.mem (py_dict_comprehension fk fv d) k' = true
  <-> exists kv, In kv d /\ fk (fst kv) (snd kv) = k'.
Proof.
  unfold py_dict_comprehension. rewrite mem_fold_set.
  split; [intros [M | E]; [discriminate M | exact E] | now right].
Qed.
End ComprehensionFacts.

Lemma mem_In_keys {K V} `{PyEqLaws K} (d : PyDict.dict K V) k :
  PyDict.mem d k = true <-> In k (PyDict.keys d).
Proof.
  unfold PyDict.mem. split.
  - intros M. destruct (PyDict.get d k) as [v |] eqn:G; [| discriminate M].
    apply get_Some_In in G. change k with (fst (k, v)). now apply in_map.
  - intros I. destruct (PyDict.get d k) eqn:G; [reflexivity |].
    now apply get_None_notin in G.
Qed.

(** Renaming the keys by a function that keeps them apart. *)
Lemma get_comprehension_renamed {K V K'} `{PyEqLaws K} `{PyEqLaws K'}
      (f : K -> K') (d : PyDict.dict K V) k :
  PyDict.wf d ->
  (forall k0, In k0 (PyDict.keys d) -> f k0 = f k -> k0 = k) ->
  PyDict.get (py_dict_comprehension (fun k0 _ => f k0) (fun _ v => v) d) (f k)
  = PyDict.get d k.
Proof.
  unfold py_dict_comprehension. intros W Inj.
  assert (G : forall acc,
             PyDict.get
               (fold_left (fun a kv => PyDict.set a (f (fst kv)) (snd kv))
                          d acc) (f k)
             = match PyDict.get d k with
               | Some v => Some v
               | None => PyDict.get acc (f k)
               end).
  { unfold PyDict.wf, PyDict.keys in *.
    induction d as [| [k0 v0] r IH]; intros acc; cbn [fold_left].
    - reflexivity.
    - inversion W as [| ? ? N W']; subst.
      rewrite IH by (assumption || (intros; apply Inj; [now right | assumption])).
      unfold PyDict.get at 3. cbn [fst snd]. fold (@PyDict.get K V _).
      destruct (py_eqb_spec k0 k) as [-> | Ne].
      + rewrite notin_get_None by exact N. apply get_set_same.
      + destruct (PyDict.get r k); [reflexivity |].
        apply get_set_other. intros E. apply Ne.
        apply Inj; [now left | exact E]. }
  rewrite G. now destruct (PyDict.get d k).
Qed.

Lemma py_str_inj (g g' : Z) : py_str g = py_str g' -> g = g'.
Proof.
  unfold py_str. intros E.
  assert (N : forall z, Z.to_int z <> Decimal.Pos Decimal.Nil
                        /\ Z.to_int z <> Decimal.Neg Decimal.Nil).
  { intros [| p | p]; cbn; split; try discriminate;
      intros [= C]; now apply (DecimalPos.Unsigned.to_uint_nonnil p). }
  assert (I : Some (Z.to_int g) = Some (Z.to_int g')).
  { rewrite <- (NilZero.isi (Z.to_int g)) by apply N.
    rewrite <- (NilZero.isi (Z.to_int g')) by apply N.
    now rewrite E. }
  injection I as I.
  rewrite <- (DecimalZ.of_to g), <- (DecimalZ.of_to g'). now rewrite I.
Qed.

Lemma alloc_key_inj (a a' j j' : string) :
  Spec.bar_free a = true -> Spec.bar_free a' = true ->
  Controller.alloc_key a j = Controller.alloc_key a' j' ->
  a = a' /\ j = j'.
Proof.
  unfold Controller.alloc_key. revert a'.
  induction a as [| c r IH]; intros [| c' r']; cbn; intros B B' E.
  - split; [reflexivity | congruence].
  - injection E as E _. subst c'. discriminate B'.
  - injection E as E _. subst c. discriminate B.
  - injection E as -> E.
    apply andb_true_iff in B, B'.
    destruct (IH r' (proj2 B) (proj2 B') E) as [-> ->]. now split.
Qed.

Lemma string_append_assoc (a b c : string) :
  ((a ++ b) ++ c)%string = (a ++ b ++ c)%string.
Proof. induction a as [| x a IH]; cbn; [reflexivity | now rewrite IH]. Qed.

Section SummaryFacts.
Import Controller.
Variable World : Type.
Variable http_status : World -> string -> World * option (list JobRow).

Lemma summary_allocations (s : State) (w : World) :
  sum_allocations (fst (summary http_status (s, w)))
  = py_dict_comprehension (fun k _ => alloc_key (fst k) (snd k))
                          (fun _ v => v) (ALLOCATIONS s).
Proof.
  unfold summary. now destruct (live_jobs_of _ _ _ _ _).
Qed.

Lemma summary_core_map (s : State) (w : World) :
  sum_core_map (fst (summary http_status (s, w)))
  = py_dict_comprehension (fun k _ => py_str k) (fun _ v => v) (CORE_MAP s).
Proof.
  unfold summary. now destruct (live_jobs_of _ _ _ _ _).
Qed.

(** X16.  The worker's check against the controller's summary.  A key
    that is in the allocation table is always seen as allocated.  When
    neither the asked agent name nor any agent name of the table contains
    ['|'], the check answers exactly whether (agent, job) is in the table.
    Without that, it can answer yes for a pair that is not there: an
    allocation of job [j2] on an agent named [a|j1] is taken for job
    [j1|j2] on agent [a]. *)
Theorem worker_sees_allocations :
  forall (s : State) (w : World) (agent job : string),
    let sm := Some (fst (summary http_status (s, w))) in
    (PyDict.mem (ALLOCATIONS s) (agent, job) = true ->
     Worker.is_job_allocated_in_summary sm agent job = true)
    /\ (Spec.bar_free agent = true ->
        (forall k, In k (PyDict.keys (ALLOCATIONS s)) ->
                   Spec.bar_free (fst k) = true) ->
        Worker.is_job_allocated_in_summary sm agent job
        = PyDict.mem (ALLOCATIONS s) (agent, job))
    /\ (forall j1 j2,
           PyDict.mem (ALLOCATIONS s) ((agent ++ "|" ++ j1)%string, j2) = true ->
           Worker.is_job_allocated_in_summary sm agent
             (j1 ++ "|" ++ j2)%string = true).
Proof.
  intros s w agent job sm. subst sm.
  unfold Worker.is_job_allocated_in_summary. rewrite summary_allocations.
  assert (Fwd : forall a j,
             PyDict.mem (ALLOCATIONS s) (a, j) = true ->
             PyDict.mem
               (py_dict_comprehension (fun k _ => alloc_key (fst k) (snd k))
                                      (fun _ v => v) (ALLOCATIONS s))
               (alloc_key a j) = true).
  { intros a j M. apply mem_comprehension.
    unfold PyDict.mem in M.
    destruct (PyDict.get (ALLOCATIONS s) (a, j)) as [v |] eqn:G;
      [| discriminate M].
    exists ((a, j), v). split; [now apply get_Some_In | reflexivity]. }
  split; [| split].
  - intros M. now apply Fwd.
  - intros B Bs. apply eq_true_iff_eq. split; [| apply Fwd].
    intros M. apply mem_comprehension in M.
    destruct M as ([[a j] v] & I & E). cbn [fst snd] in E.
    assert (Ik : In (a, j) (PyDict.keys (ALLOCATIONS s))).
    { change (a, j) with (fst ((a, j), v)). now apply in_map. }
    apply alloc_key_inj in E; [| exact (Bs _ Ik) | exact B].
    destruct E as [<- <-]. now apply mem_In_keys.
  - intros j1 j2 M. apply Fwd in M. unfold alloc_key in *.
    now rewrite !string_append_assoc in M.
Qed.

(** X17.  The summary's core map can be read back: when the core map has
    unique keys, looking up [str(g)] in the summary gives the state of
    slot [g], for every [g]; and the summary carries at most 200 activity
    entries. *)
Theorem summary_core_map_lookup :
  forall (s : State) (w : World),
    PyDict.wf (CORE_MAP s) ->
    (forall g,
        PyDict.get (sum_core_map (fst (summary http_status (s, w)))) (py_str g)
        = PyDict.get (CORE_MAP s) g)
    /\ (List.length (sum_activity (fst (summary http_status (s, w))))
        <= 200)%nat.
Proof.
  intros s w W. split.
  - intros g. rewrite summary_core_map.
    apply get_comprehension_renamed; [exact W |].
    intros g0 _ E. now apply py_str_inj.
  - unfold summary. destruct (live_jobs_of _ _ _ _ _).
    cbn [fst sum_activity]. rewrite length_firstn. lia.
Qed.
End SummaryFacts.

Lemma worker_sees_allocations_witness :
  PyDict.mem (Controller.ALLOCATIONS (fst Cluster.infer_admitted))
             ("vm1"%string, "infer"%string) = true
  /\ Worker.is_job_allocated_in_summary
       (Some (fst (Controller.summary Cluster.http_status
                     (fst Cluster.infer_admitted,
                      snd Cluster.infer_admitted))))
       "vm1" "infer" = true.
Proof.
  split; [vm_compute; reflexivity |].
  refine (proj1 (@worker_sees_allocations Cluster.World Cluster.http_status
                   (fst Cluster.infer_admitted) (snd Cluster.infer_admitted)
                   "vm1"%string "infer"%string) _).
  vm_compute. reflexivity.
Defined.

Lemma infer_admitted_wf :
  PyDict.wf (Controller.CORE_MAP (fst Cluster.infer_admitted)).
Proof.
  unfold PyDict.wf. change (NoDup [0; 1; 2; 3]).
  repeat (constructor; [cbn; intuition discriminate |]). constructor.
Defined.

Lemma summary_core_map_lookup_witness :
  PyDict.wf (Controller.CORE_MAP (fst Cluster.infer_admitted))
  /\ PyDict.get
       (Controller.sum_core_map
          (fst (Controller.summary Cluster.http_status
                  (fst Cluster.infer_admitted, snd Cluster.infer_admitted))))
       (py_str 3)
     = PyDict.get (Controller.CORE_MAP (fst Cluster.infer_admitted)) 3.
Proof.
  split; [exact infer_admitted_wf |].
  exact (proj1 (@summary_core_map_lookup Cluster.World Cluster.http_status
                  (fst Cluster.infer_admitted) (snd Cluster.infer_admitted)
                  infer_admitted_wf) 3).
Defined.

(** ** The core-level controller ([dynamic_cpu_controller.py]) *)

Section PyListFacts.
Context {A : Type} `{PyEqLaws A}.

Lemma py_in_In (x : A) (l : list A) : py_in x l = true <-> In x l.
Proof.
  unfold py_in. rewrite existsb_exists. split.
  - intros (y & I & E). apply py_eqb_eq in E. now subst.
  - intros I. exists x. split; [exact I | apply py_eqb_refl].
Qed.

Lemma In_py_remove (x y : A) (l : list A) :
  In y (py_remove x l) -> In y l.
Proof.
  intros I. eapply subsequence_In; [apply py_remove_subsequence | exact I].
Qed.

Lemma In_py_remove_other (x y : A) (l : list A) :
  y <> x -> In y l -> In y (py_remove x l).
Proof.
  intros N. induction l as [| z r IH]; cbn; [easy |].
  destruct (py_eqb_spec z x) as [-> | Ne].
  - intros [E | I]; [congruence | exact I].
  - intros [E | I]; [now left | right; now apply IH].
Qed.

Lemma NoDup_py_remove (x : A) (l : list A) :
  NoDup l -> NoDup (py_remove x l) /\ ~ In x (py_remove x l).
Proof.
  induction 1 as [| z r N D IH]; cbn; [split; [constructor | easy] |].
  destruct (py_eqb_spec z x) as [-> | Ne].
  - now split.
  - destruct IH as [D' N']. split.
    + constructor; [| exact D']. intros I. apply N. now apply In_py_remove in I.
    + intros [E | I]; [congruence | now apply N'].
Qed.
End PyListFacts.

Section DynamicFacts.
Import Dynamic.

(** [process_cores] after the first block of [reallocate_core], in which
    the core leaves the list of its previous owner. *)
Lemma reallocate_core_detaches (c : Z) (st : State) :
  Spec.members_owned st ->
  forall pc1,
    pc1 = match match PyDict.get (core_allocation st) c with
                | Some o => o | None => None end with
          | Some p =>
              if negb (String.eqb p "") then
                match PyDict.get (process_cores st) p with
                | Some l =>
                    if py_in c l
                    then PyDict.set (process_cores st) p (py_remove c l)
                    else process_cores st
                | None => process_cores st
                end
              else process_cores st
          | None => process_cores st
          end ->
    PyDict.get pc1 ""%string = None
    /\ (forall p l, PyDict.get pc1 p = Some l ->
                    NoDup l /\ ~ In c l
                    /\ forall c', In c' l ->
                         PyDict.get (core_allocation st) c' = Some (Some p))
    /\ (forall p l, PyDict.get (process_cores st) p = Some l ->
                    exists l', PyDict.get pc1 p = Some l'
                               /\ forall y, y <> c -> In y l -> In y l').
Proof.
  intros [E0 M] pc1 Epc.
  (* a list that holds [c] is the list of its owner, who is not [""] *)
  assert (Own : forall q l, PyDict.get (process_cores st) q = Some l ->
                            In c l ->
                            PyDict.get (core_allocation st) c = Some (Some q)
                            /\ q <> ""%string).
  { intros q l G I. split; [now apply (M q l G) |].
    intros ->. congruence. }
  destruct (PyDict.get (core_allocation st) c) as [[p |] |] eqn:Gc.
  2, 3: subst pc1; split; [exact E0 |]; split;
    [ intros q l G; destruct (M q l G) as [D O]; split; [exact D |];
      split; [| exact O]; intros I; destruct (Own q l G I) as [C _];
      discriminate C
    | intros q l G; exists l; now split ].
  destruct (String.eqb_spec p "") as [-> | Np]; cbn [negb] in Epc.
  { subst pc1. split; [exact E0 |]. split.
    - intros q l G. destruct (M q l G) as [D O]. split; [exact D |].
      split; [| exact O]. intros I. destruct (Own q l G I) as [C Nq].
      congruence.
    - intros q l G. exists l. now split. }
  destruct (PyDict.get (process_cores st) p) as [l0 |] eqn:Gp.
  2: { subst pc1. split; [exact E0 |]. split.
       - intros q l G. destruct (M q l G) as [D O]. split; [exact D |].
         split; [| exact O]. intros I. destruct (Own q l G I) as [C _].
         congruence.
       - intros q l G. exists l. now split. }
  destruct (py_in c l0) eqn:Pin.
  2: { subst pc1. split; [exact E0 |]. split.
       - intros q l G. destruct (M q l G) as [D O]. split; [exact D |].
         split; [| exact O]. intros I. destruct (Own q l G I) as [C _].
         assert (q = p) by congruence. subst q.
         rewrite Gp in G. injection G as <-.
         apply py_in_In in I. congruence.
       - intros q l G. exists l. now split. }
  subst pc1. destruct (M p l0 Gp) as [D0 O0].
  destruct (NoDup_py_remove c D0) as [D1 N1].
  split; [| split].
  - rewrite get_set_other by exact Np. exact E0.
  - intros q l G. rewrite get_set in G.
    destruct (py_eqb_spec p q) as [<- | Nq].
    + injection G as <-. split; [exact D1 |]. split; [exact N1 |].
      intros c' I. apply O0. now apply In_py_remove in I.
    + destruct (M q l G) as [D O]. split; [exact D |]. split; [| exact O].
      intros I. destruct (Own q l G I) as [C _]. congruence.
  - intros q l G. rewrite get_set.
    destruct (py_eqb_spec p q) as [<- | Nq].
    + rewrite Gp in G. injection G as <-. eexists. split; [reflexivity |].
      intros y Ny I. now apply In_py_remove_other.
    + exists l. now split.
Qed.

(** The owner table after [reallocate_core]. *)
Lemma reallocate_core_allocation (c : Z) (new_owner : option string)
      (st : State) :
  core_allocation (reallocate_core c new_owner st)
  = match new_owner with
    | None => PyDict.set (core_allocation st) c None
    | Some p =>
        if py_eqb (match PyDict.get (core_allocation st) c with
                   | Some o => o | None => None end) (Some p)
        then core_allocation st
        else PyDict.set (core_allocation st) c (Some p)
    end.
Proof.
  unfold reallocate_core. destruct new_owner as [p |]; [| reflexivity].
  now destruct (py_eqb _ (Some p)).
Qed.

Lemma prev_owner_eqb (ca : PyDict.dict Z (option string)) (c : Z) (p : string) :
  py_eqb (match PyDict.get ca c with Some o => o | None => None end) (Some p)
  = true
  <-> PyDict.get ca c = Some (Some p).
Proof.
  destruct (py_eqb_spec (match PyDict.get ca c with
                         | Some o => o | None => None end) (Some p)) as [E | N].
  - split; [intros _ | reflexivity].
    destruct (PyDict.get ca c) as [o |]; [now subst | discriminate E].
  - split; [discriminate |]. intros G. rewrite G in N. now elim N.
Qed.

(** Listed cores stay owned by the process that lists them, whatever
    [reallocate_core] is asked, as long as the new owner is not [""]. *)
Lemma reallocate_core_members (c : Z) (new_owner : option string)
      (st : State) :
  Spec.members_owned st -> new_owner <> Some ""%string ->
  Spec.members_owned (reallocate_core c new_owner st)
  /\ (forall p, PyDict.get (core_allocation st) c = Some (Some p) ->
                new_owner = Some p ->
                forall q l,
                  PyDict.get (process_cores (reallocate_core c new_owner st)) q
                  = Some l -> ~ In c l).
Proof.
  intros MO Nn. unfold reallocate_core.
  set (prev := match PyDict.get (core_allocation st) c with
               | Some o => o | None => None end).
  set (pc1 := match prev with Some p => _ | None => _ end).
  destruct (@reallocate_core_detaches c st MO pc1 eq_refl) as (E1 & M1 & K1).
  destruct new_owner as [p |].
  - destruct (py_eqb prev (Some p)) eqn:Same.
    + split.
      * split; [exact E1 |]. intros q l G. destruct (M1 q l G) as (D & _ & O).
        now split.
      * intros p' _ _ q l G. now destruct (M1 q l G) as (_ & N & _).
    + assert (Np : p <> ""%string) by congruence.
      set (pc2 := if PyDict.mem pc1 p then pc1 else PyDict.set pc1 p []).
      assert (M2 : forall q l, PyDict.get pc2 q = Some l ->
                     NoDup l /\ ~ In c l
                     /\ forall c', In c' l ->
                          PyDict.get (core_allocation st) c' = Some (Some q)).
      { intros q l G. subst pc2. destruct (PyDict.mem pc1 p); [now apply M1 |].
        rewrite get_set in G. destruct (py_eqb_spec p q) as [<- | Nq].
        - injection G as <-. split; [constructor |]. split; [easy |].
          intros c' [].
        - now apply M1. }
      assert (E2 : PyDict.get pc2 ""%string = None).
      { subst pc2. destruct (PyDict.mem pc1 p); [exact E1 |].
        now rewrite get_set_other. }
      set (l := match PyDict.get pc2 p with Some l => l | None => [] end).
      assert (Ml : NoDup l /\ ~ In c l
                   /\ forall c', In c' l ->
                        PyDict.get (core_allocation st) c' = Some (Some p)).
      { subst l. destruct (PyDict.get pc2 p) as [l |] eqn:G; [now apply M2 |].
        split; [constructor |]. split; [easy |]. intros c' []. }
      destruct Ml as (Dl & Nl & Ol).
      replace (py_in c l) with false
        by (symmetry; destruct (py_in c l) eqn:I; [| reflexivity];
            apply py_in_In in I; contradiction).
      split.
      * split; cbn [process_cores core_allocation].
        -- now rewrite get_set_other.
        -- intros q l' G. rewrite get_set in G.
           destruct (py_eqb_spec p q) as [<- | Nq].
           ++ injection G as <-. split.
              ** apply NoDup_app; [exact Dl | constructor; [easy | constructor] |].
                 intros x I [<- | []]. contradiction.
              ** intros c' I. apply in_app_or in I. rewrite get_set.
                 destruct I as [I | [<- | []]].
                 --- destruct (py_eqb_spec c c') as [<- | _];
                       [contradiction | now apply Ol].
                 --- now rewrite py_eqb_refl.
           ++ destruct (M2 q l' G) as (D & N & O). split; [exact D |].
              intros c' I. rewrite get_set_other; [now apply O |].
              intros <-. contradiction.
      * intros p' G E. injection E as <-. exfalso.
        apply prev_owner_eqb in G. subst prev. congruence.
  - split.
    + split; cbn [process_cores core_allocation]; [exact E1 |].
      intros q l G. destruct (M1 q l G) as (D & N & O). split; [exact D |].
      intros c' I. rewrite get_set_other; [now apply O |].
      intros <-. contradiction.
    + intros p' _ E. discriminate E.
Qed.

(** Owned cores stay listed when the core goes to a different owner or
    is released. *)
Lemma reallocate_core_owners (c : Z) (new_owner : option string)
      (st : State) :
  Spec.members_owned st -> Spec.owners_listed st ->
  (forall p, new_owner = Some p ->
             PyDict.get (core_allocation st) c <> Some (Some p)) ->
  Spec.owners_listed (reallocate_core c new_owner st).
Proof.
  intros MO OL Nn. unfold reallocate_core.
  set (prev := match PyDict.get (core_allocation st) c with
               | Some o => o | None => None end).
  set (pc1 := match prev with Some p => _ | None => _ end).
  destruct (@reallocate_core_detaches c st MO pc1 eq_refl) as (E1 & M1 & K1).
  assert (Keep : forall c' q,
             c' <> c ->
             PyDict.get (core_allocation st) c' = Some (Some q) ->
             exists l', PyDict.get pc1 q = Some l' /\ In c' l').
  { intros c' q Nc G. destruct (OL c' q G) as (l & Gl & I).
    destruct (K1 q l Gl) as (l' & Gl' & K). exists l'. split; [exact Gl' |].
    now apply K. }
  destruct new_owner as [p |].
  - replace (py_eqb prev (Some p)) with false
      by (symmetry; destruct (py_eqb prev (Some p)) eqn:Same; [| reflexivity];
          apply prev_owner_eqb in Same; now elim (Nn p eq_refl)).
    set (pc2 := if PyDict.mem pc1 p then pc1 else PyDict.set pc1 p []).
    assert (K2 : forall q l', PyDict.get pc1 q = Some l' ->
                              PyDict.get pc2 q = Some l').
    { intros q l' G. subst pc2. unfold PyDict.mem.
      destruct (PyDict.get pc1 p) eqn:Gp; [exact G |].
      rewrite get_set_other; [exact G | congruence]. }
    set (l := match PyDict.get pc2 p with Some l => l | None => [] end).
    intros c' q G. cbn [process_cores core_allocation] in *.
    rewrite get_set in G.
    assert (P3 : forall pc3,
               pc3 = (if py_in c l then pc2 else PyDict.set pc2 p (l ++ [c])) ->
               (exists l3, PyDict.get pc3 p = Some l3 /\ In c l3
                           /\ forall y, In y l -> In y l3)
               /\ forall q0 l0, q0 <> p -> PyDict.get pc2 q0 = Some l0 ->
                                PyDict.get pc3 q0 = Some l0).
    { intros pc3 ->. destruct (py_in c l) eqn:I.
      - apply py_in_In in I. split; [| easy]. subst l.
        destruct (PyDict.get pc2 p) as [l |] eqn:Gp; [| destruct I].
        exists l. now split.
      - split.
        + exists (l ++ [c]). split; [apply get_set_same |].
          split; [apply in_or_app; right; now left |].
          intros y J. apply in_or_app. now left.
        + intros q0 l0 Nq G0. rewrite get_set_other; [exact G0 | congruence]. }
    destruct (P3 _ eq_refl) as ((l3 & G3 & I3 & Sub3) & Oth3).
    destruct (py_eqb_spec c c') as [<- | Nc].
    + injection G as <-. now exists l3.
    + destruct (Keep c' q ltac:(congruence) G) as (l' & Gl' & I').
      apply K2 in Gl'.
      destruct (String.eqb_spec q p) as [-> | Nq].
      * exists l3. split; [exact G3 |]. apply Sub3. subst l. now rewrite Gl'.
      * exists l'. split; [now apply Oth3 | exact I'].
  - intros c' q G. cbn [process_cores core_allocation] in *.
    rewrite get_set in G.
    destruct (py_eqb_spec c c') as [<- | Nc]; [discriminate G |].
    apply Keep; [congruence | exact G].
Qed.

Lemma get_allocation_after (c : Z) (new_owner : option string) (st : State) :
  (forall p, new_owner = Some p ->
             PyDict.get (core_allocation st) c <> Some (Some p)) ->
  core_allocation (reallocate_core c new_owner st)
  = PyDict.set (core_allocation st) c new_owner.
Proof.
  intros Nn. rewrite reallocate_core_allocation.
  destruct new_owner as [p |]; [| reflexivity].
  destruct (py_eqb _ (Some p)) eqn:Same; [| reflexivity].
  apply prev_owner_eqb in Same. now elim (Nn p eq_refl).
Qed.

(** X18.  [reallocate_core] to a different owner, or to nobody: if the
    two tables agree before (listed cores are owned by their lister, lists
    have no repeats, owned cores are listed by their owner), they agree
    after; the core is then owned by the new owner, or free, and no other
    core changes owner. *)
Theorem reallocate_core_keeps_tables_consistent :
  forall (c : Z) (new_owner : option string) (st : State),
    Spec.members_owned st -> Spec.owners_listed st ->
    (forall p, new_owner = Some p ->
               p <> ""%string
               /\ PyDict.get (core_allocation st) c <> Some (Some p)) ->
    let st' := reallocate_core c new_owner st in
    Spec.members_owned st' /\ Spec.owners_listed st'
    /\ PyDict.get (core_allocation st') c = Some new_owner
    /\ forall c', c' <> c ->
                  PyDict.get (core_allocation st') c'
                  = PyDict.get (core_allocation st) c'.
Proof.
  intros c new_owner st MO OL Nn st'. subst st'.
  assert (N1 : new_owner <> Some ""%string).
  { intros E. destruct (Nn _ E) as [N _]. now apply N. }
  assert (N2 : forall p, new_owner = Some p ->
                 PyDict.get (core_allocation st) c <> Some (Some p)).
  { intros p E. now destruct (Nn p E). }
  split; [now apply reallocate_core_members |].
  split; [now apply reallocate_core_owners |].
  rewrite get_allocation_after by exact N2.
  split; [apply get_set_same |].
  intros c' Nc. apply get_set_other. congruence.
Qed.

(** X19.  [reallocate_core] to the current owner: the core stays owned by
    that process in [core_allocation] but is taken out of its list in
    [process_cores] and not put back, so afterwards no list holds the core
    and the two tables disagree. *)
Theorem reallocate_core_to_same_owner :
  forall (c : Z) (p : string) (st : State),
    Spec.members_owned st -> p <> ""%string ->
    PyDict.get (core_allocation st) c = Some (Some p) ->
    let st' := reallocate_core c (Some p) st in
    core_allocation st' = core_allocation st
    /\ (forall q l, PyDict.get (process_cores st') q = Some l -> ~ In c l)
    /\ ~ Spec.owners_listed st'.
Proof.
  intros c p st MO Np G st'. subst st'.
  assert (Ca : core_allocation (reallocate_core c (Some p) st)
               = core_allocation st).
  { rewrite reallocate_core_allocation.
    now rewrite (proj2 (prev_owner_eqb (core_allocation st) c p) G). }
  destruct (@reallocate_core_members c (Some p) st MO) as [_ Out];
    [congruence |].
  split; [exact Ca |]. split; [now apply (Out p) |].
  intros OL. destruct (OL c p) as (l & Gl & I); [now rewrite Ca |].
  now apply (Out p G eq_refl _ _ Gl).
Qed.

(** Unique keys, and the two tables in agreement. *)
Lemma reallocate_core_inv (c : Z) (new_owner : option string) (st : State) :
  PyDict.wf (core_allocation st) ->
  Spec.members_owned st -> Spec.owners_listed st ->
  new_owner <> Some ""%string ->
  (forall p, new_owner = Some p ->
             PyDict.get (core_allocation st) c <> Some (Some p)) ->
  let st' := reallocate_core c new_owner st in
  PyDict.wf (core_allocation st')
  /\ Spec.members_owned st' /\ Spec.owners_listed st'
  /\ core_allocation st' = PyDict.set (core_allocation st) c new_owner.
Proof.
  intros W MO OL N1 N2. cbv zeta.
  rewrite get_allocation_after by exact N2.
  split; [now apply wf_set |].
  split; [now apply reallocate_core_members |].
  split; [now apply reallocate_core_owners | reflexivity].
Qed.

Lemma processes_named (p : string) : In p PROCESSES -> p <> ""%string.
Proof. intros [<- | [<- | [<- | []]]]; discriminate. Qed.

Lemma release_some_inv items coin n st :
  (forall co, In co items -> PyDict.mem (core_allocation st) (fst co) = true) ->
  PyDict.wf (core_allocation st) ->
  Spec.members_owned st -> Spec.owners_listed st ->
  let st' := release_some items coin n st in
  PyDict.wf (core_allocation st')
  /\ Spec.members_owned st' /\ Spec.owners_listed st'
  /\ PyDict.keys (core_allocation st') = PyDict.keys (core_allocation st).
Proof.
  revert n st. induction items as [| [cid owner] rest IH]; intros n st K W MO OL;
    cbn [release_some]; cbv zeta.
  - split; [exact W |]. split; [exact MO |]. split; [exact OL | reflexivity].
  - assert (Kr : forall co, In co rest ->
                   PyDict.mem (core_allocation st) (fst co) = true)
      by (intros co I; apply K; now right).
    destruct owner as [o |]; [| now apply IH].
    destruct (coin n); [| now apply IH].
    destruct (@reallocate_core_inv cid None st W MO OL) as (W1 & M1 & O1 & C1);
      [discriminate | discriminate |].
    assert (Keys : PyDict.keys (core_allocation (reallocate_core cid None st))
                   = PyDict.keys (core_allocation st)).
    { rewrite C1. apply keys_set_mem. apply (K (cid, Some o)). now left. }
    destruct (IH (S n) (reallocate_core cid None st)) as (W2 & M2 & O2 & K2);
      try assumption.
    + intros co I. apply mem_In_keys. rewrite Keys. apply mem_In_keys.
      now apply Kr.
    + split; [exact W2 |]. split; [exact M2 |]. split; [exact O2 |].
      congruence.
Qed.

Lemma free_core_is_free (st : State) (c : Z) :
  PyDict.wf (core_allocation st) -> In c (free_cores st) ->
  PyDict.get (core_allocation st) c = Some None.
Proof.
  intros W I. unfold free_cores in I. apply in_map_iff in I.
  destruct I as ([c' o] & E & I). cbn in E. subst c'.
  apply filter_In in I. destruct I as [I F]. cbn in F.
  destruct o; [discriminate F |]. now apply wf_In_get.
Qed.

Lemma nonempty_length {B} (l : list B) :
  Nat.eqb (List.length l) 0 = false -> l <> [].
Proof. destruct l; [discriminate | discriminate]. Qed.

Lemma init_fold (choose : Z -> string) (l : list Z) (st : State) :
  NoDup l ->
  (forall i, In i l -> PyDict.get (core_allocation st) i = None) ->
  (forall i, choose i <> ""%string) ->
  PyDict.wf (core_allocation st) ->
  Spec.members_owned st -> Spec.owners_listed st ->
  let st' := fold_left (fun s i => reallocate_core i (Some (choose i)) s) l st in
  PyDict.wf (core_allocation st')
  /\ Spec.members_owned st' /\ Spec.owners_listed st'
  /\ forall i, In i l ->
               PyDict.get (core_allocation st') i = Some (Some (choose i)).
Proof.
  intros D. revert st. induction D as [| i r N D IH]; intros st F C W MO OL;
    cbn [fold_left]; cbv zeta.
  - split; [exact W |]. split; [exact MO |]. split; [exact OL |].
    intros i [].
  - destruct (@reallocate_core_inv i (Some (choose i)) st W MO OL)
      as (W1 & M1 & O1 & C1).
    { intros [= E]. now apply (C i). }
    { intros p _. rewrite (F i) by now left. discriminate. }
    destruct (IH (reallocate_core i (Some (choose i)) st))
      as (W2 & M2 & O2 & G2); try assumption.
    { intros j I. rewrite C1, get_set_other by (intros <-; contradiction).
      apply F. now right. }
    split; [exact W2 |]. split; [exact M2 |]. split; [exact O2 |].
    intros j [<- | I]; [| now apply G2].
    (* the later steps do not touch core [i] *)
    clear - N C1.
    assert (Stay : forall (r0 : list Z) (s : State),
               ~ In i r0 ->
               PyDict.get
                 (core_allocation
                    (fold_left (fun s0 j => reallocate_core j (Some (choose j)) s0)
                               r0 s)) i
               = PyDict.get (core_allocation s) i).
    { intros r0. induction r0 as [| j r0 IHr]; intros s Ni; cbn [fold_left];
        [reflexivity |].
      rewrite IHr by (intros I; apply Ni; now right).
      rewrite reallocate_core_allocation.
      destruct (py_eqb _ (Some (choose j))); [reflexivity |].
      apply get_set_other. intros <-. apply Ni. now left. }
    rewrite Stay by exact N. rewrite C1. apply get_set_same.
Qed.

Lemma init_fold_others (choose : Z -> string) (c : Z) (l : list Z) (st : State) :
  ~ In c l ->
  PyDict.get
    (core_allocation
       (fold_left (fun s i => reallocate_core i (Some (choose i)) s) l st)) c
  = PyDict.get (core_allocation st) c.
Proof.
  revert st. induction l as [| j r IH]; intros st Ni; cbn [fold_left];
    [reflexivity |].
  rewrite IH by (intros I; apply Ni; now right).
  rewrite reallocate_core_allocation.
  destruct (py_eqb _ (Some (choose j))); [reflexivity |].
  apply get_set_other. intros <-. apply Ni. now left.
Qed.

Lemma sorted_NoDup (l : list Z) : StronglySorted Z.lt l -> NoDup l.
Proof.
  induction 1 as [| x r S IH F]; constructor; [| exact IH].
  intros I. rewrite Forall_forall in F. specialize (F x I). lia.
Qed.

Lemma empty_consistent : Spec.tables_consistent empty.
Proof.
  split; [constructor |]. split.
  - split; [reflexivity |]. intros p l G. discriminate G.
  - intros c p G. discriminate G.
Qed.

Lemma init_cores_inv (choose : Z -> string) :
  (forall i, choose i <> ""%string) ->
  Spec.tables_consistent (init_cores choose)
  /\ forall i, In i (py_range 0 cpu_count) ->
               PyDict.get (core_allocation (init_cores choose)) i
               = Some (Some (choose i)).
Proof.
  intros C. destruct empty_consistent as (W & MO & OL).
  destruct (@init_fold choose (py_range 0 cpu_count) empty) as (W' & M' & O' & G');
    try assumption.
  - apply sorted_NoDup, py_range_sorted.
  - reflexivity.
  - split; [| exact G']. split; [exact W' |]. split; [exact M' | exact O'].
Qed.

(** X20.  The start of [main]: whatever [random.choice(PROCESSES)]
    returns for each core, after the loop over [range(cpu_count)] the two
    tables agree, core [i] of [0..3] is owned by the process chosen for
    it, and no other core is known. *)
Theorem main_start_consistent :
  forall (choose : Z -> string),
    (forall i, In (choose i) PROCESSES) ->
    Spec.tables_consistent (init_cores choose)
    /\ (forall i, 0 <= i < cpu_count ->
                  PyDict.get (core_allocation (init_cores choose)) i
                  = Some (Some (choose i)))
    /\ (forall i, ~ 0 <= i < cpu_count ->
                  PyDict.get (core_allocation (init_cores choose)) i = None).
Proof.
  intros choose C.
  destruct (@init_cores_inv choose) as [TC G].
  { intros i. apply processes_named, C. }
  split; [exact TC |]. split.
  - intros i R. apply G. now apply In_py_range.
  - intros i R. unfold init_cores. rewrite init_fold_others; [reflexivity |].
    intros I. apply R. now apply In_py_range in I.
Qed.

Lemma release_some_only_frees items coin n st :
  Spec.cores_only_freed st (release_some items coin n st).
Proof.
  revert n st. induction items as [| [cid owner] rest IH]; intros n st;
    cbn [release_some].
  - intros c. now left.
  - destruct owner as [o |]; [| apply IH].
    destruct (coin n); [| apply IH].
    intros c. destruct (IH (S n) (reallocate_core cid None st) c) as [E | E];
      [| now right].
    rewrite E, reallocate_core_allocation.
    destruct (Z.eq_dec c cid) as [-> | Ne].
    + right. apply get_set_same.
    + left. apply get_set_other. congruence.
Qed.

Lemma high_usage (u : Q) :
  negb (Qle_bool u CPU_THRESHOLD_HIGH) = true <-> (CPU_THRESHOLD_HIGH < u)%Q.
Proof.
  rewrite negb_true_iff. split.
  - intros E. apply Qnot_le_lt. intros L. apply Qle_bool_iff in L. congruence.
  - intros L. destruct (Qle_bool u CPU_THRESHOLD_HIGH) eqn:E; [| reflexivity].
    apply Qle_bool_iff in E. now apply Qlt_not_le in L.
Qed.

Lemma low_usage (u : Q) :
  negb (Qle_bool CPU_THRESHOLD_LOW u) = true <-> (u < CPU_THRESHOLD_LOW)%Q.
Proof.
  rewrite negb_true_iff. split.
  - intros E. apply Qnot_le_lt. intros L. apply Qle_bool_iff in L. congruence.
  - intros L. destruct (Qle_bool CPU_THRESHOLD_LOW u) eqn:E; [| reflexivity].
    apply Qle_bool_iff in E. now apply Qlt_not_le in L.
Qed.

Lemma get_mem {K V} `{PyEqLaws K} (d : PyDict.dict K V) k v :
  PyDict.get d k = Some v -> PyDict.mem d k = true.
Proof.
  intros G. unfold PyDict.mem. now rewrite G.
Qed.

(** X21.  [hotplug_logic] on tables that agree, with a target among
    [PROCESSES]: whatever the usage and the random draws, the tables agree
    afterwards and [core_allocation] has the same cores in the same
    order. *)
Theorem hotplug_logic_keeps_consistency :
  forall (cpu_usage : Q) (target_proc : string) (coin : nat -> bool)
         (st : State),
    Spec.tables_consistent st -> In target_proc PROCESSES ->
    let st' := hotplug_logic cpu_usage target_proc coin st in
    Spec.tables_consistent st'
    /\ PyDict.keys (core_allocation st') = PyDict.keys (core_allocation st).
Proof.
  intros u target coin st (W & MO & OL) T. cbv zeta. unfold hotplug_logic.
  destruct (negb (Qle_bool u CPU_THRESHOLD_HIGH)
            && negb (Nat.eqb (List.length (free_cores st)) 0)) eqn:High.
  - apply andb_true_iff in High. destruct High as [_ NE].
    apply negb_true_iff, nonempty_length in NE.
    pose proof (@free_core_is_free st _ W (last_In 0 NE)) as G.
    destruct (@reallocate_core_inv (List.last (free_cores st) 0)
                (Some target) st W MO OL) as (W1 & M1 & O1 & C1).
    { intros [= E]. now apply (processes_named T). }
    { intros p _. rewrite G. discriminate. }
    split; [split; [exact W1 |]; split; [exact M1 | exact O1] |].
    rewrite C1. apply keys_set_mem. eapply get_mem, G.
  - destruct (negb (Qle_bool CPU_THRESHOLD_LOW u)).
    + destruct (@release_some_inv (core_allocation st) coin 0%nat st)
        as (W1 & M1 & O1 & K1); try assumption.
      * intros co I. apply mem_In_keys. unfold PyDict.keys.
        now apply in_map.
      * split; [| exact K1]. split; [exact W1 |]. split; [exact M1 | exact O1].
    + split; [| reflexivity]. split; [exact W |]. split; [exact MO | exact OL].
Qed.

(** X22.  The thresholds of [hotplug_logic]: between 25 and 75 percent
    nothing changes; above 75 with no free core nothing changes; above 75
    with a free core, the last free core in the order of [core_allocation]
    goes to the target process, which lists it afterwards, and no other
    core changes owner; below 25 every core keeps its owner or becomes
    free, so no core gets a new owner. *)
Theorem hotplug_logic_thresholds :
  forall (cpu_usage : Q) (target_proc : string) (coin : nat -> bool)
         (st : State),
    PyDict.wf (core_allocation st) ->
    let st' := hotplug_logic cpu_usage target_proc coin st in
    ((CPU_THRESHOLD_LOW <= cpu_usage)%Q ->
     (cpu_usage <= CPU_THRESHOLD_HIGH)%Q -> st' = st)
    /\ ((CPU_THRESHOLD_HIGH < cpu_usage)%Q -> free_cores st = [] -> st' = st)
    /\ ((CPU_THRESHOLD_HIGH < cpu_usage)%Q -> free_cores st <> [] ->
        let c := List.last (free_cores st) 0 in
        PyDict.get (core_allocation st) c = Some None
        /\ core_allocation st'
           = PyDict.set (core_allocation st) c (Some target_proc)
        /\ exists l, PyDict.get (process_cores st') target_proc = Some l
                     /\ In c l)
    /\ ((cpu_usage < CPU_THRESHOLD_LOW)%Q -> Spec.cores_only_freed st st').
Proof.
  intros u target coin st W. cbv zeta. unfold hotplug_logic.
  split; [| split; [| split]].
  - intros Lo Hi. apply Qle_bool_iff in Lo, Hi. now rewrite Lo, Hi.
  - intros Hi E. rewrite E. apply high_usage in Hi. rewrite Hi.
    cbn [List.length Nat.eqb negb andb].
    destruct (negb (Qle_bool CPU_THRESHOLD_LOW u)) eqn:Lo; [| reflexivity].
    apply low_usage in Lo. apply high_usage in Hi.
    exfalso. apply (Qlt_irrefl u).
    eapply Qlt_trans; [exact Lo |]. eapply Qlt_trans; [| exact Hi]. reflexivity.
  - intros Hi NE. pose proof (@free_core_is_free st _ W (last_In 0 NE)) as G.
    apply high_usage in Hi. rewrite Hi.
    destruct (free_cores st) as [| f fr] eqn:F; [now elim NE |].
    cbn [List.length Nat.eqb negb andb].
    split; [exact G |]. split.
    + apply get_allocation_after. intros p _. rewrite G. discriminate.
    + unfold reallocate_core. rewrite G. cbn [py_eqb]. 
      change (py_eqb (@None string) (Some target)) with false. cbv iota.
      cbn [process_cores].
      destruct (PyDict.mem (process_cores st) target) eqn:M.
      * unfold PyDict.mem in M.
        destruct (PyDict.get (process_cores st) target) as [l |] eqn:Gl;
          [| discriminate M].
        destruct (py_in (List.last (f :: fr) 0) l) eqn:I.
        -- exists l. split; [exact Gl | now apply py_in_In].
        -- eexists. split; [apply get_set_same |].
           apply in_or_app. right. now left.
      * rewrite get_set_same. cbn [py_in existsb].
        eexists. split; [rewrite set_set; apply get_set_same |]. now left.
  - intros Lo. apply low_usage in Lo.
    assert (Hi : negb (Qle_bool u CPU_THRESHOLD_HIGH) = false).
    { apply negb_false_iff, Qle_bool_iff. apply low_usage in Lo.
      apply Qlt_le_weak. eapply Qlt_trans; [exact Lo | reflexivity]. }
    rewrite Hi, Lo. cbn [andb]. apply release_some_only_frees.
Qed.

Lemma all_to_A_consistent : Spec.tables_consistent Cluster.all_to_A.
Proof.
  apply (@init_cores_inv (fun _ => "A"%string)). intros i. discriminate.
Qed.

Lemma reallocate_core_keeps_tables_consistent_witness :
  Spec.members_owned (reallocate_core 0 (Some "B"%string) Cluster.all_to_A)
  /\ Spec.owners_listed (reallocate_core 0 (Some "B"%string) Cluster.all_to_A)
  /\ PyDict.get (core_allocation (reallocate_core 0 (Some "B"%string) Cluster.all_to_A)) 0
     = Some (Some "B"%string)
  /\ forall c', c' <> 0 ->
       PyDict.get (core_allocation (reallocate_core 0 (Some "B"%string) Cluster.all_to_A)) c'
       = PyDict.get (core_allocation Cluster.all_to_A) c'.
Proof.
  refine (@reallocate_core_keeps_tables_consistent 0 (Some "B"%string) Cluster.all_to_A
            (proj1 (proj2 all_to_A_consistent))
            (proj2 (proj2 all_to_A_consistent)) _).
  intros p E. injection E as <-. split; [discriminate |].
  vm_compute. discriminate.
Defined.

Lemma reallocate_core_to_same_owner_witness :
  core_allocation (reallocate_core 0 (Some "A"%string) Cluster.all_to_A)
  = core_allocation Cluster.all_to_A
  /\ (forall q l,
         PyDict.get (process_cores (reallocate_core 0 (Some "A"%string) Cluster.all_to_A)) q
         = Some l -> ~ In 0 l)
  /\ ~ Spec.owners_listed (reallocate_core 0 (Some "A"%string) Cluster.all_to_A).
Proof.
  refine (@reallocate_core_to_same_owner 0 "A"%string Cluster.all_to_A
            (proj1 (proj2 all_to_A_consistent)) _ _).
  - discriminate.
  - vm_compute. reflexivity.
Defined.

Lemma main_start_consistent_witness :
  Spec.tables_consistent Cluster.all_to_A
  /\ (forall i, 0 <= i < cpu_count ->
                PyDict.get (core_allocation Cluster.all_to_A) i = Some (Some "A"%string))
  /\ (forall i, ~ 0 <= i < cpu_count ->
                PyDict.get (core_allocation Cluster.all_to_A) i = None).
Proof.
  refine (@main_start_consistent (fun _ => "A"%string) _).
  intros i. left. reflexivity.
Defined.

Lemma hotplug_logic_keeps_consistency_witness :
  Spec.tables_consistent
    (hotplug_logic 10 "B"%string (fun _ => true) Cluster.all_to_A)
  /\ PyDict.keys
       (core_allocation (hotplug_logic 10 "B"%string (fun _ => true) Cluster.all_to_A))
     = PyDict.keys (core_allocation Cluster.all_to_A).
Proof.
  refine (@hotplug_logic_keeps_consistency 10 "B"%string (fun _ => true)
            Cluster.all_to_A all_to_A_consistent _).
  right. left. reflexivity.
Defined.

Lemma hotplug_logic_thresholds_witness :
  hotplug_logic 50 "B"%string (fun _ => true) Cluster.all_to_A = Cluster.all_to_A
  /\ Spec.cores_only_freed
       Cluster.all_to_A (hotplug_logic 10 "B"%string (fun _ => true) Cluster.all_to_A).
Proof.
  split.
  - refine (proj1 (@hotplug_logic_thresholds 50 "B"%string (fun _ => true)
                     Cluster.all_to_A (proj1 all_to_A_consistent)) _ _);
      vm_compute; discriminate.
  - refine (proj2 (proj2 (proj2
              (@hotplug_logic_thresholds 10 "B"%string (fun _ => true)
                 Cluster.all_to_A (proj1 all_to_A_consistent)))) _).
    vm_compute. reflexivity.
Defined.
End DynamicFacts.
